(** * Vacancy backend: availability, quotes and checkout

    A shallow embedding of [src/app.js] (an Express application over
    Postgres and Stripe) and the properties of its three routes:
    [GET /availability], [POST /quote] and [POST /checkout].

    - JavaScript numbers are IEEE-754 doubles.  The quantities the
      routes compute are integers or quotients of integers, so a finite
      double is represented by a mantissa and a binary exponent and
      every arithmetic operation of the source is followed by the
      rounding to 53 significant bits that the hardware performs.
    - Every [await] of a handler is an operation of a small program
      type; an interpreter runs the operations against the database, and
      a scheduler interleaves several handlers at their [await]s, the
      way the Node event loop does. *)

From Stdlib Require Import ZArith List String Ascii Bool Lia.
From Stdlib Require Import Permutation Sorted DecimalString.
Import ListNotations.
Local Open Scope string_scope.
(* [++] is list append unless marked [%string] *)
Local Close Scope list_scope.
Local Open Scope list_scope.
Local Open Scope Z_scope.

(** ** Strings and JavaScript values *)

(** A field of a request body or query string: absent ([undefined]) or
    a string. *)
Definition jsval := option string.

(** [!v] is true for [undefined] and for the empty string. *)
Definition truthy (v : jsval) : bool :=
  match v with
  | None => false
  | Some s => negb (s =? "")%string
  end.

(** Interpolation [`${v}`]. *)
Definition js_string (v : jsval) : string :=
  match v with
  | None => "undefined"
  | Some s => s
  end.

Definition lower_ascii (c : ascii) : ascii :=
  let n := nat_of_ascii c in
  if andb (Nat.leb 65 n) (Nat.leb n 90) then ascii_of_nat (n + 32) else c.

Definition upper_ascii (c : ascii) : ascii :=
  let n := nat_of_ascii c in
  if andb (Nat.leb 97 n) (Nat.leb n 122) then ascii_of_nat (n - 32) else c.

Fixpoint map_string (f : ascii -> ascii) (s : string) : string :=
  match s with
  | EmptyString => EmptyString
  | String c r => String (f c) (map_string f r)
  end.

(** [String.prototype.toLowerCase] and [toUpperCase], on the ASCII
    letters (currency codes are ASCII). *)
Definition toLowerCase : string -> string := map_string lower_ascii.
Definition toUpperCase : string -> string := map_string upper_ascii.

(** Decimal spelling of an integer, as [`${n}`] prints it. *)
Definition decimal (z : Z) : string := NilZero.string_of_int (Z.to_int z).

(** ** Calendar dates *)

Definition digit (c : ascii) : option Z :=
  let n := nat_of_ascii c in
  if andb (Nat.leb 48 n) (Nat.leb n 57) then Some (Z.of_nat n - 48) else None.

Definition digits2 (a b : ascii) : option Z :=
  match digit a, digit b with
  | Some x, Some y => Some (10 * x + y)
  | _, _ => None
  end.

Definition digits4 (a b c d : ascii) : option Z :=
  match digits2 a b, digits2 c d with
  | Some x, Some y => Some (100 * x + y)
  | _, _ => None
  end.

(** The spelling [YYYY-MM-DD] the routes document: year, month and day
    as written. *)
Definition parse_ymd (s : string) : option (Z * Z * Z) :=
  match s with
  | String y1 (String y2 (String y3 (String y4 (String h1
      (String m1 (String m2 (String h2
        (String d1 (String d2 EmptyString))))))))) =>
      if Ascii.eqb h1 "-" && Ascii.eqb h2 "-"
      then match digits4 y1 y2 y3 y4, digits2 m1 m2, digits2 d1 d2 with
           | Some y, Some m, Some d => Some (y, m, d)
           | _, _, _ => None
           end
      else None
  | _ => None
  end.

(** The year of the ECMAScript date-time string format and what follows
    it: four digits, or six digits after a sign (the expanded years);
    [-000000] is not a year. *)
Definition iso_year (s : string) : option (Z * string) :=
  match s with
  | String c r =>
      if Ascii.eqb c "+" || Ascii.eqb c "-"
      then match r with
           | String y1 (String y2 (String y3 (String y4 (String y5
               (String y6 rest))))) =>
               match digits2 y1 y2, digits4 y3 y4 y5 y6 with
               | Some a, Some b =>
                   let y := 10000 * a + b in
                   if Ascii.eqb c "-"
                   then (if y =? 0 then None else Some (- y, rest))
                   else Some (y, rest)
               | _, _ => None
               end
           | _ => None
           end
      else match r with
           | String y2 (String y3 (String y4 rest)) =>
               match digits4 c y2 y3 y4 with
               | Some y => Some (y, rest)
               | None => None
               end
           | _ => None
           end
  | EmptyString => None
  end.

(** The date part of that format: [YYYY], [YYYY-MM] or [YYYY-MM-DD],
    month and day of two digits each; a month or a day left out is 1. *)
Definition iso_date (s : string) : option (Z * Z * Z) :=
  match iso_year s with
  | Some (y, EmptyString) => Some (y, 1, 1)
  | Some (y, String h1 (String m1 (String m2 rest))) =>
      if Ascii.eqb h1 "-"
      then match digits2 m1 m2, rest with
           | Some m, EmptyString => Some (y, m, 1)
           | Some m, String h2 (String d1 (String d2 EmptyString)) =>
               if Ascii.eqb h2 "-"
               then match digits2 d1 d2 with
                    | Some d => Some (y, m, d)
                    | None => None
                    end
               else None
           | _, _ => None
           end
      else None
  | _ => None
  end.

(** Days from 1970-01-01 to the given civil date (proleptic
    Gregorian calendar).  The day of the month enters linearly, so a day
    past the end of the month runs over into the next one, as
    [MakeDay] does. *)
Definition days_from_civil (y m d : Z) : Z :=
  let y' := if m <=? 2 then y - 1 else y in
  let era := y' / 400 in
  let yoe := y' - era * 400 in
  let mp := (m + 9) mod 12 in
  let doy := (153 * mp + 2) / 5 + d - 1 in
  let doe := yoe * 365 + yoe / 4 - yoe / 100 + doy in
  era * 146097 + doe - 719468.

Definition leap_year (y : Z) : bool :=
  ((y mod 4 =? 0) && negb (y mod 100 =? 0)) || (y mod 400 =? 0).

Definition days_in_month (y m : Z) : Z :=
  if m =? 2 then (if leap_year y then 29 else 28)
  else if (m =? 4) || (m =? 6) || (m =? 9) || (m =? 11) then 30
  else 31.

Definition msPerDay : Z := 86400000.

(** The largest time value, in milliseconds on either side of the
    epoch: a hundred million days. *)
Definition maxTime : Z := 8640000000000000.

(** [toDate s = new Date(`${s}T00:00:00.000Z`)], as its time value in
    milliseconds; [None] is the Invalid Date, whose time value is NaN.
    With the time appended the string is a date-time of the ECMAScript
    format exactly when [s] is the date part of one; V8 then wants a
    month in 1..12 and a day in 1..31, lets the day run over the end of
    the month, and clips the time value to the range of [maxTime].  A
    string outside the format is left to the engine's own parser of
    other spellings, which reads no date once the [T] follows a number:
    so it is for every string of digits and hyphens.  What that parser
    may read of other strings is not modelled: they are read as invalid
    here. *)
Definition toDate (v : jsval) : option Z :=
  match iso_date (js_string v) with
  | Some (y, m, d) =>
      if (1 <=? m) && (m <=? 12) && (1 <=? d) && (d <=? 31)
      then let t := days_from_civil y m d * msPerDay in
           if Z.abs t <=? maxTime then Some t else None
      else None
  | None => None
  end.

(** A date in the spelling [YYYY-MM-DD], as Postgres reads it: the
    number of its day.  The day must exist in its month and the year
    0000 does not exist; [None] for these and for every other
    spelling. *)
Definition pg_date (s : string) : option Z :=
  match parse_ymd s with
  | Some (y, m, d) =>
      if (1 <=? y) && (1 <=? m) && (m <=? 12) && (1 <=? d)
         && (d <=? days_in_month y m)
      then Some (days_from_civil y m d)
      else None
  | None => None
  end.

(** One or two digits at the head of a string, and what follows
    them. *)
Definition short_number (s : string) : option (Z * string) :=
  match s with
  | String a r =>
      match digit a with
      | Some x =>
          match r with
          | String b r' =>
              match digit b with
              | Some y => Some (10 * x + y, r')
              | None => Some (x, r)
              end
          | EmptyString => Some (x, r)
          end
      | None => None
      end
  | EmptyString => None
  end.

(** The numeric spellings of a date that Postgres reads: a year of four
    digits, then either a hyphen, a month of one or two digits, a hyphen
    and a day of one or two digits, or the month and the day of two
    digits each with no separator ([YYYYMMDD]). *)
Definition date_fields (s : string) : option (Z * Z * Z) :=
  match s with
  | String y1 (String y2 (String y3 (String y4 (String h rest)))) =>
      match digits4 y1 y2 y3 y4 with
      | Some y =>
          if Ascii.eqb h "-"
          then match short_number rest with
               | Some (m, String h2 rest2) =>
                   if Ascii.eqb h2 "-"
                   then match short_number rest2 with
                        | Some (d, EmptyString) => Some (y, m, d)
                        | _ => None
                        end
                   else None
               | _ => None
               end
          else match rest with
               | String m2 (String d1 (String d2 EmptyString)) =>
                   match digits2 h m2, digits2 d1 d2 with
                   | Some m, Some d => Some (y, m, d)
                   | _, _ => None
                   end
               | _ => None
               end
      | None => None
      end
  | _ => None
  end.

(** [date_in], the input function of the type [date]: the value
    Postgres gives a text parameter compared with or stored into a
    [date] column, or [None] when the input is refused (the statement
    then fails).  The day must exist in its month and there is no year
    0000.  Postgres reads more spellings than the numeric ones (names of
    months, other separators, words such as [today]); those are not
    modelled and count as refused here. *)
Definition date_in (s : string) : option Z :=
  match date_fields s with
  | Some (y, m, d) =>
      if (1 <=? y) && (1 <=? m) && (m <=? 12) && (1 <=? d)
         && (d <=? days_in_month y m)
      then Some (days_from_civil y m d)
      else None
  | None => None
  end.

(** ** Numbers *)

(** A finite double, [mant * 2 ^ expo].  The exponent is not bounded:
    the quantities of this program are far from the overflow and
    underflow thresholds of the format. *)
Record double := { mant : Z; expo : Z }.

(** Quotient [n / d] rounded to the nearest integer, ties to even
    ([0 < d]). *)
Definition rne (n d : Z) : Z :=
  let q := n / d in
  let r := n mod d in
  if 2 * r <? d then q
  else if d <? 2 * r then q + 1
  else if Z.even q then q else q + 1.

(** The double nearest to [n / d] for [0 <= n] and [0 < d]: the exponent
    is chosen so that the mantissa has 53 bits. *)
Definition fl_pos (n d : Z) : double :=
  if n =? 0 then {| mant := 0; expo := 0 |}
  else
    let e0 := Z.log2 n - Z.log2 d - 53 in
    let e := if 2 ^ 53 * (d * 2 ^ Z.max 0 e0) <=? n * 2 ^ Z.max 0 (- e0)
             then e0 + 1 else e0 in
    {| mant := rne (n * 2 ^ Z.max 0 (- e)) (d * 2 ^ Z.max 0 e); expo := e |}.

Definition fl (n d : Z) : double :=
  if n <? 0
  then let x := fl_pos (- n) d in {| mant := - mant x; expo := expo x |}
  else fl_pos n d.

(** [Math.ceil]. *)
Definition js_ceil (x : double) : Z :=
  if 0 <=? expo x then mant x * 2 ^ expo x
  else - ((- mant x) / 2 ^ (- expo x)).

(** An integer stored in a double: the nearest representable value,
    itself an integer. *)
Definition round53 (z : Z) : Z := js_ceil (fl z 1).

(** A number whose value is an integer, or NaN. *)
Inductive Number : Type :=
| NaN
| Num (z : Z).

Definition js_mul (a b : Number) : Number :=
  match a, b with
  | Num x, Num y => Num (round53 (x * y))
  | _, _ => NaN
  end.

Definition two_digits (z : Z) : string :=
  if z <? 10 then ("0" ++ decimal z)%string else decimal z.

(** [x.toFixed(2)]: the integer [n] nearest to [100 * x], the larger one
    on a tie, printed with a point before its last two digits.  From
    [1e21] on, JavaScript prints the number in exponent notation, which
    is not modelled: the result is then [None]. *)
Definition toFixed2 (x : double) : option string :=
  let neg := mant x <? 0 in
  let m := Z.abs (mant x) in
  let n := if 0 <=? expo x then 100 * m * 2 ^ expo x
           else (200 * m + 2 ^ (- expo x)) / 2 ^ (1 - expo x) in
  let big := if 0 <=? expo x then 10 ^ 21 <=? m * 2 ^ expo x
             else 10 ^ 21 * 2 ^ (- expo x) <=? m in
  if big then None
  else Some ((if neg then "-" else "")
             ++ decimal (n / 100) ++ "." ++ two_digits (n mod 100))%string.

(** [Math.ceil((toDate(b) - toDate(a)) / 86400000)] *)
Definition nightsBetween (a b : jsval) : Number :=
  match toDate b, toDate a with
  | Some tb, Some ta => Num (js_ceil (fl (round53 (tb - ta)) msPerDay))
  | _, _ => NaN
  end.

(** [toDate(checkout) <= toDate(checkin)]; a comparison with NaN is
    false. *)
Definition not_after (checkout checkin : jsval) : bool :=
  match toDate checkout, toDate checkin with
  | Some b, Some a => b <=? a
  | _, _ => false
  end.

(** ** Tables *)

Module Property.
(** A row of [properties]: the columns the queries select. *)
Record t := {
  id : string;
  slug : string;
  name : string;
  currency : jsval;                  (* NULL when [None] *)
  price_per_night_cents : option Z   (* NULL when [None] *)
}.
End Property.

Module Reservation.
(** A row of [reservations]; dates are day numbers, the value of a
    [date] column. *)
Record t := {
  id : Z;
  property_id : string;
  checkin : Z;
  checkout : Z;
  guests : Z;
  email : string;
  status : string
}.
End Reservation.

(** The committed tables and the generator of reservation identifiers
    (the column default behind [returning id]; like a Postgres sequence
    it is not rewound by a rollback). *)
Record Db := {
  properties : list Property.t;
  reservations : list Reservation.t;
  next_id : Z
}.

(** A connection checked out of the pool: whether a transaction is
    open, and the rows it has inserted and not yet committed. *)
Record Client := {
  in_txn : bool;
  pending : list Reservation.t;
  released : bool
}.

Record World := {
  db : Db;
  clients : list Client
}.

Definition fresh_client : Client :=
  {| in_txn := false; pending := []; released := false |}.

(** A connection given back to the pool with no transaction open. *)
Definition closed_client : Client :=
  {| in_txn := false; pending := []; released := true |}.

Definition get_client (w : World) (c : nat) : Client :=
  nth c (clients w) fresh_client.

Fixpoint set_nth {A} (n : nat) (x : A) (l : list A) : list A :=
  match n, l with
  | _, [] => []
  | O, _ :: r => x :: r
  | S n', y :: r => y :: set_nth n' x r
  end.

Definition set_client (w : World) (c : nat) (cl : Client) : World :=
  {| db := db w; clients := set_nth c cl (clients w) |}.

(** The world in which the last connection checked out is [cl]. *)
Definition with_client (d : Db) (cs : list Client) (cl : Client) : World :=
  {| db := d; clients := cs ++ [cl] |}.

Definition set_reservations (d : Db) (rs : list Reservation.t) : Db :=
  {| properties := properties d; reservations := rs; next_id := next_id d |}.

(** [status in ('pending','paid')] *)
Definition active (r : Reservation.t) : bool :=
  (Reservation.status r =? "pending")%string
  || (Reservation.status r =? "paid")%string.

(** [not (checkout <= $2 or checkin >= $3)] *)
Definition overlaps (r : Reservation.t) (d2 d3 : Z) : bool :=
  negb ((Reservation.checkout r <=? d2) || (Reservation.checkin r >=? d3)).

(** The [where] clause shared by the availability and the conflict
    query. *)
Definition occupies (pid : string) (d2 d3 : Z) (r : Reservation.t) : bool :=
  (Reservation.property_id r =? pid)%string && active r && overlaps r d2 d3.

(** [s] between double quotes. *)
Definition quoted (s : string) : string :=
  String (ascii_of_nat 34) (s ++ String (ascii_of_nat 34) EmptyString)%string.

(** The message of the error Postgres raises for a text it does not
    take for a date: the fields of a date that cannot be, or no date at
    all.  The message names the text. *)
Definition bad_date (s : string) : string :=
  match date_fields s with
  | Some _ => ("date/time field value out of range: " ++ quoted s)%string
  | None => ("invalid input syntax for type date: " ++ quoted s)%string
  end.

(** The rows selected for the text parameters [$2] and [$3].  A
    parameter that is not a date makes the statement fail, the first
    such one being reported; a null parameter makes the condition null
    for every row. *)
Definition select_where (pid : string) (p2 p3 : jsval)
    (rows : list Reservation.t) : string + list Reservation.t :=
  match p2, p3 with
  | Some s2, Some s3 =>
      match date_in s2, date_in s3 with
      | Some d2, Some d3 => inr (filter (occupies pid d2 d3) rows)
      | None, _ => inl (bad_date s2)
      | Some _, None => inl (bad_date s3)
      end
  | Some s, None | None, Some s =>
      match date_in s with
      | Some _ => inr []
      | None => inl (bad_date s)
      end
  | None, None => inr []
  end.

(** [order by checkin asc], by insertion. *)
Fixpoint insert_by_checkin (r : Reservation.t) (l : list Reservation.t)
  : list Reservation.t :=
  match l with
  | [] => [r]
  | x :: l' =>
      if Reservation.checkin r <? Reservation.checkin x
      then r :: l
      else x :: insert_by_checkin r l'
  end.

Fixpoint order_by_checkin (l : list Reservation.t) : list Reservation.t :=
  match l with
  | [] => []
  | r :: l' => insert_by_checkin r (order_by_checkin l')
  end.

(** ** Responses and the payment session *)

Module Occupied.
(** [select id, checkin, checkout, status] *)
Record t := {
  id : Z;
  checkin : Z;
  checkout : Z;
  status : string
}.
End Occupied.

Definition occupied_of (r : Reservation.t) : Occupied.t :=
  {| Occupied.id := Reservation.id r;
     Occupied.checkin := Reservation.checkin r;
     Occupied.checkout := Reservation.checkout r;
     Occupied.status := Reservation.status r |}.

(** [{ id: prop.id, slug: prop.slug, name: prop.name }] *)
Record PropertyRef := {
  ref_id : string;
  ref_slug : string;
  ref_name : string
}.

Definition property_ref (p : Property.t) : PropertyRef :=
  {| ref_id := Property.id p;
     ref_slug := Property.slug p;
     ref_name := Property.name p |}.

Inductive Body : Type :=
| Bad (error : string)
| AvailabilityBody (property : PropertyRef) (from to : jsval)
    (occupied : list Occupied.t)
| QuoteBody (property : PropertyRef) (checkin checkout : jsval)
    (nights : Number) (currency : string) (price_per_night_cents : Number)
    (total_cents : Number) (total_formatted : option string)
| CheckoutBody (reservation_id : Z) (checkout_url : string)
    (amount_cents : Number) (currency : string).

Record Response := {
  status : Z;
  body : Body
}.

(** [res.status(code).json(body)] *)
Definition respond (code : Z) (b : Body) : Response :=
  {| status := code; body := b |}.

(** [res.json(body)] *)
Definition respond_ok (b : Body) : Response := respond 200 b.

(** [bad(msg)] *)
Definition bad (msg : string) : Body := Bad msg.

(** The argument of [stripe.checkout.sessions.create]. *)
Record SessionParams := {
  mode : string;
  success_url : string;
  cancel_url : string;
  customer_email : jsval;
  line_currency : string;
  product_name : string;
  product_description : string;
  unit_amount : Number;
  quantity : Z;
  meta_reservation_id : Z;
  meta_property_id : string;
  meta_property_slug : string;
  meta_checkin : jsval;
  meta_checkout : jsval
}.

(** ** Operations *)

(** What a handler awaits.  Statements sent with [pool.query] carry no
    connection; those sent with [client.query] name the connection. *)
Inductive Op : Type -> Type :=
| Connect : Op nat
| SelectProperty (by_id : bool) (key : jsval) : Op (list Property.t)
| SelectOccupied (pid : string) (from to : jsval) : Op (list Occupied.t)
| SelectConflicts (c : nat) (pid : string) (checkin checkout : jsval) : Op Z
| Begin (c : nat) : Op unit
| InsertReservation (c : nat) (pid : string) (checkin checkout : jsval)
    (guests : Z) (email : jsval) : Op Z
| CreateSession (p : SessionParams) : Op string
| Commit (c : nat) : Op unit
| Rollback (c : nat) : Op unit
| Release (c : nat) : Op unit.

(** What happened, in order.  A statement on a connection records
    whether it ran inside an open transaction. *)
Inductive Event : Type :=
| EConnect (c : nat)
| ESelectProperty
| ESelectOccupied
| ESelectConflicts (c : nat) (inside : bool)
| EBegin (c : nat)
| EInsert (c : nat) (inside : bool)
| ECreateSession (ok : bool)
| ECommit (c : nat)
| ERollback (c : nat)
| ERelease (c : nat).

Definition not_null : string := "null value violates not-null constraint".

Section Exec.

(** The payment gateway: an error message or the URL of the session. *)
Variable stripe : SessionParams -> string + string.

Definition select_property (by_id : bool) (key : jsval) (d : Db)
  : list Property.t :=
  match key with
  | None => []
  | Some k =>
      filter (fun p => if by_id then (Property.id p =? k)%string
                       else (Property.slug p =? k)%string)
             (properties d)
  end.

(** The rows a statement on connection [c] sees: the committed ones
    and those of its own transaction. *)
Definition visible (w : World) (c : nat) : list Reservation.t :=
  reservations (db w) ++ pending (get_client w c).

Definition insert_row (w : World) (c : nat) (row : Reservation.t) : World :=
  let cl := get_client w c in
  let d := db w in
  if in_txn cl
  then {| db := {| properties := properties d;
                   reservations := reservations d;
                   next_id := next_id d + 1 |};
          clients := set_nth c {| in_txn := true;
                                  pending := pending cl ++ [row];
                                  released := released cl |} (clients w) |}
  else {| db := {| properties := properties d;
                   reservations := reservations d ++ [row];
                   next_id := next_id d + 1 |};
          clients := clients w |}.

(** One operation carried out: its outcome (an error or a value), the
    world afterwards and the events recorded.  A statement fails when a
    text parameter is not a date for the database, and the gateway fails
    when it says so.  The pool has a connection to give and the
    connection taken stays up: [BEGIN], [COMMIT], [ROLLBACK] and the
    selects on the properties table succeed. *)
Definition exec {X} (o : Op X) (w : World)
  : (string + X) * World * list Event :=
  match o in Op X return (string + X) * World * list Event with
  | Connect =>
      let c := List.length (clients w) in
      (inr c, {| db := db w; clients := clients w ++ [fresh_client] |},
       [EConnect c])
  | SelectProperty by_id key =>
      (inr (select_property by_id key (db w)), w, [ESelectProperty])
  | SelectOccupied pid from to =>
      (match select_where pid from to (reservations (db w)) with
       | inl e => inl e
       | inr rows => inr (map occupied_of (order_by_checkin rows))
       end, w, [ESelectOccupied])
  | SelectConflicts c pid checkin checkout =>
      (match select_where pid checkin checkout (visible w c) with
       | inl e => inl e
       | inr rows => inr (Z.of_nat (List.length rows))
       end, w, [ESelectConflicts c (in_txn (get_client w c))])
  | Begin c =>
      let cl := get_client w c in
      (inr tt,
       set_client w c {| in_txn := true; pending := pending cl;
                         released := released cl |},
       [EBegin c])
  | InsertReservation c pid checkin checkout guests email =>
      let ev := [EInsert c (in_txn (get_client w c))] in
      match checkin, checkout, email with
      | Some s1, Some s2, Some em =>
          match date_in s1, date_in s2 with
          | Some d1, Some d2 =>
              let id := next_id (db w) in
              (inr id,
               insert_row w c
                 {| Reservation.id := id;
                    Reservation.property_id := pid;
                    Reservation.checkin := d1;
                    Reservation.checkout := d2;
                    Reservation.guests := guests;
                    Reservation.email := em;
                    Reservation.status := "pending" |},
               ev)
          | None, _ => (inl (bad_date s1), w, ev)
          | Some _, None => (inl (bad_date s2), w, ev)
          end
      | _, _, _ => (inl not_null, w, ev)
      end
  | CreateSession p =>
      match stripe p with
      | inl e => (inl e, w, [ECreateSession false])
      | inr url => (inr url, w, [ECreateSession true])
      end
  | Commit c =>
      let cl := get_client w c in
      (inr tt,
       {| db := set_reservations (db w) (reservations (db w) ++ pending cl);
          clients := set_nth c {| in_txn := false; pending := [];
                                  released := released cl |} (clients w) |},
       [ECommit c])
  | Rollback c =>
      let cl := get_client w c in
      (inr tt,
       set_client w c {| in_txn := false; pending := [];
                         released := released cl |},
       [ERollback c])
  | Release c =>
      let cl := get_client w c in
      (inr tt,
       set_client w c {| in_txn := in_txn cl; pending := pending cl;
                         released := true |},
       [ERelease c])
  end.

End Exec.

(** ** Handlers as programs *)

(** An [async] function: it returns, throws, or awaits an operation and
    goes on with the outcome, an error or a value. *)
Inductive Prog (A : Type) : Type :=
| Ret (a : A)
| Throw (e : string)
| Await {X : Type} (o : Op X) (k : string + X -> Prog A).

Arguments Ret {A} a.
Arguments Throw {A} e.
Arguments Await {A X} o k.

Fixpoint bind {A B} (p : Prog A) (f : A -> Prog B) : Prog B :=
  match p with
  | Ret a => f a
  | Throw e => Throw e
  | Await o k => Await o (fun r => bind (k r) f)
  end.

Notation "x <- p ;; q" := (bind p (fun x => q))
  (at level 61, p at next level, right associativity).

(** [await o]: a rejected promise is thrown at the [await]. *)
Definition await {X} (o : Op X) : Prog X :=
  Await o (fun r => match r with
                    | inl e => Throw e
                    | inr x => Ret x
                    end).

(** [try { p } catch (e) { h e }] *)
Fixpoint try_catch {A} (p : Prog A) (h : string -> Prog A) : Prog A :=
  match p with
  | Ret a => Ret a
  | Throw e => h e
  | Await o k => Await o (fun r => try_catch (k r) h)
  end.

(** [try { p } finally { f }] *)
Fixpoint finally {A} (p : Prog A) (f : Prog unit) : Prog A :=
  match p with
  | Ret a => _ <- f ;; Ret a
  | Throw e => _ <- f ;; Throw e
  | Await o k => Await o (fun r => finally (k r) f)
  end.

(** [promise.catch(() => {})] *)
Definition ignore_rejection (p : Prog unit) : Prog unit :=
  try_catch p (fun _ => Ret tt).

(** [v || d] on a nullable text column. *)
Definition or_default (v : jsval) (d : string) : string :=
  if truthy v then js_string v else d.

(** [Number(v || 0)] and [Number(v)] on a nullable integer column: null
    gives 0 both ways, an integer its nearest double. *)
Definition to_Number (v : option Z) : Number :=
  match v with
  | None => Num 0
  | Some z => Num (round53 z)
  end.

(** [`${n}`] *)
Definition show_Number (n : Number) : string :=
  match n with
  | NaN => "NaN"
  | Num z => decimal z
  end.

(** [`${(amountCents / 100).toFixed(2)} ${currency}`] *)
Definition format_total (amountCents : Number) (currency : string)
  : option string :=
  match amountCents with
  | NaN => Some ("NaN " ++ currency)%string
  | Num n =>
      match toFixed2 (fl n 100) with
      | Some s => Some (s ++ " " ++ currency)%string
      | None => None
      end
  end.

Module Query.
(** [req.query] of [GET /availability] *)
Record t := {
  property_slug : jsval;
  property_id : jsval;
  from : jsval;
  to : jsval
}.
End Query.

Module QuoteReq.
(** [req.body] of [POST /quote] *)
Record t := {
  property_slug : jsval;
  property_id : jsval;
  checkin : jsval;
  checkout : jsval
}.
End QuoteReq.

Module CheckoutReq.
(** [req.body] of [POST /checkout]; [guests] is a number when given. *)
Record t := {
  property_slug : jsval;
  property_id : jsval;
  checkin : jsval;
  checkout : jsval;
  email : jsval;
  guests : option Z
}.
End CheckoutReq.

Definition getProperty (id slug : jsval) : Prog (option Property.t) :=
  if negb (truthy id) && negb (truthy slug) then Ret None
  else
    rows <- await (if truthy id then SelectProperty true id
                   else SelectProperty false slug) ;;
    Ret (match rows with
         | [] => None
         | r :: _ => Some r
         end).

Definition availability (q : Query.t) : Prog Response :=
  let from := Query.from q in
  let to := Query.to q in
  try_catch
    (if negb (truthy from) || negb (truthy to)
     then Ret (respond 400 (bad "from/to mancanti"))
     else
       prop <- getProperty (Query.property_id q) (Query.property_slug q) ;;
       match prop with
       | None => Ret (respond 404 (bad "property non trovata"))
       | Some prop =>
           rows <- await (SelectOccupied (Property.id prop) from to) ;;
           Ret (respond_ok
                  (AvailabilityBody (property_ref prop) from to
                     (map (fun r =>
                             {| Occupied.id := Occupied.id r;
                                Occupied.checkin := Occupied.checkin r;
                                Occupied.checkout := Occupied.checkout r;
                                Occupied.status := Occupied.status r |})
                          rows)))
       end)
    (fun e => Ret (respond 500 (bad e))).

Definition quote (b : QuoteReq.t) : Prog Response :=
  let checkin := QuoteReq.checkin b in
  let checkout := QuoteReq.checkout b in
  try_catch
    (if negb (truthy checkin) || negb (truthy checkout)
     then Ret (respond 400 (bad "checkin/checkout mancanti"))
     else if not_after checkout checkin
     then Ret (respond 400 (bad "checkout deve essere > checkin"))
     else
       prop <- getProperty (QuoteReq.property_id b)
                           (QuoteReq.property_slug b) ;;
       match prop with
       | None => Ret (respond 404 (bad "property non trovata"))
       | Some prop =>
           let nights := nightsBetween checkin checkout in
           let amountCents :=
             js_mul nights (to_Number (Property.price_per_night_cents prop)) in
           Ret (respond_ok
                  (QuoteBody (property_ref prop) checkin checkout nights
                     (or_default (Property.currency prop) "EUR")
                     (to_Number (Property.price_per_night_cents prop))
                     amountCents
                     (format_total amountCents
                        (or_default (Property.currency prop) "EUR"))))
       end)
    (fun e => Ret (respond 500 (bad e))).

Section Checkout.

(** [process.env.FRONTEND_URL] *)
Variable FRONTEND_URL : jsval.

Definition session_params (prop : Property.t) (checkin checkout email : jsval)
    (nights amountCents : Number) (currency : string) (reservationId : Z)
  : SessionParams :=
  {| mode := "payment";
     success_url :=
       (js_string FRONTEND_URL
        ++ "/success?session_id={CHECKOUT_SESSION_ID}&reservation_id="
        ++ decimal reservationId)%string;
     cancel_url :=
       (js_string FRONTEND_URL ++ "/cancel?reservation_id="
        ++ decimal reservationId)%string;
     customer_email := email;
     line_currency := currency;
     product_name := ("Soggiorno: " ++ Property.name prop)%string;
     product_description :=
       (js_string checkin ++ " → " ++ js_string checkout ++ " · "
        ++ show_Number nights ++ " notti")%string;
     unit_amount := amountCents;
     quantity := 1;
     meta_reservation_id := reservationId;
     meta_property_id := Property.id prop;
     meta_property_slug := Property.slug prop;
     meta_checkin := checkin;
     meta_checkout := checkout |}.

Definition checkout (b : CheckoutReq.t) : Prog Response :=
  client <- await Connect ;;
  let checkin := CheckoutReq.checkin b in
  let checkout := CheckoutReq.checkout b in
  let email := CheckoutReq.email b in
  let guests := match CheckoutReq.guests b with
                | Some g => g
                | None => 1
                end in
  finally
    (try_catch
       (if negb (truthy email)
        then Ret (respond 400 (bad "email mancante"))
        else if negb (truthy checkin) || negb (truthy checkout)
        then Ret (respond 400 (bad "checkin/checkout mancanti"))
        else if not_after checkout checkin
        then Ret (respond 400 (bad "checkout deve essere > checkin"))
        else
          prop <- getProperty (CheckoutReq.property_id b)
                              (CheckoutReq.property_slug b) ;;
          match prop with
          | None => Ret (respond 404 (bad "property non trovata"))
          | Some prop =>
              conflicts <- await (SelectConflicts client (Property.id prop)
                                    checkin checkout) ;;
              if conflicts >? 0
              then Ret (respond 409 (bad "date non disponibili"))
              else
                let nights := nightsBetween checkin checkout in
                let amountCents :=
                  js_mul nights
                    (to_Number (Property.price_per_night_cents prop)) in
                let currency :=
                  toLowerCase (or_default (Property.currency prop) "EUR") in
                _ <- await (Begin client) ;;
                reservationId <- await (InsertReservation client
                                          (Property.id prop) checkin checkout
                                          guests email) ;;
                url <- await (CreateSession
                                (session_params prop checkin checkout email
                                   nights amountCents currency
                                   reservationId)) ;;
                _ <- await (Commit client) ;;
                Ret (respond 201
                       (CheckoutBody reservationId url amountCents
                          (toUpperCase currency)))
          end)
       (fun e =>
          _ <- ignore_rejection (await (Rollback client)) ;;
          Ret (respond 500 (bad e))))
    (await (Release client)).

End Checkout.

(** ** Running programs *)

Section Run.

Variable stripe : SessionParams -> string + string.

(** One handler run from its first operation to its last, nothing
    else touching the database meanwhile. *)
Fixpoint run {A} (p : Prog A) (w : World)
  : (string + A) * World * list Event :=
  match p with
  | Ret a => (inr a, w, [])
  | Throw e => (inl e, w, [])
  | Await o k =>
      let '(r, w1, ev) := exec stripe o w in
      let '(res, w2, tr) := run (k r) w1 in
      (res, w2, ev ++ tr)
  end.

(** The same run when the first operation the handler awaits is
    rejected with [e] instead of being carried out: the handler goes on
    from that [await] with the error. *)
Definition run_rejected {A} (e : string) (p : Prog A) (w : World)
  : (string + A) * World * list Event :=
  match p with
  | Await _ k => run (k (inl e)) w
  | _ => run p w
  end.

(** The handler proceeds to its next [await]. *)
Definition step {A} (p : Prog A) (w : World) : Prog A * World * list Event :=
  match p with
  | Await o k => let '(r, w1, ev) := exec stripe o w in (k r, w1, ev)
  | _ => (p, w, [])
  end.

Fixpoint step_nth {A} (i : nat) (ps : list (Prog A)) (w : World)
  : list (Prog A) * World * list Event :=
  match i, ps with
  | _, [] => ([], w, [])
  | O, p :: r => let '(p', w1, ev) := step p w in (p' :: r, w1, ev)
  | S i', p :: r =>
      let '(r', w1, ev) := step_nth i' r w in (p :: r', w1, ev)
  end.

(** Several handlers in flight; the schedule names, step by step, the
    handler whose awaited operation completes next. *)
Fixpoint interleave {A} (sched : list nat) (ps : list (Prog A)) (w : World)
  : list (Prog A) * World * list Event :=
  match sched with
  | [] => (ps, w, [])
  | i :: rest =>
      let '(ps1, w1, ev) := step_nth i ps w in
      let '(ps2, w2, tr) := interleave rest ps1 w1 in
      (ps2, w2, ev ++ tr)
  end.

(** Handlers run one after another, each to completion. *)
Fixpoint run_all {A} (ps : list (Prog A)) (w : World)
  : list (string + A) * World :=
  match ps with
  | [] => ([], w)
  | p :: rest =>
      let '(r, w1, _) := run p w in
      let '(rs, w2) := run_all rest w1 in
      (r :: rs, w2)
  end.

End Run.

(** ** Sequential summaries

    What a handler amounts to when it runs alone: the same decisions
    as the program above, with the database threaded by hand.  The
    lemmas of the next part show that [run] computes exactly these. *)

(** The key [getProperty] searches with, and the row it returns. *)
Definition lookup (d : Db) (id slug : jsval) : option Property.t :=
  if negb (truthy id) && negb (truthy slug) then None
  else hd_error (select_property (truthy id)
                   (if truthy id then id else slug) d).

Definition lookup_events (id slug : jsval) : list Event :=
  if negb (truthy id) && negb (truthy slug) then [] else [ESelectProperty].

(** The three checks at the head of [POST /checkout], in order. *)
Definition checkout_rejects (b : CheckoutReq.t) : option string :=
  if negb (truthy (CheckoutReq.email b)) then Some "email mancante"
  else if negb (truthy (CheckoutReq.checkin b))
          || negb (truthy (CheckoutReq.checkout b))
  then Some "checkin/checkout mancanti"
  else if not_after (CheckoutReq.checkout b) (CheckoutReq.checkin b)
  then Some "checkout deve essere > checkin"
  else None.

(** The two checks at the head of [POST /quote]. *)
Definition quote_rejects (b : QuoteReq.t) : option string :=
  if negb (truthy (QuoteReq.checkin b)) || negb (truthy (QuoteReq.checkout b))
  then Some "checkin/checkout mancanti"
  else if not_after (QuoteReq.checkout b) (QuoteReq.checkin b)
  then Some "checkout deve essere > checkin"
  else None.

Definition pending_row (id : Z) (pid : string) (d1 d2 guests : Z)
    (email : string) : Reservation.t :=
  {| Reservation.id := id;
     Reservation.property_id := pid;
     Reservation.checkin := d1;
     Reservation.checkout := d2;
     Reservation.guests := guests;
     Reservation.email := email;
     Reservation.status := "pending" |}.

Definition bump (d : Db) : Db :=
  {| properties := properties d;
     reservations := reservations d;
     next_id := next_id d + 1 |}.

Section Summary.

Variable stripe : SessionParams -> string + string.
Variable FRONTEND_URL : jsval.

(** [POST /checkout] run alone on connection [c]: the response, the
    tables afterwards and the events. *)
Definition checkout_alone (b : CheckoutReq.t) (d : Db) (c : nat)
  : Response * Db * list Event :=
  let checkin := CheckoutReq.checkin b in
  let checkout := CheckoutReq.checkout b in
  let email := CheckoutReq.email b in
  let id := CheckoutReq.property_id b in
  let slug := CheckoutReq.property_slug b in
  match checkout_rejects b with
  | Some msg => (respond 400 (bad msg), d, [EConnect c; ERelease c])
  | None =>
      match lookup d id slug with
      | None =>
          (respond 404 (bad "property non trovata"), d,
           EConnect c :: lookup_events id slug ++ [ERelease c])
      | Some prop =>
          let head :=
            EConnect c :: lookup_events id slug
              ++ [ESelectConflicts c false] in
          match select_where (Property.id prop) checkin checkout
                  (reservations d) with
          | inl e =>
              (respond 500 (bad e), d, head ++ [ERollback c; ERelease c])
          | inr (_ :: _) =>
              (respond 409 (bad "date non disponibili"), d,
               head ++ [ERelease c])
          | inr [] =>
              let nights := nightsBetween checkin checkout in
              let amountCents :=
                js_mul nights
                  (to_Number (Property.price_per_night_cents prop)) in
              let currency :=
                toLowerCase (or_default (Property.currency prop) "EUR") in
              match date_in (js_string checkin),
                    date_in (js_string checkout) with
              | Some d1, Some d2 =>
                  let rid := next_id d in
                  match stripe (session_params FRONTEND_URL prop checkin
                                  checkout email nights amountCents currency
                                  rid) with
                  | inl e =>
                      (respond 500 (bad e), bump d,
                       head ++ [EBegin c; EInsert c true;
                                ECreateSession false; ERollback c;
                                ERelease c])
                  | inr url =>
                      (respond 201
                         (CheckoutBody rid url amountCents
                            (toUpperCase currency)),
                       set_reservations (bump d)
                         (reservations d
                          ++ [pending_row rid (Property.id prop) d1 d2
                                (match CheckoutReq.guests b with
                                 | Some g => g
                                 | None => 1
                                 end)
                                (js_string email)]),
                       head ++ [EBegin c; EInsert c true;
                                ECreateSession true; ECommit c; ERelease c])
                  end
              | None, _ =>
                  (respond 500 (bad (bad_date (js_string checkin))), d,
                   head ++ [EBegin c; EInsert c true; ERollback c;
                            ERelease c])
              | Some _, None =>
                  (respond 500 (bad (bad_date (js_string checkout))), d,
                   head ++ [EBegin c; EInsert c true; ERollback c;
                            ERelease c])
              end
          end
      end
  end.

End Summary.

(** [POST /quote] run alone: the response and the events. *)
Definition quote_alone (b : QuoteReq.t) (d : Db) : Response * list Event :=
  let checkin := QuoteReq.checkin b in
  let checkout := QuoteReq.checkout b in
  let id := QuoteReq.property_id b in
  let slug := QuoteReq.property_slug b in
  match quote_rejects b with
  | Some msg => (respond 400 (bad msg), [])
  | None =>
      match lookup d id slug with
      | None =>
          (respond 404 (bad "property non trovata"), lookup_events id slug)
      | Some prop =>
          let nights := nightsBetween checkin checkout in
          let price := to_Number (Property.price_per_night_cents prop) in
          let amountCents := js_mul nights price in
          let currency := or_default (Property.currency prop) "EUR" in
          (respond_ok
             (QuoteBody (property_ref prop) checkin checkout nights currency
                price amountCents (format_total amountCents currency)),
           lookup_events id slug)
      end
  end.

(** [GET /availability] run alone: the response and the events. *)
Definition availability_alone (q : Query.t) (d : Db)
  : Response * list Event :=
  let from := Query.from q in
  let to := Query.to q in
  let id := Query.property_id q in
  let slug := Query.property_slug q in
  if negb (truthy from) || negb (truthy to)
  then (respond 400 (bad "from/to mancanti"), [])
  else
    match lookup d id slug with
    | None =>
        (respond 404 (bad "property non trovata"), lookup_events id slug)
    | Some prop =>
        match select_where (Property.id prop) from to (reservations d) with
        | inl e =>
            (respond 500 (bad e), lookup_events id slug ++ [ESelectOccupied])
        | inr rows =>
            (respond_ok
               (AvailabilityBody (property_ref prop) from to
                  (map occupied_of (order_by_checkin rows))),
             lookup_events id slug ++ [ESelectOccupied])
        end
    end.

(** The events that read or write the [reservations] table. *)
Definition on_reservations (e : Event) : bool :=
  match e with
  | ESelectOccupied | ESelectConflicts _ _ | EInsert _ _ => true
  | _ => false
  end.

(** What the field checks of [POST /quote] refuse. *)
Definition quote_invalid (b : QuoteReq.t) : Prop :=
  truthy (QuoteReq.checkin b) = false
  \/ truthy (QuoteReq.checkout b) = false
  \/ exists ta tb,
       toDate (QuoteReq.checkin b) = Some ta
       /\ toDate (QuoteReq.checkout b) = Some tb /\ tb <= ta.

(** What the field checks of [POST /checkout] refuse. *)
Definition checkout_invalid (b : CheckoutReq.t) : Prop :=
  truthy (CheckoutReq.email b) = false
  \/ truthy (CheckoutReq.checkin b) = false
  \/ truthy (CheckoutReq.checkout b) = false
  \/ exists ta tb,
       toDate (CheckoutReq.checkin b) = Some ta
       /\ toDate (CheckoutReq.checkout b) = Some tb /\ tb <= ta.

(** Two half-open ranges [[a1, a2)] and [[b1, b2)] overlap. *)
Definition ranges_overlap (a1 a2 b1 b2 : Z) : Prop :=
  ~ (a2 <= b1 \/ a1 >= b2).

(** A trace in which every conflict check runs inside an open
    transaction. *)
Definition check_inside_transaction (tr : list Event) : Prop :=
  forall c inside, In (ESelectConflicts c inside) tr -> inside = true.

(** The request range [[a1, a2)] meets an active reservation of the
    property. *)
Definition taken (rs : list Reservation.t) (pid : string) (a1 a2 : Z) : Prop :=
  exists r,
    In r rs
    /\ Reservation.property_id r = pid
    /\ (Reservation.status r = "pending" \/ Reservation.status r = "paid")
    /\ ranges_overlap a1 a2 (Reservation.checkin r) (Reservation.checkout r).

(** The order of [order by checkin asc]. *)
Definition checkin_le (a b : Reservation.t) : Prop :=
  Reservation.checkin a <= Reservation.checkin b.

(** The invariant of the reservations table: two distinct active rows of
    one property never overlap. *)
Definition no_double_booking (rs : list Reservation.t) : Prop :=
  forall i j r s,
    nth_error rs i = Some r -> nth_error rs j = Some s -> i <> j ->
    Reservation.property_id r = Reservation.property_id s ->
    active r = true -> active s = true ->
    ~ ranges_overlap (Reservation.checkin r) (Reservation.checkout r)
        (Reservation.checkin s) (Reservation.checkout s).

(** The date of the calendar that follows year [y], month [m], day
    [d]. *)
Definition next_day (y m d : Z) : Z * Z * Z :=
  if d <? days_in_month y m then (y, m, d + 1)
  else if m <? 12 then (y, m + 1, 1)
  else (y + 1, 1, 1).

(** ** A small catalogue to run the routes on *)

Definition villa_x : Property.t :=
  {| Property.id := "7";
     Property.slug := "villa-x";
     Property.name := "Villa X";
     Property.currency := Some "EUR";
     Property.price_per_night_cents := Some 10000 |}.

(** A property whose nightly price is not a double. *)
Definition palace : Property.t :=
  {| Property.id := "8";
     Property.slug := "palace";
     Property.name := "Palace";
     Property.currency := None;
     Property.price_per_night_cents := Some 9007199254740993 |}.

(** A property with no price and no currency. *)
Definition hut : Property.t :=
  {| Property.id := "9";
     Property.slug := "hut";
     Property.name := "Hut";
     Property.currency := None;
     Property.price_per_night_cents := None |}.

Definition empty_world : World :=
  {| db := {| properties := [villa_x; palace; hut];
              reservations := [];
              next_id := 1 |};
     clients := [] |}.

Definition quote_for (slug checkin checkout : string) : QuoteReq.t :=
  {| QuoteReq.property_slug := Some slug;
     QuoteReq.property_id := None;
     QuoteReq.checkin := Some checkin;
     QuoteReq.checkout := Some checkout |}.

Definition booking_for (slug checkin checkout email : string)
  : CheckoutReq.t :=
  {| CheckoutReq.property_slug := Some slug;
     CheckoutReq.property_id := None;
     CheckoutReq.checkin := Some checkin;
     CheckoutReq.checkout := Some checkout;
     CheckoutReq.email := Some email;
     CheckoutReq.guests := None |}.

Definition query_for (slug from to : string) : Query.t :=
  {| Query.property_slug := Some slug;
     Query.property_id := None;
     Query.from := Some from;
     Query.to := Some to |}.

(** A gateway that always opens a session, and one that never does. *)
Definition stripe_up (p : SessionParams) : string + string :=
  inr ("https://checkout.stripe.test/"
       ++ decimal (meta_reservation_id p))%string.

Definition stripe_down (p : SessionParams) : string + string :=
  inl "api_connection_error".

Definition frontend : jsval := Some "https://vacancy.test".

(** The world after the first booking of villa-x, 1 to 4 June 2024. *)
Definition booked_world : World :=
  snd (fst (run stripe_up
              (checkout frontend
                 (booking_for "villa-x" "2024-06-01" "2024-06-04" "a@x.test"))
              empty_world)).

(** What a finished handler answered. *)
Definition answer {A} (p : Prog A) : option A :=
  match p with
  | Ret a => Some a
  | _ => None
  end.

(** * Properties *)

(** ** Running composed programs *)

Section RunLemmas.

Variable stripe : SessionParams -> string + string.

Lemma run_bind {A B} (p : Prog A) (f : A -> Prog B) (w : World) :
  run stripe (bind p f) w =
  let '(r, w1, t1) := run stripe p w in
  match r with
  | inl e => (inl e, w1, t1)
  | inr a => let '(r2, w2, t2) := run stripe (f a) w1 in (r2, w2, t1 ++ t2)
  end.
Proof.
  revert w. induction p as [a | e | X o k IH]; intros w; simpl.
  - destruct (run stripe (f a) w) as [[r2 w2] t2]. reflexivity.
  - reflexivity.
  - destruct (exec stripe o w) as [[r w1] ev].
    rewrite IH.
    destruct (run stripe (k r) w1) as [[r1 w2] t1].
    destruct r1 as [e | a]; [reflexivity |].
    destruct (run stripe (f a) w2) as [[r2 w3] t2].
    now rewrite app_assoc.
Qed.

Lemma run_try_catch {A} (p : Prog A) (h : string -> Prog A) (w : World) :
  run stripe (try_catch p h) w =
  let '(r, w1, t1) := run stripe p w in
  match r with
  | inr a => (inr a, w1, t1)
  | inl e => let '(r2, w2, t2) := run stripe (h e) w1 in (r2, w2, t1 ++ t2)
  end.
Proof.
  revert w. induction p as [a | e | X o k IH]; intros w; simpl.
  - reflexivity.
  - destruct (run stripe (h e) w) as [[r2 w2] t2]. reflexivity.
  - destruct (exec stripe o w) as [[r w1] ev].
    rewrite IH.
    destruct (run stripe (k r) w1) as [[r1 w2] t1].
    destruct r1 as [e | a]; [| reflexivity].
    destruct (run stripe (h e) w2) as [[r2 w3] t2].
    now rewrite app_assoc.
Qed.

Lemma run_finally {A} (p : Prog A) (f : Prog unit) (w : World) :
  run stripe (finally p f) w =
  let '(r, w1, t1) := run stripe p w in
  let '(rf, w2, t2) := run stripe f w1 in
  match rf with
  | inl e => (inl e, w2, t1 ++ t2)
  | inr _ => (r, w2, t1 ++ t2)
  end.
Proof.
  revert w. induction p as [a | e | X o k IH]; intros w; simpl.
  - rewrite run_bind. destruct (run stripe f w) as [[rf w2] t2].
    destruct rf; simpl; now rewrite ?app_nil_r.
  - rewrite run_bind. destruct (run stripe f w) as [[rf w2] t2].
    destruct rf; simpl; now rewrite ?app_nil_r.
  - destruct (exec stripe o w) as [[r w1] ev].
    rewrite IH.
    destruct (run stripe (k r) w1) as [[r1 w2] t1].
    destruct (run stripe f w2) as [[rf w3] t2].
    destruct rf; now rewrite app_assoc.
Qed.

Lemma run_await {X} (o : Op X) (w : World) :
  run stripe (await o) w =
  let '(r, w1, ev) := exec stripe o w in (r, w1, ev).
Proof.
  unfold await. simpl. destruct (exec stripe o w) as [[r w1] ev].
  destruct r; simpl; now rewrite app_nil_r.
Qed.

Lemma run_getProperty (id slug : jsval) (w : World) :
  run stripe (getProperty id slug) w =
  (inr (lookup (db w) id slug), w, lookup_events id slug).
Proof.
  unfold getProperty, lookup, lookup_events.
  destruct (negb (truthy id) && negb (truthy slug)); [reflexivity |].
  rewrite run_bind, run_await.
  destruct (truthy id); simpl;
    match goal with
    | |- context [select_property ?b ?k ?d] =>
        destruct (select_property b k d)
    end; reflexivity.
Qed.

End RunLemmas.

(** ** Connections *)

Lemma nth_length_app {A} (l : list A) (x d : A) :
  nth (List.length l) (l ++ [x]) d = x.
Proof. induction l; simpl; auto. Qed.

Lemma set_nth_length_app {A} (l : list A) (x y : A) :
  set_nth (List.length l) y (l ++ [x]) = l ++ [y].
Proof. induction l; simpl; [reflexivity | now rewrite IHl]. Qed.

Lemma truthy_Some (v : jsval) :
  truthy v = true -> exists s, v = Some s.
Proof. destruct v as [s |]; [now exists s | discriminate]. Qed.

Lemma get_with_client d cs cl :
  get_client (with_client d cs cl) (List.length cs) = cl.
Proof. apply nth_length_app. Qed.

Lemma set_with_client d cs cl cl' :
  set_client (with_client d cs cl) (List.length cs) cl' = with_client d cs cl'.
Proof.
  unfold set_client, with_client. simpl. now rewrite set_nth_length_app.
Qed.

Section ExecLemmas.

Variable stripe : SessionParams -> string + string.

Lemma exec_Connect w :
  exec stripe Connect w =
  (inr (List.length (clients w)),
   with_client (db w) (clients w) fresh_client,
   [EConnect (List.length (clients w))]).
Proof. reflexivity. Qed.

Lemma exec_SelectConflicts d cs cl pid p2 p3 :
  exec stripe (SelectConflicts (List.length cs) pid p2 p3)
    (with_client d cs cl) =
  (match select_where pid p2 p3 (reservations d ++ pending cl) with
   | inl e => inl e
   | inr rows => inr (Z.of_nat (List.length rows))
   end, with_client d cs cl,
   [ESelectConflicts (List.length cs) (in_txn cl)]).
Proof.
  cbn [exec]. unfold visible. now rewrite get_with_client.
Qed.

Lemma exec_Begin d cs cl :
  exec stripe (Begin (List.length cs)) (with_client d cs cl) =
  (inr tt,
   with_client d cs {| in_txn := true; pending := pending cl;
                       released := released cl |},
   [EBegin (List.length cs)]).
Proof.
  cbn [exec]. now rewrite get_with_client, set_with_client.
Qed.

Lemma exec_Insert_in_txn d cs pend rel pid s1 s2 d1 d2 g em :
  date_in s1 = Some d1 -> date_in s2 = Some d2 ->
  exec stripe
    (InsertReservation (List.length cs) pid (Some s1) (Some s2) g (Some em))
    (with_client d cs {| in_txn := true; pending := pend;
                         released := rel |}) =
  (inr (next_id d),
   with_client (bump d) cs
     {| in_txn := true;
        pending := pend ++ [pending_row (next_id d) pid d1 d2 g em];
        released := rel |},
   [EInsert (List.length cs) true]).
Proof.
  intros H1 H2. cbn [exec]. rewrite H1, H2.
  unfold insert_row. rewrite !get_with_client. cbn [in_txn pending released].
  unfold with_client, pending_row, bump. cbn [db clients].
  now rewrite set_nth_length_app.
Qed.

Lemma exec_Commit d cs cl :
  exec stripe (Commit (List.length cs)) (with_client d cs cl) =
  (inr tt,
   with_client (set_reservations d (reservations d ++ pending cl)) cs
     {| in_txn := false; pending := []; released := released cl |},
   [ECommit (List.length cs)]).
Proof.
  cbn [exec]. rewrite !get_with_client.
  unfold with_client. cbn [db clients].
  now rewrite set_nth_length_app.
Qed.

Lemma exec_Rollback d cs cl :
  exec stripe (Rollback (List.length cs)) (with_client d cs cl) =
  (inr tt,
   with_client d cs {| in_txn := false; pending := [];
                       released := released cl |},
   [ERollback (List.length cs)]).
Proof.
  cbn [exec]. now rewrite get_with_client, set_with_client.
Qed.

Lemma exec_Release d cs cl :
  exec stripe (Release (List.length cs)) (with_client d cs cl) =
  (inr tt,
   with_client d cs {| in_txn := in_txn cl; pending := pending cl;
                       released := true |},
   [ERelease (List.length cs)]).
Proof.
  cbn [exec]. now rewrite get_with_client, set_with_client.
Qed.

End ExecLemmas.

Ltac run_step :=
  first
    [ rewrite run_bind | rewrite run_try_catch | rewrite run_finally
    | rewrite run_await | rewrite run_getProperty
    | rewrite exec_Connect | rewrite exec_SelectConflicts
    | rewrite exec_Begin | rewrite exec_Commit | rewrite exec_Rollback
    | rewrite exec_Release | progress cbn [run] ].

Ltac run_steps := repeat (cbv beta iota zeta; run_step); cbv beta iota zeta.

Section CheckoutRun.

Variable stripe : SessionParams -> string + string.
Variable FRONTEND_URL : jsval.

Local Ltac finish :=
  run_steps;
  cbn [fst snd db with_client in_txn pending released fresh_client];
  repeat (rewrite <- app_assoc || rewrite <- app_comm_cons);
  cbn [app]; reflexivity.

(** A checkout run alone is its sequential summary, and it gives its
    connection back with no transaction open. *)
Lemma checkout_run (b : CheckoutReq.t) (w : World) :
  run stripe (checkout FRONTEND_URL b) w =
  let '(resp, d, tr) :=
    checkout_alone stripe FRONTEND_URL b (db w) (List.length (clients w)) in
  (inr resp, with_client d (clients w) closed_client, tr).
Proof.
  unfold checkout, checkout_alone, ignore_rejection, closed_client.
  run_steps.
  unfold checkout_rejects.
  destruct (negb (truthy (CheckoutReq.email b))) eqn:Hem.
  { finish. }
  destruct (negb (truthy (CheckoutReq.checkin b))
            || negb (truthy (CheckoutReq.checkout b))) eqn:Hd.
  { finish. }
  destruct (not_after (CheckoutReq.checkout b) (CheckoutReq.checkin b)).
  { finish. }
  apply negb_false_iff in Hem.
  apply orb_false_iff in Hd. destruct Hd as [Hci Hco].
  apply negb_false_iff in Hci. apply negb_false_iff in Hco.
  destruct (truthy_Some _ Hem) as [em Eem].
  destruct (truthy_Some _ Hci) as [ci Eci].
  destruct (truthy_Some _ Hco) as [co Eco].
  run_steps.
  change (db (with_client (db w) (clients w) fresh_client)) with (db w).
  destruct (lookup (db w) (CheckoutReq.property_id b)
              (CheckoutReq.property_slug b)) as [prop |].
  2:{ finish. }
  run_steps.
  cbn [pending fresh_client in_txn]. rewrite app_nil_r.
  destruct (select_where (Property.id prop) (CheckoutReq.checkin b)
              (CheckoutReq.checkout b) (reservations (db w)))
    as [e | rows] eqn:Hsel.
  { finish. }
  destruct rows as [| r0 rows].
  2:{ replace (Z.of_nat (List.length (r0 :: rows)) >? 0) with true
        by (symmetry; apply Z.gtb_lt; simpl List.length; lia).
      finish. }
  cbn [List.length Z.of_nat Z.gtb Z.compare].
  assert (Hpg : exists d1 d2, date_in ci = Some d1 /\ date_in co = Some d2).
  { rewrite Eci, Eco in Hsel. unfold select_where in Hsel.
    destruct (date_in ci) as [d1 |], (date_in co) as [d2 |];
      try discriminate. now exists d1, d2. }
  destruct Hpg as (d1 & d2 & Hd1 & Hd2).
  rewrite Eci, Eco, Eem. cbn [js_string]. rewrite Hd1, Hd2.
  run_steps.
  cbn [pending fresh_client released].
  rewrite (exec_Insert_in_txn _ _ _ _ _ _ _ _ d1 d2) by assumption.
  run_steps. cbn [exec].
  match goal with
  | |- context [stripe ?p] => destruct (stripe p) as [e | url]
  end.
  - finish.
  - finish.
Qed.

End CheckoutRun.

(** ** The read-only routes run alone *)

Section ReadOnlyRun.

Variable stripe : SessionParams -> string + string.

Lemma quote_run (b : QuoteReq.t) (w : World) :
  run stripe (quote b) w =
  (inr (fst (quote_alone b (db w))), w, snd (quote_alone b (db w))).
Proof.
  unfold quote, quote_alone, quote_rejects.
  run_steps.
  destruct (negb (truthy (QuoteReq.checkin b))
            || negb (truthy (QuoteReq.checkout b))); [reflexivity |].
  destruct (not_after (QuoteReq.checkout b) (QuoteReq.checkin b));
    [reflexivity |].
  run_steps.
  destruct (lookup (db w) (QuoteReq.property_id b)
              (QuoteReq.property_slug b)) as [prop |];
    run_steps; cbn [fst snd]; now rewrite app_nil_r.
Qed.

Lemma rebuild_occupied (rows : list Occupied.t) :
  map (fun r =>
         {| Occupied.id := Occupied.id r;
            Occupied.checkin := Occupied.checkin r;
            Occupied.checkout := Occupied.checkout r;
            Occupied.status := Occupied.status r |}) rows = rows.
Proof.
  induction rows as [| [i a b s] rows IH]; simpl; [reflexivity |].
  now rewrite IH.
Qed.

Lemma availability_run (q : Query.t) (w : World) :
  run stripe (availability q) w =
  (inr (fst (availability_alone q (db w))), w,
   snd (availability_alone q (db w))).
Proof.
  unfold availability, availability_alone.
  run_steps.
  destruct (negb (truthy (Query.from q)) || negb (truthy (Query.to q)));
    [reflexivity |].
  run_steps.
  destruct (lookup (db w) (Query.property_id q) (Query.property_slug q))
    as [prop |]; run_steps; cbn [fst snd]; [| now rewrite app_nil_r].
  cbn [exec].
  destruct (select_where (Property.id prop) (Query.from q) (Query.to q)
              (reservations (db w))) as [e | rows];
    run_steps; cbn [fst snd]; rewrite ?app_nil_r; [reflexivity |].
  now rewrite rebuild_occupied.
Qed.

End ReadOnlyRun.

(** ** Property lookup *)

Lemma hd_filter_Some {A} (f : A -> bool) (l : list A) (x : A) :
  hd_error (filter f l) = Some x -> In x l /\ f x = true.
Proof.
  induction l as [| a l IH]; simpl; [discriminate |].
  destruct (f a) eqn:Ha; simpl.
  - intros E. injection E as ->. auto.
  - intros E. destruct (IH E). auto.
Qed.

Lemma hd_filter_None {A} (f : A -> bool) (l : list A) :
  hd_error (filter f l) = None <-> (forall x, In x l -> f x = false).
Proof.
  induction l as [| a l IH]; simpl.
  - split; [intros _ x [] | reflexivity].
  - destruct (f a) eqn:Ha; simpl.
    + split; [discriminate |].
      intros H. rewrite (H a (or_introl eq_refl)) in Ha. discriminate.
    + rewrite IH. split.
      * intros H x [<- | Hx]; auto.
      * intros H x Hx. apply H. now right.
Qed.

Lemma lookup_Some (d : Db) (id slug : jsval) (p : Property.t) :
  lookup d id slug = Some p ->
  In p (properties d)
  /\ (if truthy id then id = Some (Property.id p)
      else truthy slug = true /\ slug = Some (Property.slug p)).
Proof.
  unfold lookup, select_property.
  destruct (truthy id) eqn:Hid; simpl.
  - destruct id as [k |]; [| discriminate].
    intros H. apply hd_filter_Some in H. destruct H as [Hin Hk].
    apply String.eqb_eq in Hk. now subst k.
  - destruct (truthy slug) eqn:Hs; simpl; [| discriminate].
    destruct slug as [k |]; [| discriminate].
    intros H. apply hd_filter_Some in H. destruct H as [Hin Hk].
    apply String.eqb_eq in Hk. now subst k.
Qed.

Lemma lookup_None (d : Db) (id slug : jsval) :
  lookup d id slug = None <->
  (truthy id = false /\ truthy slug = false)
  \/ (truthy id = true
      /\ forall p, In p (properties d) -> id <> Some (Property.id p))
  \/ (truthy id = false /\ truthy slug = true
      /\ forall p, In p (properties d) -> slug <> Some (Property.slug p)).
Proof.
  unfold lookup, select_property.
  destruct (truthy id) eqn:Hid; simpl.
  - destruct id as [k |]; [| discriminate].
    rewrite hd_filter_None. split.
    + intros H. right. left. split; [reflexivity |].
      intros p Hp E. injection E as ->.
      specialize (H p Hp). now rewrite String.eqb_refl in H.
    + intros [[? _] | [[_ H] | [? _]]]; try discriminate.
      intros p Hp. apply String.eqb_neq. intros E. apply (H p Hp). now subst.
  - destruct (truthy slug) eqn:Hs; simpl.
    + destruct slug as [k |]; [| discriminate].
      rewrite hd_filter_None. split.
      * intros H. right. right. repeat split.
        intros p Hp E. injection E as ->.
        specialize (H p Hp). now rewrite String.eqb_refl in H.
      * intros [[_ ?] | [[? _] | [_ [_ H]]]]; try discriminate.
        intros p Hp. apply String.eqb_neq. intros E. apply (H p Hp).
        now subst.
    + split; [auto | reflexivity].
Qed.

Section PropertyLookup.

Variable stripe : SessionParams -> string + string.
Variable FRONTEND_URL : jsval.

(** C8.  [getProperty] never throws, leaves the world as it found it
    and only reads the properties table.  It searches by identifier
    whenever an identifier is given (the slug is then ignored), by
    slug otherwise; it returns a row of the table that matches the key
    it searched with, and null exactly when no key is given or no row
    matches that key.  In each of the three routes a request that
    passes the field checks and whose lookup is null is answered with
    404. *)
Theorem getProperty_lookup (id slug : jsval) (w : World) :
  run stripe (getProperty id slug) w =
    (inr (lookup (db w) id slug), w, lookup_events id slug)
  /\ (forall e, In e (lookup_events id slug) -> e = ESelectProperty)
  /\ (truthy id = true -> lookup (db w) id slug = lookup (db w) id None)
  /\ (forall p, lookup (db w) id slug = Some p ->
        In p (properties (db w))
        /\ (if truthy id then id = Some (Property.id p)
            else truthy slug = true /\ slug = Some (Property.slug p)))
  /\ (lookup (db w) id slug = None <->
        (truthy id = false /\ truthy slug = false)
        \/ (truthy id = true
            /\ forall p, In p (properties (db w)) ->
                         id <> Some (Property.id p))
        \/ (truthy id = false /\ truthy slug = true
            /\ forall p, In p (properties (db w)) ->
                         slug <> Some (Property.slug p)))
  /\ (forall q : Query.t,
        Query.property_id q = id -> Query.property_slug q = slug ->
        truthy (Query.from q) = true -> truthy (Query.to q) = true ->
        lookup (db w) id slug = None ->
        fst (fst (run stripe (availability q) w))
        = inr (respond 404 (bad "property non trovata")))
  /\ (forall b : QuoteReq.t,
        QuoteReq.property_id b = id -> QuoteReq.property_slug b = slug ->
        quote_rejects b = None ->
        lookup (db w) id slug = None ->
        fst (fst (run stripe (quote b) w))
        = inr (respond 404 (bad "property non trovata")))
  /\ (forall b : CheckoutReq.t,
        CheckoutReq.property_id b = id ->
        CheckoutReq.property_slug b = slug ->
        checkout_rejects b = None ->
        lookup (db w) id slug = None ->
        fst (fst (run stripe (checkout FRONTEND_URL b) w))
        = inr (respond 404 (bad "property non trovata"))).
Proof.
  split; [apply run_getProperty |].
  split.
  { unfold lookup_events.
    destruct (negb (truthy id) && negb (truthy slug)); simpl; intuition. }
  split.
  { intros Hid. unfold lookup. now rewrite Hid. }
  split; [apply lookup_Some |].
  split; [apply lookup_None |].
  split; [| split].
  - intros q <- <- Hf Ht Hl.
    rewrite availability_run. cbn [fst]. unfold availability_alone.
    now rewrite Hf, Ht, Hl.
  - intros b <- <- Hr Hl.
    rewrite quote_run. cbn [fst]. unfold quote_alone.
    now rewrite Hr, Hl.
  - intros b <- <- Hr Hl.
    rewrite checkout_run. unfold checkout_alone. now rewrite Hr, Hl.
Qed.

End PropertyLookup.

(** ** Reading dates *)

Lemma digit_range (c : ascii) (x : Z) : digit c = Some x -> 0 <= x <= 9.
Proof.
  unfold digit.
  destruct (Nat.leb 48 (nat_of_ascii c) && Nat.leb (nat_of_ascii c) 57)%bool
    eqn:E; [| discriminate].
  apply andb_true_iff in E. destruct E as [E1 E2].
  apply Nat.leb_le in E1. apply Nat.leb_le in E2.
  intros H. assert (Z.of_nat (nat_of_ascii c) - 48 = x) by congruence. lia.
Qed.

Lemma digits2_range (a b : ascii) (x : Z) :
  digits2 a b = Some x -> 0 <= x <= 99.
Proof.
  unfold digits2.
  destruct (digit a) as [p |] eqn:Ea; [| discriminate].
  destruct (digit b) as [q |] eqn:Eb; [| discriminate].
  apply digit_range in Ea. apply digit_range in Eb.
  intros H. assert (10 * p + q = x) by congruence. lia.
Qed.

Lemma digits4_range (a b c d : ascii) (x : Z) :
  digits4 a b c d = Some x -> 0 <= x <= 9999.
Proof.
  unfold digits4.
  destruct (digits2 a b) as [p |] eqn:Ea; [| discriminate].
  destruct (digits2 c d) as [q |] eqn:Eb; [| discriminate].
  apply digits2_range in Ea. apply digits2_range in Eb.
  intros H. assert (100 * p + q = x) by congruence. lia.
Qed.

(** A digit is neither a sign nor a hyphen. *)
Lemma digit_not_sign (c : ascii) (x : Z) :
  digit c = Some x -> Ascii.eqb c "+" = false /\ Ascii.eqb c "-" = false.
Proof.
  destruct c as [[] [] [] [] [] [] [] []]; intros H;
    first [discriminate H | split; reflexivity].
Qed.

(** The strings of the shape [YYYY-MM-DD], spelled out. *)
Lemma parse_ymd_shape (s : string) (y m d : Z) :
  parse_ymd s = Some (y, m, d) ->
  exists y1 y2 y3 y4 m1 m2 d1 d2,
    s = String y1 (String y2 (String y3 (String y4 (String "-"
          (String m1 (String m2 (String "-"
            (String d1 (String d2 EmptyString)))))))))
    /\ digits4 y1 y2 y3 y4 = Some y
    /\ digits2 m1 m2 = Some m
    /\ digits2 d1 d2 = Some d.
Proof.
  destruct s as [| y1 [| y2 [| y3 [| y4 [| h1 [| m1 [| m2 [| h2 [| d1
    [| d2 [| x s]]]]]]]]]]]; try discriminate.
  cbn [parse_ymd].
  destruct (Ascii.eqb h1 "-") eqn:E1; [| discriminate].
  destruct (Ascii.eqb h2 "-") eqn:E2; [| discriminate].
  apply Ascii.eqb_eq in E1. apply Ascii.eqb_eq in E2. subst h1 h2.
  cbn [andb].
  destruct (digits4 y1 y2 y3 y4) as [yy |] eqn:Ey; [| discriminate].
  destruct (digits2 m1 m2) as [mm |] eqn:Em; [| discriminate].
  destruct (digits2 d1 d2) as [dd |] eqn:Ed; [| discriminate].
  intros H. injection H as <- <- <-.
  exists y1, y2, y3, y4, m1, m2, d1, d2. repeat split; assumption.
Qed.

Lemma parse_ymd_range (s : string) (y m d : Z) :
  parse_ymd s = Some (y, m, d) -> 0 <= y <= 9999.
Proof.
  intros H. apply parse_ymd_shape in H.
  destruct H as (y1 & y2 & y3 & y4 & _ & _ & _ & _ & _ & Hy & _).
  eapply digits4_range; eassumption.
Qed.

Lemma digits4_head (a b c d : ascii) (x : Z) :
  digits4 a b c d = Some x -> exists p, digit a = Some p.
Proof.
  unfold digits4, digits2.
  destruct (digit a) as [p |]; [eauto | discriminate].
Qed.

Lemma digits2_digits (a b : ascii) (x : Z) :
  digits2 a b = Some x ->
  exists p q, digit a = Some p /\ digit b = Some q /\ x = 10 * p + q.
Proof.
  unfold digits2.
  destruct (digit a) as [p |]; [| discriminate].
  destruct (digit b) as [q |]; [| discriminate].
  intros H. exists p, q. repeat split. congruence.
Qed.

(** Both readers take the documented spelling for what it says. *)
Lemma iso_date_ymd (s : string) (y m d : Z) :
  parse_ymd s = Some (y, m, d) -> iso_date s = Some (y, m, d).
Proof.
  intros H. apply parse_ymd_shape in H.
  destruct H as (y1 & y2 & y3 & y4 & m1 & m2 & d1 & d2 & -> & Hy & Hm & Hd).
  destruct (digits4_head _ _ _ _ _ Hy) as [p Hp].
  destruct (digit_not_sign _ _ Hp) as [S1 S2].
  unfold iso_date, iso_year. rewrite S1, S2. cbn [orb]. rewrite Hy.
  cbn. now rewrite Hm, Hd.
Qed.

Lemma date_fields_ymd (s : string) (y m d : Z) :
  parse_ymd s = Some (y, m, d) -> date_fields s = Some (y, m, d).
Proof.
  intros H. apply parse_ymd_shape in H.
  destruct H as (y1 & y2 & y3 & y4 & m1 & m2 & d1 & d2 & -> & Hy & Hm & Hd).
  destruct (digits2_digits _ _ _ Hm) as (p1 & q1 & Hp1 & Hq1 & ->).
  destruct (digits2_digits _ _ _ Hd) as (p2 & q2 & Hp2 & Hq2 & ->).
  unfold date_fields. rewrite Hy. cbn [Ascii.eqb Bool.eqb].
  unfold short_number. rewrite Hp1, Hq1. cbn [Ascii.eqb Bool.eqb].
  now rewrite Hp2, Hq2.
Qed.

(** On the documented spelling [date_in] is [pg_date]. *)
Lemma date_in_ymd (s : string) (y m d : Z) :
  parse_ymd s = Some (y, m, d) -> date_in s = pg_date s.
Proof.
  intros H. unfold date_in, pg_date. now rewrite (date_fields_ymd _ _ _ _ H), H.
Qed.

Lemma pg_date_date_in (s : string) (d : Z) :
  pg_date s = Some d -> date_in s = Some d.
Proof.
  intros H. assert (E : exists f, parse_ymd s = Some f).
  { unfold pg_date in H.
    destruct (parse_ymd s) as [f |]; [eauto | discriminate]. }
  destruct E as [[[y m] dd] E]. now rewrite (date_in_ymd _ _ _ _ E).
Qed.

(** A string that both [new Date] and the database read is spelled
    [YYYY-MM-DD], and they read the same fields. *)
Lemma read_by_both (s : string) (f g : Z * Z * Z) :
  date_fields s = Some f -> iso_date s = Some g ->
  parse_ymd s = Some f /\ g = f.
Proof.
  destruct s as [| y1 [| y2 [| y3 [| y4 [| h rest]]]]]; try discriminate.
  unfold date_fields, iso_date, iso_year.
  destruct (digits4 y1 y2 y3 y4) as [y |] eqn:Ey; [| discriminate].
  destruct (digits4_head _ _ _ _ _ Ey) as [p Hp].
  destruct (digit_not_sign _ _ Hp) as [S1 S2]. rewrite S1, S2. cbn [orb].
  intros F G.
  destruct (Ascii.eqb h "-") eqn:Eh.
  2:{ destruct rest as [| m1 [| m2 rest]]; discriminate. }
  apply Ascii.eqb_eq in Eh. subst h.
  destruct rest as [| m1 [| m2 rest]]; try discriminate.
  destruct (digits2 m1 m2) as [m |] eqn:Em; [| discriminate].
  destruct (digits2_digits _ _ _ Em) as (p1 & q1 & Hp1 & Hq1 & ->).
  unfold short_number at 1 in F. rewrite Hp1, Hq1 in F.
  destruct rest as [| h2 rest]; [discriminate |].
  destruct (Ascii.eqb h2 "-") eqn:Eh2; [| discriminate].
  apply Ascii.eqb_eq in Eh2. subst h2.
  destruct rest as [| d1 [| d2 [| x rest]]]; try discriminate.
  destruct (digits2 d1 d2) as [d |] eqn:Ed; [| discriminate].
  destruct (digits2_digits _ _ _ Ed) as (p2 & q2 & Hp2 & Hq2 & ->).
  unfold short_number in F. rewrite Hp2, Hq2 in F.
  injection F as <-. injection G as <-.
  split; [| reflexivity].
  cbn [parse_ymd Ascii.eqb Bool.eqb andb]. now rewrite Ey, Em, Ed.
Qed.

(** ** Availability *)

Lemma insert_by_checkin_perm (r : Reservation.t) (l : list Reservation.t) :
  Permutation (r :: l) (insert_by_checkin r l).
Proof.
  induction l as [| x l IH]; simpl; [reflexivity |].
  destruct (Reservation.checkin r <? Reservation.checkin x); [reflexivity |].
  rewrite perm_swap. now apply perm_skip.
Qed.

Lemma order_by_checkin_perm (l : list Reservation.t) :
  Permutation l (order_by_checkin l).
Proof.
  induction l as [| r l IH]; simpl; [reflexivity |].
  rewrite <- insert_by_checkin_perm. now apply perm_skip.
Qed.

Lemma insert_by_checkin_sorted (r : Reservation.t) (l : list Reservation.t) :
  StronglySorted checkin_le l ->
  StronglySorted checkin_le (insert_by_checkin r l).
Proof.
  induction 1 as [| x l Hs IH Hx]; simpl.
  - repeat constructor.
  - destruct (Reservation.checkin r <? Reservation.checkin x) eqn:E.
    + apply Z.ltb_lt in E. constructor; [now constructor |].
      constructor; [unfold checkin_le; lia |].
      eapply Forall_impl; [| exact Hx]. unfold checkin_le. intros; lia.
    + apply Z.ltb_ge in E. constructor; [assumption |].
      eapply Permutation_Forall; [apply insert_by_checkin_perm |].
      constructor; [exact E | exact Hx].
Qed.

Lemma order_by_checkin_sorted (l : list Reservation.t) :
  StronglySorted checkin_le (order_by_checkin l).
Proof.
  induction l as [| r l IH]; simpl; [constructor |].
  now apply insert_by_checkin_sorted.
Qed.

Lemma occupied_sorted (l : list Reservation.t) :
  StronglySorted checkin_le l ->
  StronglySorted (fun a b => Occupied.checkin a <= Occupied.checkin b)
    (map occupied_of l).
Proof.
  induction 1 as [| x l Hs IH Hx]; simpl; constructor; [assumption |].
  apply Forall_map. exact Hx.
Qed.

Lemma active_spec (r : Reservation.t) :
  active r = true <->
  Reservation.status r = "pending" \/ Reservation.status r = "paid".
Proof.
  unfold active. rewrite orb_true_iff, !String.eqb_eq. reflexivity.
Qed.

Lemma overlaps_spec (r : Reservation.t) (d2 d3 : Z) :
  overlaps r d2 d3 = true <->
  ranges_overlap (Reservation.checkin r) (Reservation.checkout r) d2 d3.
Proof.
  unfold overlaps, ranges_overlap.
  rewrite negb_true_iff, orb_false_iff, Z.leb_gt, Z.geb_leb, Z.leb_gt. lia.
Qed.

Lemma occupies_spec (pid : string) (d2 d3 : Z) (r : Reservation.t) :
  occupies pid d2 d3 r = true <->
  Reservation.property_id r = pid
  /\ (Reservation.status r = "pending" \/ Reservation.status r = "paid")
  /\ ranges_overlap (Reservation.checkin r) (Reservation.checkout r) d2 d3.
Proof.
  unfold occupies.
  rewrite !andb_true_iff, String.eqb_eq, active_spec, overlaps_spec.
  tauto.
Qed.

Lemma pg_date_truthy (s : string) (d : Z) :
  pg_date s = Some d -> truthy (Some s) = true.
Proof. destruct s; [discriminate | reflexivity]. Qed.

Lemma filter_split (A : Type) (f : A -> bool) (l : list A) :
  Permutation l (filter f l ++ filter (fun x => negb (f x)) l).
Proof.
  induction l as [| a l IH]; cbn [filter]; [reflexivity |].
  destruct (f a); cbn [negb app].
  - now apply perm_skip.
  - now apply Permutation_cons_app.
Qed.

Section Availability.

Variable stripe : SessionParams -> string + string.

(** C7.  An availability query with both dates in the documented
    spelling and a property that is found is answered with 200.  The
    reservations table divides into the rows listed and the rest: every
    row listed is a reservation of that property whose status is pending
    or paid and whose range overlaps the queried one, and no row of the
    rest is; the occupied list has one entry for each row listed, in the
    same order, bearing the identifier, the checkin, the checkout and
    the status of its row, and the entries come by ascending checkin.
    The world after the query is the world before it, and the only
    statements sent are selects. *)
Theorem availability_occupied (q : Query.t) (w : World)
    (prop : Property.t) (s2 s3 : string) (d2 d3 : Z) :
  Query.from q = Some s2 -> Query.to q = Some s3 ->
  pg_date s2 = Some d2 -> pg_date s3 = Some d3 ->
  lookup (db w) (Query.property_id q) (Query.property_slug q) = Some prop ->
  exists occ rows rest tr,
    run stripe (availability q) w =
      (inr (respond 200
              (AvailabilityBody (property_ref prop) (Some s2) (Some s3)
                 occ)), w, tr)
    /\ (forall e, In e tr -> e = ESelectProperty \/ e = ESelectOccupied)
    /\ Permutation (reservations (db w)) (rows ++ rest)
    /\ (forall r, In r rows ->
          Reservation.property_id r = Property.id prop
          /\ (Reservation.status r = "pending"
              \/ Reservation.status r = "paid")
          /\ ranges_overlap (Reservation.checkin r)
               (Reservation.checkout r) d2 d3)
    /\ (forall r, In r rest ->
          ~ (Reservation.property_id r = Property.id prop
             /\ (Reservation.status r = "pending"
                 \/ Reservation.status r = "paid")
             /\ ranges_overlap (Reservation.checkin r)
                  (Reservation.checkout r) d2 d3))
    /\ Forall2
         (fun o r =>
            Occupied.id o = Reservation.id r
            /\ Occupied.checkin o = Reservation.checkin r
            /\ Occupied.checkout o = Reservation.checkout r
            /\ Occupied.status o = Reservation.status r)
         occ rows
    /\ StronglySorted
         (fun a b => Occupied.checkin a <= Occupied.checkin b) occ.
Proof.
  intros Hf Ht H2 H3 Hl.
  rewrite availability_run. unfold availability_alone.
  rewrite Hf, Ht, (pg_date_truthy _ _ H2), (pg_date_truthy _ _ H3), Hl.
  cbn [negb orb select_where].
  rewrite (pg_date_date_in _ _ H2), (pg_date_date_in _ _ H3). cbn [fst snd].
  set (f := occupies (Property.id prop) d2 d3).
  set (sel := filter f (reservations (db w))).
  exists (map occupied_of (order_by_checkin sel)), (order_by_checkin sel),
    (filter (fun r => negb (f r)) (reservations (db w))).
  eexists. split; [reflexivity |].
  split.
  { unfold lookup_events. intros e He. apply in_app_or in He.
    destruct He as [He | [<- | []]]; [| now right].
    destruct (negb (truthy (Query.property_id q))
              && negb (truthy (Query.property_slug q))); simpl in He;
      intuition. }
  split.
  { rewrite <- (order_by_checkin_perm sel). apply filter_split. }
  split.
  { intros r Hr.
    apply (Permutation_in _ (Permutation_sym (order_by_checkin_perm sel)))
      in Hr.
    apply filter_In in Hr. destruct Hr as [_ Hocc].
    now apply occupies_spec in Hocc. }
  split.
  { intros r Hr Hm. apply filter_In in Hr. destruct Hr as [_ Hocc].
    apply negb_true_iff in Hocc. apply occupies_spec in Hm.
    unfold f in Hocc. congruence. }
  split.
  { induction (order_by_checkin sel) as [| r l IH]; cbn [map];
      constructor; [cbn; auto | exact IH]. }
  apply occupied_sorted, order_by_checkin_sorted.
Qed.

End Availability.

(** ** Arithmetic of doubles *)

Lemma rne_exact (q d : Z) : 0 < d -> rne (q * d) d = q.
Proof.
  intros Hd. unfold rne.
  rewrite Z.div_mul, Z.mod_mul by lia.
  replace (2 * 0 <? d) with true by (symmetry; apply Z.ltb_lt; lia).
  reflexivity.
Qed.

(** A quotient that is an integer below [2^53] is computed exactly: the
    mantissa is the quotient scaled by a power of two. *)
Lemma fl_pos_exact (k d : Z) :
  0 < d -> 0 <= k < 2 ^ 53 ->
  exists e, e <= 0 /\ fl_pos (k * d) d = {| mant := k * 2 ^ (- e); expo := e |}.
Proof.
  intros Hd [Hk Hlt]. unfold fl_pos.
  destruct (k * d =? 0) eqn:E0.
  - apply Z.eqb_eq in E0. exists 0. split; [lia |].
    assert (k = 0) by nia. subst k. reflexivity.
  - apply Z.eqb_neq in E0.
    assert (Hk' : 0 < k) by nia.
    assert (Ha : Z.log2 k < 53) by (apply Z.log2_lt_pow2; lia).
    pose proof (Z.log2_mul_above k d ltac:(lia) ltac:(lia)) as Hb.
    set (e0 := Z.log2 (k * d) - Z.log2 d - 53) in *.
    assert (He0 : e0 <= 0) by (subst e0; lia).
    match goal with
    | |- context [if ?t then _ else _] =>
        set (e := if t then e0 + 1 else e0); assert (He : e <= 0)
    end.
    { subst e.
      match goal with |- (if ?t then _ else _) <= _ => destruct t eqn:T end;
        [| exact He0].
      destruct (Z.eq_dec e0 0) as [Z0 | Z0]; [| lia].
      exfalso. rewrite Z0 in T. apply Z.leb_le in T.
      change (Z.max 0 0) with 0 in T. change (Z.max 0 (- 0)) with 0 in T.
      change (2 ^ 0) with 1 in T. nia. }
    exists e. split; [exact He |].
    rewrite (Z.max_l 0 e), (Z.max_r 0 (- e)) by lia.
    replace (d * 2 ^ 0) with d by (simpl; lia).
    replace (k * d * 2 ^ (- e)) with (k * 2 ^ (- e) * d) by ring.
    now rewrite rne_exact.
Qed.

Lemma fl_exact_form (k d : Z) :
  0 < d -> Z.abs k < 2 ^ 53 ->
  exists e, e <= 0 /\ fl (k * d) d = {| mant := k * 2 ^ (- e); expo := e |}.
Proof.
  intros Hd Hlt. unfold fl.
  destruct (k * d <? 0) eqn:Hneg.
  - apply Z.ltb_lt in Hneg.
    destruct (fl_pos_exact (- k) d) as (e & He & Hfl); [lia | nia |].
    replace (- (k * d)) with (- k * d) by ring. rewrite Hfl. cbn [mant expo].
    exists e. split; [exact He |]. f_equal. ring.
  - apply Z.ltb_ge in Hneg.
    apply fl_pos_exact; nia.
Qed.

Lemma js_ceil_scaled (k e : Z) :
  e <= 0 -> js_ceil {| mant := k * 2 ^ (- e); expo := e |} = k.
Proof.
  intros He. unfold js_ceil. cbn [mant expo].
  destruct (0 <=? e) eqn:E.
  - apply Z.leb_le in E. assert (e = 0) by lia. subst e. simpl. lia.
  - assert (0 < 2 ^ (- e)) by (apply Z.pow_pos_nonneg; lia).
    replace (- (k * 2 ^ (- e))) with (- k * 2 ^ (- e)) by ring.
    rewrite Z.div_mul by lia. lia.
Qed.

Lemma fl_exact (k d : Z) :
  0 < d -> Z.abs k < 2 ^ 53 -> js_ceil (fl (k * d) d) = k.
Proof.
  intros Hd Hlt.
  destruct (fl_exact_form k d Hd Hlt) as (e & He & ->).
  now apply js_ceil_scaled.
Qed.

(** Integers up to [2^53] in magnitude are doubles. *)
Lemma round53_exact (z : Z) : Z.abs z <= 2 ^ 53 -> round53 z = z.
Proof.
  intros Hz. unfold round53.
  destruct (Z.eq_dec (Z.abs z) (2 ^ 53)) as [E | E].
  - destruct (Z.abs_eq_or_opp z) as [H | H]; rewrite H in E.
    + subst z. vm_compute. reflexivity.
    + assert (z = - 2 ^ 53) by lia. subst z. vm_compute. reflexivity.
  - replace z with (z * 1) at 1 by ring.
    apply fl_exact; lia.
Qed.

(** So are the multiples of a power of two whose other factor is below
    [2^53]. *)
Lemma fl_pos_shifted (m j : Z) :
  0 < m < 2 ^ 53 -> 0 <= j -> 2 ^ 53 <= m * 2 ^ j ->
  exists e, 0 < e <= j
            /\ fl_pos (m * 2 ^ j) 1 = {| mant := m * 2 ^ (j - e); expo := e |}.
Proof.
  intros [Hm Hlt] Hj Hbig.
  assert (Hpj : 0 < 2 ^ j) by (apply Z.pow_pos_nonneg; lia).
  set (n := m * 2 ^ j) in *.
  assert (Hn : 0 < n) by (subst n; nia).
  destruct (Z.log2_spec n Hn) as [Hlo Hhi].
  set (L := Z.log2 n) in *.
  assert (HL : 53 <= L).
  { destruct (Z.lt_ge_cases L 53) as [H | H]; [| exact H]. exfalso.
    assert (2 ^ Z.succ L <= 2 ^ 53) by (apply Z.pow_le_mono_r; lia). lia. }
  assert (HLj : L < 53 + j).
  { destruct (Z.lt_ge_cases L (53 + j)) as [H | H]; [exact H |]. exfalso.
    assert (2 ^ (53 + j) <= 2 ^ L) by (apply Z.pow_le_mono_r; lia).
    rewrite Z.pow_add_r in * by lia. nia. }
  unfold fl_pos.
  replace (n =? 0) with false by (symmetry; apply Z.eqb_neq; lia).
  fold L. change (Z.log2 1) with 0.
  replace (L - 0 - 53) with (L - 53) by lia.
  rewrite (Z.max_r 0 (L - 53)), (Z.max_l 0 (- (L - 53))) by lia.
  replace (2 ^ 53 * (1 * 2 ^ (L - 53))) with (2 ^ L)
    by (replace L with (53 + (L - 53)) at 1 by lia;
        rewrite Z.pow_add_r by lia; ring).
  replace (2 ^ L <=? n * 2 ^ 0) with true
    by (symmetry; apply Z.leb_le; change (2 ^ 0) with 1; lia).
  exists (L - 53 + 1). split; [lia |].
  rewrite (Z.max_r 0 (L - 53 + 1)), (Z.max_l 0 (- (L - 53 + 1))) by lia.
  change (2 ^ 0) with 1. rewrite Z.mul_1_r, Z.mul_1_l.
  replace n with (m * 2 ^ (j - (L - 53 + 1)) * 2 ^ (L - 53 + 1)).
  - rewrite rne_exact by (apply Z.pow_pos_nonneg; lia). reflexivity.
  - subst n. rewrite <- Z.mul_assoc, <- Z.pow_add_r by lia.
    f_equal. f_equal. lia.
Qed.

Lemma round53_shifted (m j : Z) :
  Z.abs m < 2 ^ 53 -> 0 <= j -> round53 (m * 2 ^ j) = m * 2 ^ j.
Proof.
  intros Hm Hj.
  assert (Hpj : 0 < 2 ^ j) by (apply Z.pow_pos_nonneg; lia).
  destruct (Z.le_gt_cases (Z.abs (m * 2 ^ j)) (2 ^ 53)) as [H | H];
    [now apply round53_exact |].
  unfold round53, fl.
  destruct (m * 2 ^ j <? 0) eqn:Hneg.
  - apply Z.ltb_lt in Hneg.
    destruct (fl_pos_shifted (- m) j) as (e & He & Hfl); [nia | lia | nia |].
    replace (- (m * 2 ^ j)) with (- m * 2 ^ j) by ring. rewrite Hfl.
    unfold js_ceil. cbn [mant expo].
    replace (0 <=? e) with true by (symmetry; apply Z.leb_le; lia).
    replace (- (- m * 2 ^ (j - e)) * 2 ^ e) with (m * (2 ^ (j - e) * 2 ^ e))
      by ring.
    rewrite <- Z.pow_add_r by lia. do 2 f_equal. lia.
  - apply Z.ltb_ge in Hneg.
    destruct (fl_pos_shifted m j) as (e & He & Hfl); [nia | lia | nia |].
    rewrite Hfl. unfold js_ceil. cbn [mant expo].
    replace (0 <=? e) with true by (symmetry; apply Z.leb_le; lia).
    rewrite <- Z.mul_assoc, <- Z.pow_add_r by lia. do 2 f_equal. lia.
Qed.

(** ** Dates *)

Lemma days_from_civil_range (y m d : Z) :
  0 <= y <= 9999 -> 1 <= m <= 12 -> 1 <= d <= 31 ->
  -720000 <= days_from_civil y m d <= 2940000.
Proof.
  intros Hy Hm Hd. unfold days_from_civil.
  destruct (m <=? 2); cbv zeta; Z.div_mod_to_equations; lia.
Qed.

(** The documented spelling is a date for [new Date], at midnight UTC
    of the day written, the day running over the end of its month. *)
Lemma toDate_ymd (s : string) (y m d : Z) :
  parse_ymd s = Some (y, m, d) -> 1 <= m <= 12 -> 1 <= d <= 31 ->
  toDate (Some s) = Some (days_from_civil y m d * msPerDay).
Proof.
  intros H Hm Hd. unfold toDate. cbn [js_string].
  rewrite (iso_date_ymd _ _ _ _ H).
  replace ((1 <=? m) && (m <=? 12) && (1 <=? d) && (d <=? 31)) with true
    by (symmetry; rewrite !andb_true_iff, !Z.leb_le; lia).
  cbv zeta.
  pose proof (days_from_civil_range y m d (parse_ymd_range _ _ _ _ H) Hm Hd).
  replace (Z.abs (days_from_civil y m d * msPerDay) <=? maxTime) with true;
    [reflexivity |].
  symmetry. apply Z.leb_le. unfold msPerDay, maxTime. lia.
Qed.

(** A parsed date is a whole number of days, at most a hundred million
    from the epoch. *)
Lemma toDate_days (v : jsval) (t : Z) :
  toDate v = Some t ->
  exists day, t = day * msPerDay /\ -100000000 <= day <= 100000000.
Proof.
  unfold toDate.
  destruct (iso_date (js_string v)) as [[[y m] d] |]; [| discriminate].
  destruct ((1 <=? m) && (m <=? 12) && (1 <=? d) && (d <=? 31));
    [| discriminate].
  cbv zeta.
  destruct (Z.abs (days_from_civil y m d * msPerDay) <=? maxTime) eqn:B;
    [| discriminate].
  apply Z.leb_le in B. intros H. injection H as <-.
  exists (days_from_civil y m d). split; [reflexivity |].
  unfold msPerDay, maxTime in B. lia.
Qed.

(** Between two parsed dates, the nights are the whole days. *)
Lemma nightsBetween_days (a b : jsval) (ta tb : Z) :
  toDate a = Some ta -> toDate b = Some tb ->
  exists n, nightsBetween a b = Num n /\ tb - ta = n * msPerDay.
Proof.
  intros Ha Hb. unfold nightsBetween. rewrite Ha, Hb.
  destruct (toDate_days _ _ Ha) as (da & -> & Hda).
  destruct (toDate_days _ _ Hb) as (db & -> & Hdb).
  exists (db - da). unfold msPerDay in *.
  replace (db * 86400000 - da * 86400000) with ((db - da) * 84375 * 2 ^ 10)
    by (change (2 ^ 10) with 1024; ring).
  rewrite round53_shifted;
    [| change (2 ^ 53) with 9007199254740992; lia | lia].
  replace ((db - da) * 84375 * 2 ^ 10) with ((db - da) * 86400000)
    by (change (2 ^ 10) with 1024; ring).
  split; [| reflexivity].
  rewrite fl_exact; [reflexivity | lia |].
  change (2 ^ 53) with 9007199254740992. lia.
Qed.

Lemma toDate_truthy (v : jsval) (t : Z) : toDate v = Some t -> truthy v = true.
Proof.
  destruct v as [s |]; [| vm_compute; discriminate].
  destruct s; [vm_compute; discriminate | reflexivity].
Qed.

Lemma pg_date_toDate (s : string) (d : Z) :
  pg_date s = Some d -> toDate (Some s) = Some (d * msPerDay).
Proof.
  unfold pg_date.
  destruct (parse_ymd s) as [[[y m] dd] |] eqn:E; [| discriminate].
  destruct ((1 <=? y) && (1 <=? m) && (m <=? 12) && (1 <=? dd)
            && (dd <=? days_in_month y m)) eqn:B; [| discriminate].
  rewrite !andb_true_iff, !Z.leb_le in B.
  destruct B as [[[[_ Hm1] Hm2] Hd1] Hd2].
  assert (Hdim : days_in_month y m <= 31).
  { unfold days_in_month.
    destruct (m =? 2); [destruct (leap_year y); lia |].
    destruct ((m =? 4) || (m =? 6) || (m =? 9) || (m =? 11)); lia. }
  intros H. injection H as <-.
  apply toDate_ymd; [exact E | lia | lia].
Qed.

(** Where [new Date] and the database both read a string, they read
    the same day. *)
Lemma date_in_toDate (s : string) (d t : Z) :
  date_in s = Some d -> toDate (Some s) = Some t -> t = d * msPerDay.
Proof.
  intros Hd Ht.
  assert (E : exists f g, date_fields s = Some f /\ iso_date s = Some g).
  { unfold date_in in Hd. unfold toDate in Ht. cbn [js_string] in Ht.
    destruct (date_fields s) as [f |]; [| discriminate].
    destruct (iso_date s) as [g |]; [| discriminate]. eauto. }
  destruct E as (f & g & Ef & Eg).
  destruct (read_by_both _ _ _ Ef Eg) as [Hp _].
  destruct f as [[y m] dd].
  rewrite (date_in_ymd _ _ _ _ Hp) in Hd.
  rewrite (pg_date_toDate _ _ Hd) in Ht. congruence.
Qed.

Lemma not_after_false (ci co : jsval) (ta tb : Z) :
  toDate ci = Some ta -> toDate co = Some tb -> ta < tb ->
  not_after co ci = false.
Proof.
  intros Ha Hb Hlt. unfold not_after. rewrite Ha, Hb. apply Z.leb_gt. lia.
Qed.

Lemma not_after_true (ci co : jsval) (ta tb : Z) :
  toDate ci = Some ta -> toDate co = Some tb -> tb <= ta ->
  not_after co ci = true.
Proof.
  intros Ha Hb Hle. unfold not_after. rewrite Ha, Hb. apply Z.leb_le. lia.
Qed.

Lemma quote_accepts (b : QuoteReq.t) (ta tb : Z) :
  toDate (QuoteReq.checkin b) = Some ta ->
  toDate (QuoteReq.checkout b) = Some tb -> ta < tb ->
  quote_rejects b = None.
Proof.
  intros Ha Hb Hlt. unfold quote_rejects.
  rewrite (toDate_truthy _ _ Ha), (toDate_truthy _ _ Hb).
  cbn [negb orb]. now rewrite (not_after_false _ _ _ _ Ha Hb Hlt).
Qed.

(** ** Nights and totals *)

Section Pricing.

Variable stripe : SessionParams -> string + string.

(** C5, amended.  For a quote whose dates parse with checkout after
    checkin, [nights] is the ceiling of the elapsed time in days; when
    the nightly price and the product are at most [2^53] in magnitude
    [total_cents] is exactly nights times the nightly price, and the
    formatted total is that amount divided by 100 in double arithmetic
    and printed with two decimals.  Villa-x at 10000 cents from
    2024-06-01 to 2024-06-04 gives 3 nights, 30000 cents and
    "300.00 EUR". *)
Theorem quote_nights_and_total :
  (forall (b : QuoteReq.t) (w : World) (prop : Property.t)
          (ta tb n price : Z),
      toDate (QuoteReq.checkin b) = Some ta ->
      toDate (QuoteReq.checkout b) = Some tb ->
      ta < tb ->
      (n - 1) * msPerDay < tb - ta <= n * msPerDay ->
      lookup (db w) (QuoteReq.property_id b) (QuoteReq.property_slug b)
        = Some prop ->
      Property.price_per_night_cents prop = Some price ->
      Z.abs price <= 2 ^ 53 ->
      Z.abs (n * price) <= 2 ^ 53 ->
      nightsBetween (QuoteReq.checkin b) (QuoteReq.checkout b) = Num n
      /\ js_mul (Num n) (to_Number (Some price)) = Num (n * price)
      /\ exists tr,
          run stripe (quote b) w =
          (inr (respond 200
                  (QuoteBody (property_ref prop) (QuoteReq.checkin b)
                     (QuoteReq.checkout b) (Num n)
                     (or_default (Property.currency prop) "EUR")
                     (Num price) (Num (n * price))
                     (format_total (Num (n * price))
                        (or_default (Property.currency prop) "EUR")))),
           w, tr))
  /\ run stripe (quote (quote_for "villa-x" "2024-06-01" "2024-06-04"))
       empty_world =
     (inr (respond 200
             (QuoteBody (property_ref villa_x) (Some "2024-06-01")
                (Some "2024-06-04") (Num 3) "EUR" (Num 10000) (Num 30000)
                (Some "300.00 EUR"))),
      empty_world, [ESelectProperty]).
Proof.
  split; [| rewrite quote_run; vm_compute; reflexivity].
  intros b w prop ta tb n price Ha Hb Hlt Hn Hl Hp Hprice Htotal.
  destruct (nightsBetween_days _ _ _ _ Ha Hb) as (n' & Hnights & Hdiff).
  assert (n' = n) by (unfold msPerDay in *; lia). subst n'.
  assert (Hmul : js_mul (Num n) (to_Number (Some price)) = Num (n * price)).
  { cbn [js_mul to_Number]. rewrite (round53_exact price) by assumption.
    now rewrite round53_exact. }
  split; [exact Hnights |]. split; [exact Hmul |].
  rewrite quote_run. unfold quote_alone.
  rewrite (quote_accepts _ _ _ Ha Hb Hlt), Hl, Hnights, Hp, Hmul.
  cbn [fst snd to_Number]. rewrite (round53_exact price) by assumption.
  eexists. reflexivity.
Qed.

End Pricing.

(** C5, witness: the general part at villa-x, 1 to 4 June 2024. *)
Lemma quote_nights_and_total_witness :
  nightsBetween (Some "2024-06-01") (Some "2024-06-04") = Num 3
  /\ js_mul (Num 3) (to_Number (Some 10000)) = Num (3 * 10000).
Proof.
  destruct (proj1 (quote_nights_and_total stripe_up)
              (quote_for "villa-x" "2024-06-01" "2024-06-04") empty_world
              villa_x 1717200000000 1717459200000 3 10000)
    as (H1 & H2 & _).
  - reflexivity.
  - reflexivity.
  - reflexivity.
  - vm_compute. split; [reflexivity | discriminate].
  - reflexivity.
  - reflexivity.
  - vm_compute. discriminate.
  - vm_compute. discriminate.
  - split; [exact H1 | exact H2].
Defined.

(** C5, as stated, fails: at a nightly price of [2^53 + 1] cents the
    total of a one-night stay is not one times that price, and the
    price reported is not the price stored. *)
Lemma total_not_exact_beyond_2_53 :
  run stripe_up (quote (quote_for "palace" "2024-06-01" "2024-06-02"))
    empty_world =
  (inr (respond 200
          (QuoteBody (property_ref palace) (Some "2024-06-01")
             (Some "2024-06-02") (Num 1) "EUR" (Num 9007199254740992)
             (Num 9007199254740992) (Some "90071992547409.92 EUR"))),
   empty_world, [ESelectProperty])
  /\ Property.price_per_night_cents palace = Some 9007199254740993
  /\ Num 9007199254740992 <> Num (1 * 9007199254740993).
Proof.
  split; [rewrite quote_run; vm_compute; reflexivity |].
  split; [reflexivity | discriminate].
Qed.

(** ** Requests the field checks refuse *)

Lemma checkout_accepts (b : CheckoutReq.t) (em ci co : string) (d1 d2 : Z) :
  CheckoutReq.email b = Some em -> em <> "" ->
  CheckoutReq.checkin b = Some ci -> CheckoutReq.checkout b = Some co ->
  pg_date ci = Some d1 -> pg_date co = Some d2 -> d1 < d2 ->
  checkout_rejects b = None.
Proof.
  intros Hem Hne Hci Hco H1 H2 Hlt. unfold checkout_rejects.
  rewrite Hem, Hci, Hco.
  rewrite (pg_date_truthy _ _ H1), (pg_date_truthy _ _ H2).
  replace (truthy (Some em)) with true
    by (symmetry; apply negb_true_iff, String.eqb_neq, Hne).
  cbn [negb orb].
  rewrite (not_after_false (Some ci) (Some co) (d1 * msPerDay)
             (d2 * msPerDay));
    [reflexivity | now apply pg_date_toDate | now apply pg_date_toDate |].
  unfold msPerDay. lia.
Qed.

Lemma quote_invalid_rejected (b : QuoteReq.t) :
  quote_invalid b -> exists msg, quote_rejects b = Some msg.
Proof.
  unfold quote_invalid, quote_rejects.
  intros [H | [H | (ta & tb & Ha & Hb & Hle)]].
  - rewrite H. cbn. eauto.
  - rewrite H, orb_true_r. eauto.
  - rewrite (not_after_true _ _ _ _ Ha Hb Hle).
    destruct (negb (truthy (QuoteReq.checkin b))
              || negb (truthy (QuoteReq.checkout b))); eauto.
Qed.

Lemma checkout_invalid_rejected (b : CheckoutReq.t) :
  checkout_invalid b -> exists msg, checkout_rejects b = Some msg.
Proof.
  unfold checkout_invalid, checkout_rejects.
  intros [H | [H | [H | (ta & tb & Ha & Hb & Hle)]]].
  - rewrite H. cbn. eauto.
  - rewrite H. cbn [negb orb].
    destruct (negb (truthy (CheckoutReq.email b))); eauto.
  - rewrite H, orb_true_r.
    destruct (negb (truthy (CheckoutReq.email b))); eauto.
  - rewrite (not_after_true _ _ _ _ Ha Hb Hle).
    destruct (negb (truthy (CheckoutReq.email b))); eauto.
    destruct (negb (truthy (CheckoutReq.checkin b))
              || negb (truthy (CheckoutReq.checkout b))); eauto.
Qed.

Section Validation.

Variable stripe : SessionParams -> string + string.
Variable FRONTEND_URL : jsval.

(** X20.  A quote or a checkout whose dates [new Date] reads, with
    checkout equal to or before checkin, is answered with 400.  The
    quote sends no statement at all; the checkout only takes a
    connection from the pool and gives it back: neither reads or writes
    the reservations table, and the tables are left as they were. *)
Theorem read_range_rejected :
  (forall (b : QuoteReq.t) (w : World) (ta tb : Z),
      toDate (QuoteReq.checkin b) = Some ta ->
      toDate (QuoteReq.checkout b) = Some tb ->
      tb <= ta ->
      run stripe (quote b) w =
      (inr (respond 400 (bad "checkout deve essere > checkin")), w, []))
  /\ (forall (b : CheckoutReq.t) (w : World) (ta tb : Z),
         toDate (CheckoutReq.checkin b) = Some ta ->
         toDate (CheckoutReq.checkout b) = Some tb ->
         tb <= ta ->
         exists msg tr,
           run stripe (checkout FRONTEND_URL b) w =
           (inr (respond 400 (bad msg)),
            with_client (db w) (clients w) closed_client, tr)
           /\ tr = [EConnect (List.length (clients w));
                    ERelease (List.length (clients w))]
           /\ forall e, In e tr -> on_reservations e = false).
Proof.
  split.
  - intros b w ta tb Ha Hb Hle.
    rewrite quote_run. unfold quote_alone, quote_rejects.
    rewrite (toDate_truthy _ _ Ha), (toDate_truthy _ _ Hb).
    cbn [negb orb]. now rewrite (not_after_true _ _ _ _ Ha Hb Hle).
  - intros b w ta tb Ha Hb Hle.
    destruct (checkout_invalid_rejected b) as [msg Hmsg].
    { do 3 right. now exists ta, tb. }
    rewrite checkout_run. unfold checkout_alone. rewrite Hmsg.
    exists msg. eexists. split; [reflexivity |].
    split; [reflexivity |].
    intros e [<- | [<- | []]]; reflexivity.
Qed.

(** C10.  The field checks come before the property lookup: a quote
    with a missing date or with checkout not after checkin, and a
    checkout with a missing email, a missing date or checkout not
    after checkin, is answered with 400 whatever property it names,
    known or unknown, and the properties table is not consulted. *)
Theorem validation_before_lookup :
  (forall (b : QuoteReq.t) (w : World),
      quote_invalid b ->
      exists msg,
        run stripe (quote b) w = (inr (respond 400 (bad msg)), w, []))
  /\ (forall (b : CheckoutReq.t) (w : World),
         checkout_invalid b ->
         exists msg tr,
           run stripe (checkout FRONTEND_URL b) w =
           (inr (respond 400 (bad msg)),
            with_client (db w) (clients w) closed_client, tr)
           /\ ~ In ESelectProperty tr).
Proof.
  split.
  - intros b w H. destruct (quote_invalid_rejected b H) as [msg Hmsg].
    exists msg. rewrite quote_run. unfold quote_alone. now rewrite Hmsg.
  - intros b w H. destruct (checkout_invalid_rejected b H) as [msg Hmsg].
    exists msg. rewrite checkout_run. unfold checkout_alone. rewrite Hmsg.
    eexists. split; [reflexivity |].
    intros [E | [E | []]]; discriminate.
Qed.

End Validation.

(** X20, witness: 5 June to 5 June. *)
Lemma read_range_rejected_witness :
  run stripe_up (quote (quote_for "villa-x" "2024-06-05" "2024-06-05"))
    empty_world =
  (inr (respond 400 (bad "checkout deve essere > checkin")), empty_world, [])
  /\ exists msg tr,
       run stripe_up
         (checkout frontend
            (booking_for "villa-x" "2024-06-05" "2024-06-05" "a@x.test"))
         empty_world =
       (inr (respond 400 (bad msg)),
        with_client (db empty_world) (clients empty_world) closed_client, tr)
       /\ tr = [EConnect 0; ERelease 0]
       /\ forall e, In e tr -> on_reservations e = false.
Proof.
  split.
  - apply (proj1 (read_range_rejected stripe_up frontend)
             (quote_for "villa-x" "2024-06-05" "2024-06-05") empty_world
             1717545600000 1717545600000);
      [reflexivity | reflexivity | vm_compute; discriminate].
  - apply (proj2 (read_range_rejected stripe_up frontend)
             (booking_for "villa-x" "2024-06-05" "2024-06-05" "a@x.test")
             empty_world 1717545600000 1717545600000);
      [reflexivity | reflexivity | vm_compute; discriminate].
Defined.

(** C6.  The check of the range compares two time values, and a
    comparison with NaN is false: dates that [new Date] does not read
    pass it whatever their order.  A quote for villa-x from 2024-6-5 to
    2024-6-5 is answered with 200, its nights and total NaN.  A checkout
    from 2024-6-4 to 2024-6-1, dates the database reads, goes on to the
    conflict check and to the insert: with the gateway up it is answered
    with 201 and the table keeps a reservation whose checkout is three
    days before its checkin; with the gateway down it is answered with
    500.  With the same days written 05, 04 and 01 the two requests are
    answered with 400 before any statement. *)
Theorem unread_range_not_rejected :
  run stripe_up (quote (quote_for "villa-x" "2024-6-5" "2024-6-5"))
    empty_world =
  (inr (respond 200
          (QuoteBody (property_ref villa_x) (Some "2024-6-5")
             (Some "2024-6-5") NaN "EUR" (Num 10000) NaN (Some "NaN EUR"))),
   empty_world, [ESelectProperty])
  /\ (let '(resp, w', tr) :=
        run stripe_up
          (checkout frontend
             (booking_for "villa-x" "2024-6-4" "2024-6-1" "a@x.test"))
          empty_world in
      resp = inr (respond 201
                    (CheckoutBody 1 "https://checkout.stripe.test/1" NaN
                       "EUR"))
      /\ tr = [EConnect 0; ESelectProperty; ESelectConflicts 0 false;
               EBegin 0; EInsert 0 true; ECreateSession true; ECommit 0;
               ERelease 0]
      /\ reservations (db w') =
         [{| Reservation.id := 1;
             Reservation.property_id := "7";
             Reservation.checkin := 19878;
             Reservation.checkout := 19875;
             Reservation.guests := 1;
             Reservation.email := "a@x.test";
             Reservation.status := "pending" |}])
  /\ (let '(resp, w', tr) :=
        run stripe_down
          (checkout frontend
             (booking_for "villa-x" "2024-6-4" "2024-6-1" "a@x.test"))
          empty_world in
      resp = inr (respond 500 (bad "api_connection_error"))
      /\ tr = [EConnect 0; ESelectProperty; ESelectConflicts 0 false;
               EBegin 0; EInsert 0 true; ECreateSession false; ERollback 0;
               ERelease 0]
      /\ reservations (db w') = [])
  /\ run stripe_up (quote (quote_for "villa-x" "2024-06-05" "2024-06-05"))
       empty_world =
     (inr (respond 400 (bad "checkout deve essere > checkin")),
      empty_world, [])
  /\ run stripe_up
       (checkout frontend
          (booking_for "villa-x" "2024-06-04" "2024-06-01" "a@x.test"))
       empty_world =
     (inr (respond 400 (bad "checkout deve essere > checkin")),
      {| db := db empty_world; clients := [closed_client] |},
      [EConnect 0; ERelease 0]).
Proof.
  repeat split; vm_compute; reflexivity.
Qed.

(** C10, witness: dates missing and a property nobody has. *)
Lemma validation_before_lookup_witness :
  (exists msg,
      run stripe_up
        (quote {| QuoteReq.property_slug := Some "nowhere";
                  QuoteReq.property_id := None;
                  QuoteReq.checkin := None;
                  QuoteReq.checkout := Some "2024-06-04" |})
        empty_world = (inr (respond 400 (bad msg)), empty_world, []))
  /\ exists msg tr,
       run stripe_up
         (checkout frontend
            {| CheckoutReq.property_slug := Some "nowhere";
               CheckoutReq.property_id := None;
               CheckoutReq.checkin := Some "2024-06-01";
               CheckoutReq.checkout := Some "2024-06-04";
               CheckoutReq.email := None;
               CheckoutReq.guests := None |})
         empty_world =
       (inr (respond 400 (bad msg)),
        with_client (db empty_world) (clients empty_world) closed_client, tr)
       /\ ~ In ESelectProperty tr.
Proof.
  split.
  - apply (proj1 (validation_before_lookup stripe_up frontend)).
    left. reflexivity.
  - apply (proj2 (validation_before_lookup stripe_up frontend)).
    left. reflexivity.
Defined.

(** ** Free stays *)

Lemma js_mul_zero (n : Z) (price : option Z) :
  price = None \/ price = Some 0 ->
  to_Number price = Num 0 /\ js_mul (Num n) (to_Number price) = Num 0.
Proof.
  intros [-> | ->]; cbn [to_Number js_mul]; rewrite ?Z.mul_0_r;
    split; reflexivity.
Qed.

Lemma select_where_dates (pid ci co : string) (d1 d2 : Z)
    (rows : list Reservation.t) :
  pg_date ci = Some d1 -> pg_date co = Some d2 ->
  select_where pid (Some ci) (Some co) rows
  = inr (filter (occupies pid d1 d2) rows).
Proof.
  intros H1 H2. unfold select_where.
  now rewrite (pg_date_date_in _ _ H1), (pg_date_date_in _ _ H2).
Qed.

Lemma select_where_read (pid ci co : string) (d1 d2 : Z)
    (rows : list Reservation.t) :
  date_in ci = Some d1 -> date_in co = Some d2 ->
  select_where pid (Some ci) (Some co) rows
  = inr (filter (occupies pid d1 d2) rows).
Proof. intros H1 H2. unfold select_where. now rewrite H1, H2. Qed.

Section ZeroPrice.

Variable stripe : SessionParams -> string + string.
Variable FRONTEND_URL : jsval.

(** C9.  For a property whose nightly price is null or zero, a quote
    with valid dates is answered with 200 and a total of 0 cents, and
    a checkout that passes the checks and meets no conflict asks the
    gateway for a session of 0 cents: it is answered with 201 and an
    amount of 0 when the gateway opens the session, and only the
    gateway can turn it down.  A null or empty currency is replaced by
    "EUR". *)
Theorem zero_price_total (prop : Property.t) :
  Property.price_per_night_cents prop = None
  \/ Property.price_per_night_cents prop = Some 0 ->
  (forall (b : QuoteReq.t) (w : World) (ta tb : Z),
      toDate (QuoteReq.checkin b) = Some ta ->
      toDate (QuoteReq.checkout b) = Some tb ->
      ta < tb ->
      lookup (db w) (QuoteReq.property_id b) (QuoteReq.property_slug b)
        = Some prop ->
      exists n tr,
        run stripe (quote b) w =
        (inr (respond 200
                (QuoteBody (property_ref prop) (QuoteReq.checkin b)
                   (QuoteReq.checkout b) (Num n)
                   (or_default (Property.currency prop) "EUR")
                   (Num 0) (Num 0)
                   (Some ("0.00 "
                          ++ or_default (Property.currency prop) "EUR")
                         %string))),
         w, tr))
  /\ (forall (b : CheckoutReq.t) (w : World) (em ci co : string)
             (d1 d2 : Z),
         CheckoutReq.email b = Some em -> em <> "" ->
         CheckoutReq.checkin b = Some ci ->
         CheckoutReq.checkout b = Some co ->
         pg_date ci = Some d1 -> pg_date co = Some d2 -> d1 < d2 ->
         lookup (db w) (CheckoutReq.property_id b)
           (CheckoutReq.property_slug b) = Some prop ->
         filter (occupies (Property.id prop) d1 d2) (reservations (db w))
           = [] ->
         exists p w' tr,
           unit_amount p = Num 0
           /\ line_currency p
              = toLowerCase (or_default (Property.currency prop) "EUR")
           /\ In (ECreateSession (match stripe p with
                                  | inl _ => false
                                  | inr _ => true
                                  end)) tr
           /\ run stripe (checkout FRONTEND_URL b) w =
              (inr (match stripe p with
                    | inl e => respond 500 (bad e)
                    | inr url =>
                        respond 201
                          (CheckoutBody (next_id (db w)) url (Num 0)
                             (toUpperCase
                                (toLowerCase
                                   (or_default (Property.currency prop)
                                      "EUR"))))
                    end), w', tr))
  /\ (truthy (Property.currency prop) = false ->
      or_default (Property.currency prop) "EUR" = "EUR").
Proof.
  intros Hprice.
  split; [| split].
  - intros b w ta tb Ha Hb Hlt Hl.
    destruct (nightsBetween_days _ _ _ _ Ha Hb) as (n & Hn & _).
    destruct (js_mul_zero n _ Hprice) as [Hp Hm].
    exists n. rewrite quote_run. unfold quote_alone.
    rewrite (quote_accepts _ _ _ Ha Hb Hlt), Hl, Hn, Hm, Hp.
    eexists. reflexivity.
  - intros b w em ci co d1 d2 Hem Hne Hci Hco H1 H2 Hlt Hl Hfree.
    pose proof (pg_date_toDate _ _ H1) as Ha.
    pose proof (pg_date_toDate _ _ H2) as Hb.
    rewrite <- Hci in Ha. rewrite <- Hco in Hb.
    destruct (nightsBetween_days _ _ _ _ Ha Hb) as (n & Hn & _).
    destruct (js_mul_zero n _ Hprice) as [Hp Hm].
    rewrite checkout_run. unfold checkout_alone.
    rewrite (checkout_accepts _ _ _ _ _ _ Hem Hne Hci Hco H1 H2 Hlt), Hl.
    rewrite Hn, Hm. rewrite Hci, Hco.
    rewrite (select_where_dates _ _ _ _ _ _ H1 H2), Hfree.
    cbn [js_string].
    rewrite (pg_date_date_in _ _ H1), (pg_date_date_in _ _ H2).
    match goal with
    | |- context [stripe ?p] => exists p; destruct (stripe p) as [e | url]
    end.
    + do 2 eexists. split; [reflexivity |]. split; [reflexivity |].
      split; [| reflexivity].
      apply in_or_app. right. simpl. tauto.
    + do 2 eexists. split; [reflexivity |]. split; [reflexivity |].
      split; [| reflexivity].
      apply in_or_app. right. simpl. tauto.
  - intros H. unfold or_default. now rewrite H.
Qed.

End ZeroPrice.

(** C9, witness: the hut, which has neither price nor currency. *)
Lemma zero_price_total_witness :
  (exists n tr,
      run stripe_up (quote (quote_for "hut" "2024-06-01" "2024-06-04"))
        empty_world =
      (inr (respond 200
              (QuoteBody (property_ref hut) (Some "2024-06-01")
                 (Some "2024-06-04") (Num n) "EUR" (Num 0) (Num 0)
                 (Some "0.00 EUR"))), empty_world, tr))
  /\ or_default (Property.currency hut) "EUR" = "EUR".
Proof.
  destruct (zero_price_total stripe_up frontend hut (or_introl eq_refl))
    as (Hq & _ & Hc).
  split.
  - apply (Hq (quote_for "hut" "2024-06-01" "2024-06-04") empty_world
              1717200000000 1717459200000);
      [reflexivity | reflexivity | vm_compute; reflexivity | reflexivity].
  - apply Hc. reflexivity.
Defined.

(** ** Conflicts *)

Lemma ranges_overlap_sym (a1 a2 b1 b2 : Z) :
  ranges_overlap a1 a2 b1 b2 <-> ranges_overlap b1 b2 a1 a2.
Proof. unfold ranges_overlap. lia. Qed.

Lemma filter_nil {A} (f : A -> bool) (l : list A) :
  (forall x, In x l -> f x = false) -> filter f l = [].
Proof.
  induction l as [| a l IH]; simpl; [reflexivity |].
  intros H. rewrite (H a (or_introl eq_refl)). apply IH.
  intros x Hx. apply H. now right.
Qed.

Lemma taken_filter (rs : list Reservation.t) (pid : string) (a1 a2 : Z) :
  taken rs pid a1 a2 ->
  exists r rest, filter (occupies pid a1 a2) rs = r :: rest.
Proof.
  intros (r & Hin & Hp & Hs & Ho).
  assert (Hf : In r (filter (occupies pid a1 a2) rs)).
  { apply filter_In. split; [assumption |]. apply occupies_spec.
    rewrite ranges_overlap_sym. tauto. }
  destruct (filter (occupies pid a1 a2) rs) as [| r0 rest]; [destruct Hf |].
  now exists r0, rest.
Qed.

Lemma free_filter (rs : list Reservation.t) (pid : string) (a1 a2 : Z) :
  ~ taken rs pid a1 a2 -> filter (occupies pid a1 a2) rs = [].
Proof.
  intros Hfree. apply filter_nil. intros r Hin.
  destruct (occupies pid a1 a2 r) eqn:E; [| reflexivity].
  exfalso. apply Hfree. apply occupies_spec in E.
  exists r. rewrite ranges_overlap_sym. tauto.
Qed.

Lemma lookup_events_only (id slug : jsval) (e : Event) :
  In e (lookup_events id slug) -> e = ESelectProperty.
Proof.
  unfold lookup_events.
  destruct (negb (truthy id) && negb (truthy slug)); simpl; intuition.
Qed.

Section Conflicts.

Variable stripe : SessionParams -> string + string.
Variable FRONTEND_URL : jsval.

(** A checkout that passes the checks and whose range is taken. *)
Lemma checkout_taken (b : CheckoutReq.t) (w : World) (prop : Property.t)
    (em ci co : string) (a1 a2 : Z) :
  CheckoutReq.email b = Some em -> em <> "" ->
  CheckoutReq.checkin b = Some ci -> CheckoutReq.checkout b = Some co ->
  pg_date ci = Some a1 -> pg_date co = Some a2 -> a1 < a2 ->
  lookup (db w) (CheckoutReq.property_id b) (CheckoutReq.property_slug b)
    = Some prop ->
  taken (reservations (db w)) (Property.id prop) a1 a2 ->
  run stripe (checkout FRONTEND_URL b) w =
  (inr (respond 409 (bad "date non disponibili")),
   with_client (db w) (clients w) closed_client,
   (EConnect (List.length (clients w))
    :: lookup_events (CheckoutReq.property_id b) (CheckoutReq.property_slug b)
    ++ [ESelectConflicts (List.length (clients w)) false])
   ++ [ERelease (List.length (clients w))]).
Proof.
  intros Hem Hne Hci Hco H1 H2 Hlt Hl Htaken.
  destruct (taken_filter _ _ _ _ Htaken) as (r & rest & Hf).
  rewrite checkout_run. unfold checkout_alone.
  rewrite (checkout_accepts _ _ _ _ _ _ Hem Hne Hci Hco H1 H2 Hlt), Hl.
  rewrite Hci, Hco, (select_where_dates _ _ _ _ _ _ H1 H2), Hf.
  reflexivity.
Qed.

(** C3.  A checkout that passes the field checks, for a property that is
    found and a range [[a1, a2)] of dates the database accepts: if an
    existing reservation of that property with status pending or paid
    overlaps the range, the answer is 409, nothing is inserted and the
    tables are unchanged; if none does, the conflict check is passed:
    the answer is not 409 and the handler goes on to begin the
    transaction and insert the reservation. *)
Theorem overlapping_checkout_conflicts (b : CheckoutReq.t) (w : World)
    (prop : Property.t) (em ci co : string) (a1 a2 : Z) :
  CheckoutReq.email b = Some em -> em <> "" ->
  CheckoutReq.checkin b = Some ci -> CheckoutReq.checkout b = Some co ->
  pg_date ci = Some a1 -> pg_date co = Some a2 -> a1 < a2 ->
  lookup (db w) (CheckoutReq.property_id b) (CheckoutReq.property_slug b)
    = Some prop ->
  (taken (reservations (db w)) (Property.id prop) a1 a2 ->
   exists tr,
     run stripe (checkout FRONTEND_URL b) w =
     (inr (respond 409 (bad "date non disponibili")),
      with_client (db w) (clients w) closed_client, tr)
     /\ (forall c inside, ~ In (EInsert c inside) tr))
  /\ (~ taken (reservations (db w)) (Property.id prop) a1 a2 ->
      exists resp w' tr,
        run stripe (checkout FRONTEND_URL b) w = (inr resp, w', tr)
        /\ status resp <> 409
        /\ In (ESelectConflicts (List.length (clients w)) false) tr
        /\ In (EBegin (List.length (clients w))) tr
        /\ In (EInsert (List.length (clients w)) true) tr).
Proof.
  intros Hem Hne Hci Hco H1 H2 Hlt Hl. split.
  - intros Htaken.
    rewrite (checkout_taken _ _ _ _ _ _ _ _ Hem Hne Hci Hco H1 H2 Hlt Hl Htaken).
    eexists. split; [reflexivity |].
    intros c inside Hin. simpl in Hin.
    destruct Hin as [E | Hin]; [discriminate |].
    rewrite <- app_assoc in Hin. apply in_app_or in Hin.
    destruct Hin as [Hin | Hin].
    + apply lookup_events_only in Hin. discriminate.
    + simpl in Hin. intuition discriminate.
  - intros Hfree.
    rewrite checkout_run. unfold checkout_alone.
    rewrite (checkout_accepts _ _ _ _ _ _ Hem Hne Hci Hco H1 H2 Hlt), Hl.
    rewrite Hci, Hco, (select_where_dates _ _ _ _ _ _ H1 H2).
    rewrite (free_filter _ _ _ _ Hfree).
    cbn [js_string].
    rewrite (pg_date_date_in _ _ H1), (pg_date_date_in _ _ H2).
    match goal with
    | |- context [stripe ?p] => destruct (stripe p) as [e | url]
    end.
    + do 3 eexists. split; [reflexivity |].
      split; [cbn; discriminate |].
      repeat split; apply in_or_app; simpl;
        first [ left; right; apply in_or_app; right; simpl; tauto
              | right; simpl; tauto ].
    + do 3 eexists. split; [reflexivity |].
      split; [cbn; discriminate |].
      repeat split; apply in_or_app; simpl;
        first [ left; right; apply in_or_app; right; simpl; tauto
              | right; simpl; tauto ].
Qed.

End Conflicts.

(** C3, witness: villa-x is booked from 1 to 4 June; 3 to 5 June is
    refused and 4 to 6 June is let through. *)
Lemma overlapping_checkout_conflicts_witness :
  (exists tr,
      run stripe_up
        (checkout frontend
           (booking_for "villa-x" "2024-06-03" "2024-06-05" "b@x.test"))
        booked_world =
      (inr (respond 409 (bad "date non disponibili")),
       with_client (db booked_world) (clients booked_world) closed_client, tr)
      /\ (forall c inside, ~ In (EInsert c inside) tr))
  /\ exists resp w' tr,
       run stripe_up
         (checkout frontend
            (booking_for "villa-x" "2024-06-04" "2024-06-06" "b@x.test"))
         booked_world = (inr resp, w', tr)
       /\ status resp <> 409
       /\ In (ESelectConflicts (List.length (clients booked_world)) false) tr
       /\ In (EBegin (List.length (clients booked_world))) tr
       /\ In (EInsert (List.length (clients booked_world)) true) tr.
Proof.
  split.
  - apply (proj1 (overlapping_checkout_conflicts stripe_up frontend
                    (booking_for "villa-x" "2024-06-03" "2024-06-05" "b@x.test")
                    booked_world villa_x "b@x.test" "2024-06-03" "2024-06-05"
                    19877 19879 eq_refl ltac:(discriminate) eq_refl eq_refl
                    eq_refl eq_refl ltac:(lia) eq_refl)).
    eexists. split; [left; reflexivity |].
    split; [reflexivity |]. split; [left; reflexivity |].
    intros [H | H]; vm_compute in H; apply H; reflexivity.
  - apply (proj2 (overlapping_checkout_conflicts stripe_up frontend
                    (booking_for "villa-x" "2024-06-04" "2024-06-06" "b@x.test")
                    booked_world villa_x "b@x.test" "2024-06-04" "2024-06-06"
                    19878 19880 eq_refl ltac:(discriminate) eq_refl eq_refl
                    eq_refl eq_refl ltac:(lia) eq_refl)).
    intros (r & Hin & _ & _ & Ho).
    destruct Hin as [<- | []].
    apply Ho. right. vm_compute. discriminate.
Defined.

(** ** The booking transaction *)

Ltac trace_in H :=
  repeat match type of H with
         | In _ (_ ++ _) => apply in_app_or in H; destruct H as [H | H]
         | In _ (lookup_events _ _) =>
             apply lookup_events_only in H; try discriminate H
         | In _ (_ :: _) => destruct H as [H | H]; [try discriminate H |]
         | In _ [] => destruct H
         end.

(** Follows the decisions of [checkout_alone] in hypothesis [H]. *)
Ltac checkout_cases H :=
  unfold checkout_alone in H;
  repeat match type of H with
         | context [match checkout_rejects ?b with _ => _ end] =>
             destruct (checkout_rejects b) eqn:?
         | context [match lookup ?d ?i ?s with _ => _ end] =>
             destruct (lookup d i s) eqn:?
         | context [match select_where ?p ?a ?b ?r with _ => _ end] =>
             destruct (select_where p a b r) as [? | [| ? ?]] eqn:?
         | context [match date_in ?a with _ => _ end] =>
             destruct (date_in a) eqn:?
         | context [match ?f ?p with inl _ => _ | inr _ => _ end] =>
             destruct (f p) eqn:?
         end.

Lemma availability_alone_ext (q : Query.t) (d d' : Db) :
  properties d' = properties d -> reservations d' = reservations d ->
  availability_alone q d' = availability_alone q d.
Proof.
  intros Hp Hr. unfold availability_alone, lookup, select_property.
  now rewrite Hp, Hr.
Qed.

Section Transaction.

Variable stripe : SessionParams -> string + string.
Variable FRONTEND_URL : jsval.

(** C2.  In every checkout attempt whose payment-session call fails,
    the answer is 500 with the cause, the failed call is followed at
    once by ROLLBACK on the connection that inserted the row, nothing is
    committed, the reservations table afterwards is the table before,
    the connection is given back holding no row, and every availability
    query is answered as it was before the attempt. *)
Theorem failed_payment_rolls_back (b : CheckoutReq.t) (w w' : World)
    (resp : string + Response) (tr : list Event) :
  run stripe (checkout FRONTEND_URL b) w = (resp, w', tr) ->
  In (ECreateSession false) tr ->
  (exists e, resp = inr (respond 500 (bad e)))
  /\ (exists pre post,
         tr = pre ++ EInsert (List.length (clients w)) true
                  :: ECreateSession false
                  :: ERollback (List.length (clients w)) :: post)
  /\ (forall c, ~ In (ECommit c) tr)
  /\ reservations (db w') = reservations (db w)
  /\ properties (db w') = properties (db w)
  /\ get_client w' (List.length (clients w)) = closed_client
  /\ (forall q,
         fst (fst (run stripe (availability q) w'))
         = fst (fst (run stripe (availability q) w))).
Proof.
  rewrite checkout_run. intros Hrun Hin.
  assert (Hfin :
    reservations (db w') = reservations (db w) ->
    properties (db w') = properties (db w) ->
    forall q, fst (fst (run stripe (availability q) w'))
              = fst (fst (run stripe (availability q) w))).
  { intros Hr Hp q. rewrite !availability_run. cbn [fst].
    now rewrite (availability_alone_ext q (db w) (db w') Hp Hr). }
  checkout_cases Hrun; injection Hrun as <- <- <-; trace_in Hin.
  split; [eauto |].
  split.
  { exists (EConnect (List.length (clients w))
            :: lookup_events (CheckoutReq.property_id b)
                 (CheckoutReq.property_slug b)
            ++ [ESelectConflicts (List.length (clients w)) false;
                EBegin (List.length (clients w))]).
    exists [ERelease (List.length (clients w))].
    rewrite <- !app_comm_cons, <- !app_assoc. reflexivity. }
  split.
  { intros c Hc. trace_in Hc. }
  split; [reflexivity |]. split; [reflexivity |].
  split; [apply get_with_client |].
  apply Hfin; reflexivity.
Qed.

End Transaction.

(** C2, witness: the gateway is down while villa-x is being booked. *)
Lemma failed_payment_rolls_back_witness :
  reservations
    (db (snd (fst (run stripe_down
                     (checkout frontend
                        (booking_for "villa-x" "2024-06-01" "2024-06-04"
                           "a@x.test")) empty_world))))
  = reservations (db empty_world).
Proof.
  destruct (run stripe_down
              (checkout frontend
                 (booking_for "villa-x" "2024-06-01" "2024-06-04" "a@x.test"))
              empty_world) as [[resp w'] tr] eqn:E.
  assert (Hin : In (ECreateSession false) tr).
  { vm_compute in E. injection E as _ _ <-. simpl. tauto. }
  exact (proj1 (proj2 (proj2 (proj2
           (failed_payment_rolls_back stripe_down frontend _ _ _ _ _ E Hin))))).
Defined.

Section CheckOrder.

Variable stripe : SessionParams -> string + string.
Variable FRONTEND_URL : jsval.

(** C1, amended.  In every checkout the conflict check runs on the
    connection just taken from the pool and outside any transaction;
    when a transaction is begun at all, BEGIN comes right after the
    check and right before the insert, only the connection and the
    property lookup preceding the check.  When the answer is Conflict no
    transaction was begun, nothing was inserted or rolled back and the
    tables are unchanged; and a request that passes the field checks
    for a property that is found is answered with Conflict whenever its
    range is taken. *)
Theorem conflict_check_precedes_transaction (b : CheckoutReq.t)
    (w w' : World) (resp : string + Response) (tr : list Event) :
  run stripe (checkout FRONTEND_URL b) w = (resp, w', tr) ->
  (forall c inside,
      In (ESelectConflicts c inside) tr ->
      c = List.length (clients w) /\ inside = false)
  /\ (forall c,
         In (EBegin c) tr ->
         exists pre post,
           tr = pre ++ ESelectConflicts (List.length (clients w)) false
                    :: EBegin (List.length (clients w))
                    :: EInsert (List.length (clients w)) true :: post
           /\ forall e, In e pre ->
                        e = EConnect (List.length (clients w))
                        \/ e = ESelectProperty)
  /\ (resp = inr (respond 409 (bad "date non disponibili")) ->
      w' = with_client (db w) (clients w) closed_client
      /\ forall c, ~ In (EBegin c) tr
                   /\ (forall inside, ~ In (EInsert c inside) tr)
                   /\ ~ In (ERollback c) tr)
  /\ (forall (prop : Property.t) (em ci co : string) (a1 a2 : Z),
         CheckoutReq.email b = Some em -> em <> "" ->
         CheckoutReq.checkin b = Some ci -> CheckoutReq.checkout b = Some co ->
         pg_date ci = Some a1 -> pg_date co = Some a2 -> a1 < a2 ->
         lookup (db w) (CheckoutReq.property_id b)
           (CheckoutReq.property_slug b) = Some prop ->
         taken (reservations (db w)) (Property.id prop) a1 a2 ->
         resp = inr (respond 409 (bad "date non disponibili"))).
Proof.
  intros Hrun.
  assert (Htaken :
    forall (prop : Property.t) (em ci co : string) (a1 a2 : Z),
      CheckoutReq.email b = Some em -> em <> "" ->
      CheckoutReq.checkin b = Some ci -> CheckoutReq.checkout b = Some co ->
      pg_date ci = Some a1 -> pg_date co = Some a2 -> a1 < a2 ->
      lookup (db w) (CheckoutReq.property_id b)
        (CheckoutReq.property_slug b) = Some prop ->
      taken (reservations (db w)) (Property.id prop) a1 a2 ->
      resp = inr (respond 409 (bad "date non disponibili"))).
  { intros prop em ci co a1 a2 Hem Hne Hci Hco H1 H2 Hlt Hl Ht.
    rewrite (checkout_taken stripe FRONTEND_URL _ _ _ _ _ _ _ _
               Hem Hne Hci Hco H1 H2 Hlt Hl Ht) in Hrun.
    now injection Hrun as <- _ _. }
  rewrite checkout_run in Hrun.
  assert (Hpre : forall e,
             In e (EConnect (List.length (clients w))
                   :: lookup_events (CheckoutReq.property_id b)
                        (CheckoutReq.property_slug b)) ->
             e = EConnect (List.length (clients w)) \/ e = ESelectProperty).
  { intros e [<- | He]; [now left |].
    right. now apply lookup_events_only in He. }
  checkout_cases Hrun; injection Hrun as <- <- <-;
    (split; [intros c inside Hc; trace_in Hc; injection Hc as <- <-;
             split; reflexivity |]);
    (split; [| split; [| exact Htaken]]);
    try (intros c Hc; trace_in Hc; fail);
    try (intros E; discriminate E);
    try (intros c Hc;
         exists (EConnect (List.length (clients w))
                 :: lookup_events (CheckoutReq.property_id b)
                      (CheckoutReq.property_slug b));
         eexists; split; [| exact Hpre];
         rewrite <- !app_comm_cons, <- !app_assoc; reflexivity).
  intros _. split; [reflexivity |].
  intros c. repeat split.
  - intros Hc. trace_in Hc.
  - intros inside Hc. trace_in Hc.
  - intros Hc. trace_in Hc.
Qed.

End CheckOrder.

(** C1, witness: the first booking of villa-x begins its transaction
    right after the conflict check. *)
Lemma conflict_check_precedes_transaction_witness :
  exists pre post,
    snd (run stripe_up
           (checkout frontend
              (booking_for "villa-x" "2024-06-01" "2024-06-04" "a@x.test"))
           empty_world)
    = pre ++ ESelectConflicts (List.length (clients empty_world)) false
          :: EBegin (List.length (clients empty_world))
          :: EInsert (List.length (clients empty_world)) true :: post
    /\ forall e, In e pre ->
                 e = EConnect (List.length (clients empty_world))
                 \/ e = ESelectProperty.
Proof.
  destruct (run stripe_up
              (checkout frontend
                 (booking_for "villa-x" "2024-06-01" "2024-06-04" "a@x.test"))
              empty_world) as [[resp w'] tr] eqn:E.
  assert (Hin : In (EBegin 0) tr).
  { vm_compute in E. injection E as _ _ <-. simpl. tauto. }
  exact (proj1 (proj2 (conflict_check_precedes_transaction stripe_up frontend
                         _ _ _ _ _ E)) 0%nat Hin).
Defined.

(** C1, as stated, fails: in the first booking of villa-x the conflict
    check is the statement before BEGIN and runs outside the
    transaction; in the second, conflicting one there is no transaction
    to abort. *)
Lemma conflict_check_outside_transaction :
  snd (run stripe_up
         (checkout frontend
            (booking_for "villa-x" "2024-06-01" "2024-06-04" "a@x.test"))
         empty_world)
  = [EConnect 0; ESelectProperty; ESelectConflicts 0 false; EBegin 0;
     EInsert 0 true; ECreateSession true; ECommit 0; ERelease 0]
  /\ ~ check_inside_transaction
         (snd (run stripe_up
                 (checkout frontend
                    (booking_for "villa-x" "2024-06-01" "2024-06-04"
                       "a@x.test")) empty_world))
  /\ run stripe_up
       (checkout frontend
          (booking_for "villa-x" "2024-06-03" "2024-06-05" "b@x.test"))
       booked_world
     = (inr (respond 409 (bad "date non disponibili")),
        with_client (db booked_world) (clients booked_world) closed_client,
        [EConnect 1; ESelectProperty; ESelectConflicts 1 false; ERelease 1]).
Proof.
  split; [vm_compute; reflexivity |].
  split; [| vm_compute; reflexivity].
  intros H. specialize (H 0%nat false).
  assert (Hin : In (ESelectConflicts 0 false)
                  (snd (run stripe_up
                          (checkout frontend
                             (booking_for "villa-x" "2024-06-01" "2024-06-04"
                                "a@x.test")) empty_world))).
  { vm_compute. tauto. }
  specialize (H Hin). discriminate H.
Qed.

(** ** One attempt after another, and attempts in flight together *)

Lemma no_double_booking_snoc (rs : list Reservation.t) (row : Reservation.t) :
  no_double_booking rs ->
  (forall s, In s rs ->
             Reservation.property_id s = Reservation.property_id row ->
             active s = true ->
             ~ ranges_overlap (Reservation.checkin s) (Reservation.checkout s)
                 (Reservation.checkin row) (Reservation.checkout row)) ->
  no_double_booking (rs ++ [row]).
Proof.
  intros Hinv Hnew i j r s Hi Hj Hij Hp Hr Hs.
  assert (Hlast : forall k x, nth_error (rs ++ [row]) k = Some x ->
                              (k < List.length rs)%nat
                              /\ nth_error rs k = Some x
                              \/ k = List.length rs /\ x = row).
  { intros k x Hk.
    destruct (Nat.lt_ge_cases k (List.length rs)) as [Hlt | Hge].
    - left. split; [assumption |]. now rewrite nth_error_app1 in Hk.
    - right. rewrite nth_error_app2 in Hk by assumption.
      destruct (k - List.length rs)%nat as [| m] eqn:E.
      + simpl in Hk. split; [lia | congruence].
      + simpl in Hk. destruct m; discriminate. }
  destruct (Hlast i r Hi) as [[Hil Hir] | [Hil ->]];
    destruct (Hlast j s Hj) as [[Hjl Hjs] | [Hjl ->]].
  - exact (Hinv i j r s Hir Hjs Hij Hp Hr Hs).
  - apply (Hnew r); [eapply nth_error_In; eassumption | assumption
                    | assumption].
  - rewrite ranges_overlap_sym.
    apply (Hnew s); [eapply nth_error_In; eassumption | now symmetry
                    | assumption].
  - lia.
Qed.

Section OneAfterAnother.

Variable stripe : SessionParams -> string + string.
Variable FRONTEND_URL : jsval.

(** A checkout that runs alone never creates a double booking. *)
Lemma checkout_keeps_no_double_booking (b : CheckoutReq.t) (w : World) :
  no_double_booking (reservations (db w)) ->
  no_double_booking
    (reservations (db (snd (fst (run stripe (checkout FRONTEND_URL b) w))))).
Proof.
  intros Hinv.
  destruct (run stripe (checkout FRONTEND_URL b) w) as [[resp w'] tr] eqn:Hrun.
  rewrite checkout_run in Hrun. cbn [fst snd].
  checkout_cases Hrun; injection Hrun as <- <- <-; try exact Hinv.
  cbn [db with_client reservations set_reservations].
  apply no_double_booking_snoc; [exact Hinv |].
  intros old Hin Hp Hact. cbn [pending_row Reservation.checkin
                             Reservation.checkout Reservation.property_id]
                          in *.
  match goal with
  | H : checkout_rejects b = None |- _ => unfold checkout_rejects in H
  end.
  destruct (negb (truthy (CheckoutReq.email b))); [discriminate |].
  destruct (negb (truthy (CheckoutReq.checkin b))
            || negb (truthy (CheckoutReq.checkout b))) eqn:Hd;
    [discriminate |].
  apply orb_false_iff in Hd. destruct Hd as [Hci Hco].
  apply negb_false_iff in Hci. apply negb_false_iff in Hco.
  destruct (truthy_Some _ Hci) as [ci Eci].
  destruct (truthy_Some _ Hco) as [co Eco].
  match goal with
  | H1 : date_in (js_string (CheckoutReq.checkin b)) = Some ?d1,
    H2 : date_in (js_string (CheckoutReq.checkout b)) = Some ?d2,
    Hsel : select_where _ _ _ _ = inr [] |- _ =>
      rewrite Eci in H1, Hsel; rewrite Eco in H2, Hsel;
      cbn [js_string] in H1, H2;
      rewrite (select_where_read _ _ _ _ _ _ H1 H2) in Hsel;
      assert (Hocc : occupies (Reservation.property_id old) d1 d2 old = false)
  end.
  { match goal with
    | Hsel : inr _ = inr [] |- _ => injection Hsel as Hsel
    end.
    destruct (occupies (Reservation.property_id old) _ _ old) eqn:E;
      [| reflexivity].
    exfalso. rewrite Hp in E.
    match goal with
    | Hsel : filter ?f ?l = [] |- _ =>
        assert (Hf : In old (filter f l)) by (apply filter_In; now split);
        rewrite Hsel in Hf; destruct Hf
    end. }
  intros Hov. apply overlaps_spec in Hov.
  unfold occupies in Hocc. rewrite String.eqb_refl, Hact, Hov in Hocc.
  discriminate.
Qed.

(** X16.  Checkouts run one after another, whatever the requests and
    whatever the gateway answers, never create a double booking: if no
    two active reservations of one property overlap before, none do
    after. *)
Lemma run_all_keeps_no_double_booking (bs : list CheckoutReq.t) (w : World) :
  no_double_booking (reservations (db w)) ->
  no_double_booking
    (reservations
       (db (snd (run_all stripe (map (checkout FRONTEND_URL) bs) w)))).
Proof.
  revert w. induction bs as [| b bs IH]; intros w Hinv; [exact Hinv |].
  cbn [map run_all].
  pose proof (checkout_keeps_no_double_booking b w Hinv) as Hstep.
  destruct (run stripe (checkout FRONTEND_URL b) w) as [[r w1] tr].
  cbn [fst snd] in Hstep. specialize (IH w1 Hstep).
  destruct (run_all stripe (map (checkout FRONTEND_URL) bs) w1) as [rs w2].
  exact IH.
Qed.

End OneAfterAnother.

(** C4.  Two checkouts of villa-x for overlapping ranges, 1 to 4 June
    and 3 to 5 June, in flight together on an empty table: when both
    conflict checks complete before either insert, both attempts are
    answered with 201 and the table ends with two overlapping pending
    reservations of the same property.  Run one after the other, the
    same two requests are answered with 201 and 409. *)
Theorem interleaved_checkouts_double_book :
  let a := booking_for "villa-x" "2024-06-01" "2024-06-04" "a@x.test" in
  let b := booking_for "villa-x" "2024-06-03" "2024-06-05" "b@x.test" in
  let schedule := [0; 1; 0; 1; 0; 1; 0; 0; 0; 0; 0; 1; 1; 1; 1; 1]%nat in
  let '(ps, w, tr) :=
    interleave stripe_up schedule [checkout frontend a; checkout frontend b]
      empty_world in
  map answer ps =
    [Some (respond 201
             (CheckoutBody 1 "https://checkout.stripe.test/1" (Num 30000)
                "EUR"));
     Some (respond 201
             (CheckoutBody 2 "https://checkout.stripe.test/2" (Num 20000)
                "EUR"))]
  /\ tr = [EConnect 0; EConnect 1; ESelectProperty; ESelectProperty;
           ESelectConflicts 0 false; ESelectConflicts 1 false;
           EBegin 0; EInsert 0 true; ECreateSession true; ECommit 0;
           ERelease 0;
           EBegin 1; EInsert 1 true; ECreateSession true; ECommit 1;
           ERelease 1]
  /\ reservations (db w) =
       [pending_row 1 "7" 19875 19878 1 "a@x.test";
        pending_row 2 "7" 19877 19879 1 "b@x.test"]
  /\ ~ no_double_booking (reservations (db w))
  /\ map (fun r => match r with
                   | inr x => status x
                   | inl _ => 0
                   end)
         (fst (run_all stripe_up [checkout frontend a; checkout frontend b]
                 empty_world))
     = [201; 409].
Proof.
  cbv zeta.
  destruct (interleave stripe_up _ _ empty_world) as [[ps w] tr] eqn:E.
  vm_compute in E. injection E as <- <- <-.
  split; [reflexivity |]. split; [reflexivity |].
  split; [reflexivity |].
  split; [| vm_compute; reflexivity].
  intros H.
  apply (H 0%nat 1%nat _ _ eq_refl eq_refl);
    [discriminate | reflexivity | reflexivity | reflexivity |].
  unfold ranges_overlap. cbn. lia.
Qed.

(** ** The routes on the catalogue *)

(** C7, witness: villa-x, booked from 1 to 4 June, queried for 2 to 3
    June: the list holds that reservation. *)
Lemma availability_occupied_witness :
  exists rows rest tr,
    run stripe_up (availability (query_for "villa-x" "2024-06-02" "2024-06-03"))
      booked_world =
    (inr (respond 200
            (AvailabilityBody (property_ref villa_x) (Some "2024-06-02")
               (Some "2024-06-03")
               [{| Occupied.id := 1;
                   Occupied.checkin := 19875;
                   Occupied.checkout := 19878;
                   Occupied.status := "pending" |}])), booked_world, tr)
    /\ Permutation (reservations (db booked_world)) (rows ++ rest)
    /\ Forall2
         (fun o r =>
            Occupied.id o = Reservation.id r
            /\ Occupied.checkin o = Reservation.checkin r
            /\ Occupied.checkout o = Reservation.checkout r
            /\ Occupied.status o = Reservation.status r)
         [{| Occupied.id := 1;
             Occupied.checkin := 19875;
             Occupied.checkout := 19878;
             Occupied.status := "pending" |}] rows.
Proof.
  destruct (availability_occupied stripe_up
              (query_for "villa-x" "2024-06-02" "2024-06-03") booked_world
              villa_x "2024-06-02" "2024-06-03" 19876 19877
              eq_refl eq_refl eq_refl eq_refl eq_refl)
    as (occ & rows & rest & tr & Hrun & _ & Hperm & _ & _ & Hrows & _).
  assert (E : occ = [{| Occupied.id := 1;
                        Occupied.checkin := 19875;
                        Occupied.checkout := 19878;
                        Occupied.status := "pending" |}]).
  { rewrite availability_run in Hrun. vm_compute in Hrun.
    injection Hrun as <-. reflexivity. }
  rewrite E in Hrun, Hrows.
  exists rows, rest, tr. split; [exact Hrun |]. split; assumption.
Defined.

(** C8, witness: the slug "villa-x" with no identifier, and an
    identifier that wins over the slug. *)
Lemma getProperty_lookup_witness :
  run stripe_up (getProperty None (Some "villa-x")) empty_world
  = (inr (Some villa_x), empty_world, [ESelectProperty])
  /\ lookup (db empty_world) (Some "9") (Some "villa-x") = Some hut.
Proof.
  split.
  - exact (proj1 (getProperty_lookup stripe_up frontend None (Some "villa-x")
                    empty_world)).
  - rewrite (proj1 (proj2 (proj2
               (getProperty_lookup stripe_up frontend (Some "9")
                  (Some "villa-x") empty_world))) eq_refl).
    reflexivity.
Defined.

(** * Further properties of the routes *)

(** ** What a checkout always does *)

Lemma checkout_rejects_None (b : CheckoutReq.t) :
  checkout_rejects b = None ->
  truthy (CheckoutReq.email b) = true
  /\ truthy (CheckoutReq.checkin b) = true
  /\ truthy (CheckoutReq.checkout b) = true
  /\ not_after (CheckoutReq.checkout b) (CheckoutReq.checkin b) = false.
Proof.
  unfold checkout_rejects.
  destruct (truthy (CheckoutReq.email b)); [| discriminate].
  destruct (truthy (CheckoutReq.checkin b)); [| discriminate].
  destruct (truthy (CheckoutReq.checkout b)); [| discriminate].
  cbn [negb orb].
  destruct (not_after (CheckoutReq.checkout b) (CheckoutReq.checkin b));
    [discriminate | auto].
Qed.

Lemma upper_lower_ascii (c : ascii) :
  upper_ascii (lower_ascii c) = upper_ascii c.
Proof. destruct c as [[] [] [] [] [] [] [] []]; reflexivity. Qed.

Lemma toUpperCase_toLowerCase (s : string) :
  toUpperCase (toLowerCase s) = toUpperCase s.
Proof.
  unfold toUpperCase, toLowerCase.
  induction s as [| c s IH]; [reflexivity |].
  cbn [map_string]. now rewrite upper_lower_ascii, IH.
Qed.

Section CheckoutOutcome.

Variable stripe : SessionParams -> string + string.
Variable FRONTEND_URL : jsval.

(** The two ways a checkout run alone can end: without touching the
    reservations, or booked. *)
Lemma checkout_outcome (b : CheckoutReq.t) (d0 d : Db) (c : nat)
    (resp : Response) (tr : list Event) :
  checkout_alone stripe FRONTEND_URL b d0 c = (resp, d, tr) ->
  properties d = properties d0
  /\ (status resp <> 201 /\ reservations d = reservations d0
      \/ exists prop em ci co d1 d2 url,
           lookup d0 (CheckoutReq.property_id b) (CheckoutReq.property_slug b)
             = Some prop
           /\ CheckoutReq.email b = Some em /\ em <> ""
           /\ CheckoutReq.checkin b = Some ci
           /\ CheckoutReq.checkout b = Some co
           /\ not_after (Some co) (Some ci) = false
           /\ date_in ci = Some d1 /\ date_in co = Some d2
           /\ filter (occupies (Property.id prop) d1 d2) (reservations d0) = []
           /\ stripe
                (session_params FRONTEND_URL prop (Some ci) (Some co)
                   (Some em)
                   (nightsBetween (Some ci) (Some co))
                   (js_mul (nightsBetween (Some ci) (Some co))
                      (to_Number (Property.price_per_night_cents prop)))
                   (toLowerCase (or_default (Property.currency prop) "EUR"))
                   (next_id d0)) = inr url
           /\ resp =
              respond 201
                (CheckoutBody (next_id d0) url
                   (js_mul (nightsBetween (Some ci) (Some co))
                      (to_Number (Property.price_per_night_cents prop)))
                   (toUpperCase (or_default (Property.currency prop) "EUR")))
           /\ d = set_reservations (bump d0)
                    (reservations d0
                     ++ [pending_row (next_id d0) (Property.id prop) d1 d2
                           (match CheckoutReq.guests b with
                            | Some g => g
                            | None => 1
                            end) em])
           /\ In (ECreateSession true) tr).
Proof.
  intros H. checkout_cases H; injection H as <- <- <-;
    (split; [reflexivity |]);
    try (left; split; [cbn; discriminate | reflexivity]).
  right.
  match goal with
  | Hr : checkout_rejects b = None |- _ =>
      destruct (checkout_rejects_None b Hr) as (Hem & Hci & Hco & Hna)
  end.
  destruct (truthy_Some _ Hem) as [em Eem].
  destruct (truthy_Some _ Hci) as [ci Eci].
  destruct (truthy_Some _ Hco) as [co Eco].
  rewrite Eem, Eci, Eco in *. cbn [js_string] in *.
  match goal with
  | H1 : date_in ci = Some ?d1, H2 : date_in co = Some ?d2,
    Hsel : select_where _ _ _ _ = inr [] |- _ =>
      rewrite (select_where_read _ _ _ _ _ _ H1 H2) in Hsel;
      injection Hsel as Hsel;
      exists t, em, ci, co, d1, d2
  end.
  eexists. rewrite toUpperCase_toLowerCase.
  repeat split; try eassumption; try reflexivity.
  - intros ->. discriminate Hem.
  - right. apply in_or_app. right. simpl. tauto.
Qed.

(** X1.  [pool.connect()] is the first thing a checkout awaits, before
    its [try]: when that is rejected the handler throws the error,
    having sent no statement, and answers nothing.  Once a connection
    is obtained the checkout always answers, with 201, 400, 404, 409 or
    500, whatever the request and whatever the gateway answers.  The
    connection is the first event and its release the last, exactly
    once, with no transaction left open; a transaction that was begun
    is ended by COMMIT or ROLLBACK; the properties table is never
    changed. *)
Theorem checkout_answers_and_releases (b : CheckoutReq.t) (w : World) :
  (exists k, checkout FRONTEND_URL b = Await Connect k)
  /\ (forall e,
         run_rejected stripe e (checkout FRONTEND_URL b) w = (inl e, w, []))
  /\ exists resp d tr,
       run stripe (checkout FRONTEND_URL b) w =
       (inr resp, with_client d (clients w) closed_client, tr)
       /\ In (status resp) [201; 400; 404; 409; 500]
       /\ properties d = properties (db w)
       /\ hd_error tr = Some (EConnect (List.length (clients w)))
       /\ last tr ESelectProperty = ERelease (List.length (clients w))
       /\ (forall c, ~ In (ERelease c) (removelast tr))
       /\ (forall c, In (EBegin c) tr ->
                     In (ECommit c) tr \/ In (ERollback c) tr).
Proof.
  split; [eexists; reflexivity |].
  split; [intros e; reflexivity |].
  rewrite checkout_run.
  destruct (checkout_alone stripe FRONTEND_URL b (db w)
              (List.length (clients w))) as [[resp d] tr] eqn:H.
  exists resp, d, tr. split; [reflexivity |].
  unfold checkout_alone, lookup_events in H.
  destruct (negb (truthy (CheckoutReq.property_id b))
            && negb (truthy (CheckoutReq.property_slug b)));
    checkout_cases H; injection H as <- <- <-;
    (split; [cbn; tauto |]); (split; [reflexivity |]);
    (split; [reflexivity |]); (split; [reflexivity |]);
    (split; [cbn; intros c Hc; intuition discriminate |]);
    cbn; intros c Hc; intuition (try discriminate);
    match goal with
    | E : EBegin _ = EBegin _ |- _ => injection E as <-; tauto
    end.
Qed.

(** X2.  A checkout changes the reservations table only when it answers
    201, and then by exactly one row appended: status pending, the
    property that was looked up, the dates of the request as the
    database reads them, the email of the request, one guest unless the
    request says otherwise, and the identifier returned in the
    response. *)
Theorem checkout_all_or_nothing (b : CheckoutReq.t) (w w' : World)
    (resp : Response) (tr : list Event) :
  run stripe (checkout FRONTEND_URL b) w = (inr resp, w', tr) ->
  (status resp <> 201 -> reservations (db w') = reservations (db w))
  /\ (status resp = 201 ->
      exists prop em ci co d1 d2 url amount currency,
        lookup (db w) (CheckoutReq.property_id b)
          (CheckoutReq.property_slug b) = Some prop
        /\ CheckoutReq.email b = Some em
        /\ CheckoutReq.checkin b = Some ci
        /\ CheckoutReq.checkout b = Some co
        /\ date_in ci = Some d1 /\ date_in co = Some d2
        /\ body resp = CheckoutBody (next_id (db w)) url amount currency
        /\ reservations (db w') =
           reservations (db w)
           ++ [{| Reservation.id := next_id (db w);
                  Reservation.property_id := Property.id prop;
                  Reservation.checkin := d1;
                  Reservation.checkout := d2;
                  Reservation.guests :=
                    match CheckoutReq.guests b with
                    | Some g => g
                    | None => 1
                    end;
                  Reservation.email := em;
                  Reservation.status := "pending" |}]).
Proof.
  rewrite checkout_run.
  destruct (checkout_alone stripe FRONTEND_URL b (db w)
              (List.length (clients w))) as [[resp0 d] tr0] eqn:H.
  intros E. injection E as <- <- <-.
  destruct (checkout_outcome _ _ _ _ _ _ H)
    as [_ [[Hs Hr] | (prop & em & ci & co & d1 & d2 & url & Hl & Hem & _
                      & Hci & Hco & _ & H1 & H2 & _ & _ & -> & -> & _)]].
  - split; [intros _; exact Hr | intros E; contradiction].
  - split; [intros Hne; exfalso; apply Hne; reflexivity |].
    intros _. exists prop, em, ci, co, d1, d2, url. do 2 eexists.
    repeat split; try eassumption; reflexivity.
Qed.

(** X3.  When a checkout answers 201, the gateway opened the session
    whose URL is returned, and it was asked with the identifier of the
    reservation just inserted in its metadata and in both redirect
    URLs, the property and the dates of the request, the email of the
    request as customer, one line of quantity 1 whose unit amount is the
    amount of the response and whose currency is lower case, the
    response carrying the same currency in upper case. *)
Theorem checkout_session_matches_booking (b : CheckoutReq.t) (w w' : World)
    (rid : Z) (url : string) (amount : Number) (currency : string)
    (tr : list Event) :
  run stripe (checkout FRONTEND_URL b) w =
    (inr (respond 201 (CheckoutBody rid url amount currency)), w', tr) ->
  exists p prop,
    stripe p = inr url
    /\ lookup (db w) (CheckoutReq.property_id b) (CheckoutReq.property_slug b)
       = Some prop
    /\ rid = next_id (db w)
    /\ meta_reservation_id p = rid
    /\ success_url p =
       (js_string FRONTEND_URL
        ++ "/success?session_id={CHECKOUT_SESSION_ID}&reservation_id="
        ++ decimal rid)%string
    /\ cancel_url p =
       (js_string FRONTEND_URL ++ "/cancel?reservation_id="
        ++ decimal rid)%string
    /\ meta_property_id p = Property.id prop
    /\ meta_property_slug p = Property.slug prop
    /\ meta_checkin p = CheckoutReq.checkin b
    /\ meta_checkout p = CheckoutReq.checkout b
    /\ customer_email p = CheckoutReq.email b
    /\ mode p = "payment" /\ quantity p = 1
    /\ unit_amount p = amount
    /\ amount = js_mul (nightsBetween (CheckoutReq.checkin b)
                          (CheckoutReq.checkout b))
                  (to_Number (Property.price_per_night_cents prop))
    /\ line_currency p
       = toLowerCase (or_default (Property.currency prop) "EUR")
    /\ currency = toUpperCase (or_default (Property.currency prop) "EUR")
    /\ In (ECreateSession true) tr.
Proof.
  rewrite checkout_run.
  destruct (checkout_alone stripe FRONTEND_URL b (db w)
              (List.length (clients w))) as [[resp0 d] tr0] eqn:H.
  intros E. injection E as -> <- <-.
  destruct (checkout_outcome _ _ _ _ _ _ H)
    as [_ [[Hs _] | (prop & em & ci & co & d1 & d2 & url' & Hl & Hem & Hne
                     & Hci & Hco & Hna & H1 & H2 & Hfree & Hs & Hresp & _
                     & Hin)]].
  { exfalso. apply Hs. reflexivity. }
  injection Hresp as -> -> -> ->.
  eexists. exists prop. split; [exact Hs |].
  rewrite Hem, Hci, Hco.
  repeat split; try reflexivity; assumption.
Qed.

End CheckoutOutcome.

(** ** Dates the checks let through *)

Lemma order_by_checkin_nil (l : list Reservation.t) :
  order_by_checkin l = [] <-> l = [].
Proof.
  split; [| intros ->; reflexivity].
  intros H. pose proof (order_by_checkin_perm l) as P. rewrite H in P.
  now apply Permutation_nil, Permutation_sym.
Qed.

Lemma quote_alone_ext (b : QuoteReq.t) (d d' : Db) :
  properties d' = properties d -> quote_alone b d' = quote_alone b d.
Proof.
  intros Hp. unfold quote_alone, lookup, select_property. now rewrite Hp.
Qed.

Lemma parse_ymd_truthy (s : string) (f : Z * Z * Z) :
  parse_ymd s = Some f -> truthy (Some s) = true.
Proof. destruct s; [discriminate | reflexivity]. Qed.

Lemma date_in_truthy (s : string) (d : Z) :
  date_in s = Some d -> truthy (Some s) = true.
Proof. destruct s; [discriminate | reflexivity]. Qed.

(** What the database says of a text spelled [YYYY-MM-DD] that it
    refuses: the value of a field is out of range. *)
Lemma bad_date_ymd (s : string) (f : Z * Z * Z) :
  parse_ymd s = Some f ->
  bad_date s = ("date/time field value out of range: " ++ quoted s)%string.
Proof.
  destruct f as [[y m] d]. intros H. unfold bad_date.
  now rewrite (date_fields_ymd _ _ _ _ H).
Qed.

Lemma select_where_refused (pid s2 s3 : string) (f2 f3 : Z * Z * Z)
    (rows : list Reservation.t) :
  parse_ymd s2 = Some f2 -> parse_ymd s3 = Some f3 ->
  pg_date s2 = None \/ pg_date s3 = None ->
  select_where pid (Some s2) (Some s3) rows
  = inl ("date/time field value out of range: "
         ++ quoted (match pg_date s2 with
                    | None => s2
                    | Some _ => s3
                    end))%string.
Proof.
  intros P2 P3 Hbad. unfold select_where.
  destruct f2 as [[y2 m2] d2], f3 as [[y3 m3] d3].
  rewrite (date_in_ymd _ _ _ _ P2), (date_in_ymd _ _ _ _ P3).
  destruct (pg_date s2) as [a |] eqn:E2.
  - destruct Hbad as [E | E]; [discriminate |]. rewrite E.
    now rewrite (bad_date_ymd _ _ P3).
  - now rewrite (bad_date_ymd _ _ P2).
Qed.

Section LetThrough.

Variable stripe : SessionParams -> string + string.
Variable FRONTEND_URL : jsval.

(** X4.  A checkout whose dates are spelled [YYYY-MM-DD] and pass the
    comparison of the handler, while one of them is no day of the
    calendar (30 February, which [new Date] lets run over into March,
    or a thirteenth month, which compares as NaN), is answered with 500
    and not with 400: the conflict query fails on the first such date
    with the message of the database, which names it, ROLLBACK is sent
    on the connection although no transaction was begun, and the tables
    are unchanged. *)
Theorem checkout_refused_dates (b : CheckoutReq.t) (w : World)
    (prop : Property.t) (ci co : string) (f1 f2 : Z * Z * Z) :
  truthy (CheckoutReq.email b) = true ->
  CheckoutReq.checkin b = Some ci -> CheckoutReq.checkout b = Some co ->
  parse_ymd ci = Some f1 -> parse_ymd co = Some f2 ->
  not_after (Some co) (Some ci) = false ->
  lookup (db w) (CheckoutReq.property_id b) (CheckoutReq.property_slug b)
    = Some prop ->
  pg_date ci = None \/ pg_date co = None ->
  run stripe (checkout FRONTEND_URL b) w =
  (inr (respond 500
          (bad ("date/time field value out of range: "
                ++ quoted (match pg_date ci with
                           | None => ci
                           | Some _ => co
                           end))%string)),
   with_client (db w) (clients w) closed_client,
   EConnect (List.length (clients w))
   :: lookup_events (CheckoutReq.property_id b) (CheckoutReq.property_slug b)
   ++ [ESelectConflicts (List.length (clients w)) false;
       ERollback (List.length (clients w));
       ERelease (List.length (clients w))]).
Proof.
  intros Hem Hci Hco P1 P2 Hna Hl Hbad.
  rewrite checkout_run. unfold checkout_alone, checkout_rejects.
  rewrite Hem, Hci, Hco, Hna, Hl.
  rewrite (parse_ymd_truthy _ _ P1), (parse_ymd_truthy _ _ P2).
  cbn [negb orb].
  rewrite (select_where_refused _ _ _ _ _ _ P1 P2 Hbad).
  rewrite <- app_comm_cons, <- app_assoc. reflexivity.
Qed.

(** X5.  A quote for dates in a spelling the database reads but
    [new Date] does not (a month or a day of one digit, the year, month
    and day written together) is not rejected, whatever the order of
    the two days: compared as NaN the dates pass the check, and for a
    property that is found the answer is 200 with nights and total NaN
    and the formatted total "NaN" followed by the currency. *)
Theorem quote_unread_dates (b : QuoteReq.t) (w : World)
    (prop : Property.t) (ci co : string) (d1 d2 : Z) :
  QuoteReq.checkin b = Some ci -> QuoteReq.checkout b = Some co ->
  date_in ci = Some d1 -> date_in co = Some d2 ->
  toDate (Some ci) = None \/ toDate (Some co) = None ->
  lookup (db w) (QuoteReq.property_id b) (QuoteReq.property_slug b)
    = Some prop ->
  run stripe (quote b) w =
  (inr (respond 200
          (QuoteBody (property_ref prop) (Some ci) (Some co) NaN
             (or_default (Property.currency prop) "EUR")
             (to_Number (Property.price_per_night_cents prop)) NaN
             (Some ("NaN " ++ or_default (Property.currency prop) "EUR")
                   %string))),
   w, lookup_events (QuoteReq.property_id b) (QuoteReq.property_slug b)).
Proof.
  intros Hci Hco H1 H2 Hnan Hl.
  assert (Hna : not_after (Some co) (Some ci) = false).
  { unfold not_after. destruct Hnan as [E | E]; rewrite E;
      [destruct (toDate (Some co)) |]; reflexivity. }
  assert (Hn : nightsBetween (Some ci) (Some co) = NaN).
  { unfold nightsBetween. destruct Hnan as [E | E]; rewrite E;
      [destruct (toDate (Some co)) |]; reflexivity. }
  rewrite quote_run. unfold quote_alone, quote_rejects.
  rewrite Hci, Hco, (date_in_truthy _ _ H1), (date_in_truthy _ _ H2).
  cbn [negb orb]. rewrite Hna, Hl, Hn. reflexivity.
Qed.

(** X6.  The quote and the availability route always answer, never
    throw and leave the world exactly as it was.  A quote sends at most
    the property lookup and never reads the reservations: its answer is
    the same on any world with the same properties, whether the range
    is free or taken.  An availability query sends selects only and its
    answer depends on the two tables alone. *)
Theorem quote_and_availability_read_only :
  (forall (b : QuoteReq.t) (w : World),
      exists resp tr,
        run stripe (quote b) w = (inr resp, w, tr)
        /\ (forall e, In e tr -> e = ESelectProperty)
        /\ forall w2, properties (db w2) = properties (db w) ->
                      run stripe (quote b) w2 = (inr resp, w2, tr))
  /\ (forall (q : Query.t) (w : World),
         exists resp tr,
           run stripe (availability q) w = (inr resp, w, tr)
           /\ (forall e, In e tr -> e = ESelectProperty \/ e = ESelectOccupied)
           /\ forall w2, properties (db w2) = properties (db w) ->
                         reservations (db w2) = reservations (db w) ->
                         run stripe (availability q) w2 = (inr resp, w2, tr)).
Proof.
  split.
  - intros b w. do 2 eexists. split; [apply quote_run |]. split.
    + unfold quote_alone. intros e He.
      destruct (quote_rejects b); [destruct He |].
      destruct (lookup (db w) (QuoteReq.property_id b)
                  (QuoteReq.property_slug b));
        cbn [snd] in He; now apply lookup_events_only in He.
    + intros w2 Hp. rewrite quote_run.
      now rewrite (quote_alone_ext b (db w) (db w2) Hp).
  - intros q w. do 2 eexists. split; [apply availability_run |]. split.
    + unfold availability_alone. intros e He.
      destruct (negb (truthy (Query.from q)) || negb (truthy (Query.to q)));
        [destruct He |].
      destruct (lookup (db w) (Query.property_id q) (Query.property_slug q))
        as [prop |]; [| left; cbn [snd] in He;
                        now apply lookup_events_only in He].
      destruct (select_where (Property.id prop) (Query.from q) (Query.to q)
                  (reservations (db w)));
        cbn [snd] in He; apply in_app_or in He;
        (destruct He as [He | [<- | []]];
         [left; now apply lookup_events_only in He | now right]).
    + intros w2 Hp Hr. rewrite availability_run.
      now rewrite (availability_alone_ext q (db w) (db w2) Hp Hr).
Qed.

(** X7.  An availability query with [from] or [to] missing or empty is
    answered with 400 before any statement is sent.  One whose dates are
    spelled [YYYY-MM-DD], for a property that is found, but of which one
    is no day of the calendar is answered with 500 and the message of
    the database, which names the first such date: the route does not
    check the dates itself. *)
Theorem availability_errors (q : Query.t) (w : World) :
  (truthy (Query.from q) = false \/ truthy (Query.to q) = false ->
   run stripe (availability q) w =
   (inr (respond 400 (bad "from/to mancanti")), w, []))
  /\ (forall (prop : Property.t) (s2 s3 : string) (f2 f3 : Z * Z * Z),
         Query.from q = Some s2 -> Query.to q = Some s3 ->
         parse_ymd s2 = Some f2 -> parse_ymd s3 = Some f3 ->
         lookup (db w) (Query.property_id q) (Query.property_slug q)
           = Some prop ->
         pg_date s2 = None \/ pg_date s3 = None ->
         run stripe (availability q) w =
         (inr (respond 500
                 (bad ("date/time field value out of range: "
                       ++ quoted (match pg_date s2 with
                                  | None => s2
                                  | Some _ => s3
                                  end))%string)), w,
          lookup_events (Query.property_id q) (Query.property_slug q)
          ++ [ESelectOccupied])).
Proof.
  split.
  - intros H. rewrite availability_run. unfold availability_alone.
    destruct H as [H | H]; rewrite H; [reflexivity |].
    now rewrite orb_true_r.
  - intros prop s2 s3 f2 f3 Hf Ht P2 P3 Hl Hbad.
    rewrite availability_run. unfold availability_alone.
    rewrite Hf, Ht, Hl.
    rewrite (parse_ymd_truthy _ _ P2), (parse_ymd_truthy _ _ P3).
    cbn [negb orb].
    now rewrite (select_where_refused _ _ _ _ _ _ P2 P3 Hbad).
Qed.

(** X8.  The availability view and the conflict guard agree: for a
    checkout that passes the field checks, names a property that is
    found and has dates the database accepts, the availability query
    for the same property and the same two dates, on the same tables,
    lists something exactly when the checkout is answered with
    Conflict. *)
Theorem conflict_iff_occupied (b : CheckoutReq.t) (w : World)
    (prop : Property.t) (em ci co : string) (a1 a2 : Z) :
  CheckoutReq.email b = Some em -> em <> "" ->
  CheckoutReq.checkin b = Some ci -> CheckoutReq.checkout b = Some co ->
  pg_date ci = Some a1 -> pg_date co = Some a2 -> a1 < a2 ->
  lookup (db w) (CheckoutReq.property_id b) (CheckoutReq.property_slug b)
    = Some prop ->
  exists occ tr,
    run stripe
      (availability
         {| Query.property_slug := CheckoutReq.property_slug b;
            Query.property_id := CheckoutReq.property_id b;
            Query.from := Some ci;
            Query.to := Some co |}) w =
    (inr (respond 200
            (AvailabilityBody (property_ref prop) (Some ci) (Some co) occ)),
     w, tr)
    /\ (occ <> [] <->
        fst (fst (run stripe (checkout FRONTEND_URL b) w))
        = inr (respond 409 (bad "date non disponibili"))).
Proof.
  intros Hem Hne Hci Hco H1 H2 Hlt Hl.
  rewrite availability_run, checkout_run.
  unfold availability_alone, checkout_alone.
  cbn [Query.from Query.to Query.property_id Query.property_slug].
  rewrite (pg_date_truthy _ _ H1), (pg_date_truthy _ _ H2).
  rewrite (checkout_accepts _ _ _ _ _ _ Hem Hne Hci Hco H1 H2 Hlt), Hl.
  rewrite Hci, Hco, (select_where_dates _ _ _ _ _ _ H1 H2).
  cbn [negb orb fst snd js_string].
  rewrite (pg_date_date_in _ _ H1), (pg_date_date_in _ _ H2).
  do 2 eexists. split; [reflexivity |].
  destruct (filter (occupies (Property.id prop) a1 a2) (reservations (db w)))
    as [| r rest] eqn:Hf.
  - cbn [order_by_checkin map].
    match goal with
    | |- context [stripe ?p] => destruct (stripe p)
    end; cbn [fst];
      (split; [intros H; now elim H | intros H; inversion H]).
  - cbn [fst]. split; [reflexivity |]. intros _ H.
    apply map_eq_nil in H.
    apply (proj1 (order_by_checkin_nil (r :: rest))) in H. discriminate H.
Qed.

(** X9.  What is booked shows: after a checkout answered 201, an
    availability query for the same property over any range of dates
    that overlaps the booked one lists the new reservation, with the
    identifier of the response, the booked dates and status pending. *)
Theorem booking_shows_in_availability (b : CheckoutReq.t) (w w' : World)
    (rid : Z) (url : string) (amount : Number) (currency : string)
    (tr : list Event) (ci co s2 s3 : string) (a1 a2 d2 d3 : Z) :
  run stripe (checkout FRONTEND_URL b) w =
    (inr (respond 201 (CheckoutBody rid url amount currency)), w', tr) ->
  CheckoutReq.checkin b = Some ci -> CheckoutReq.checkout b = Some co ->
  pg_date ci = Some a1 -> pg_date co = Some a2 ->
  pg_date s2 = Some d2 -> pg_date s3 = Some d3 ->
  ranges_overlap a1 a2 d2 d3 ->
  exists prop occ tr',
    run stripe
      (availability
         {| Query.property_slug := CheckoutReq.property_slug b;
            Query.property_id := CheckoutReq.property_id b;
            Query.from := Some s2;
            Query.to := Some s3 |}) w' =
    (inr (respond 200
            (AvailabilityBody (property_ref prop) (Some s2) (Some s3) occ)),
     w', tr')
    /\ In {| Occupied.id := rid;
             Occupied.checkin := a1;
             Occupied.checkout := a2;
             Occupied.status := "pending" |} occ.
Proof.
  rewrite checkout_run.
  destruct (checkout_alone stripe FRONTEND_URL b (db w)
              (List.length (clients w))) as [[resp0 d] tr0] eqn:H.
  intros E Hci Hco H1 H2 Hs2 Hs3 Hov. injection E as -> <- <-.
  destruct (checkout_outcome _ _ _ _ _ _ _ _ H)
    as [_ [[Hs _] | (prop & em & ci' & co' & d1 & d2' & url' & Hl & Hem & Hne
                     & Hci' & Hco' & Hna & H1' & H2' & Hfree & Hs & Hresp
                     & -> & _)]].
  { exfalso. apply Hs. reflexivity. }
  injection Hresp as -> -> -> ->.
  assert (ci' = ci) by congruence. assert (co' = co) by congruence.
  subst ci' co'.
  apply pg_date_date_in in H1. apply pg_date_date_in in H2.
  assert (d1 = a1) by congruence. assert (d2' = a2) by congruence.
  subst d1 d2'.
  exists prop. rewrite availability_run. unfold availability_alone.
  cbn [Query.from Query.to Query.property_id Query.property_slug db
       with_client].
  rewrite (pg_date_truthy _ _ Hs2), (pg_date_truthy _ _ Hs3).
  change (lookup (set_reservations (bump (db w)) _) ?i ?s)
    with (lookup (db w) i s).
  rewrite Hl, (select_where_dates _ _ _ _ _ _ Hs2 Hs3).
  cbn [negb orb fst snd]. do 2 eexists. split; [reflexivity |].
  set (row := pending_row (next_id (db w)) (Property.id prop) a1 a2 _ em).
  change {| Occupied.id := next_id (db w); Occupied.checkin := a1;
            Occupied.checkout := a2; Occupied.status := "pending" |}
    with (occupied_of row).
  apply in_map.
  eapply Permutation_in; [apply order_by_checkin_perm |].
  apply filter_In. split.
  - cbn [reservations set_reservations]. apply in_or_app. right. now left.
  - apply occupies_spec. subst row. cbn. repeat split; auto.
Qed.

End LetThrough.

(** ** One booking after another *)

Lemma taken_snoc (rs : list Reservation.t) (row : Reservation.t)
    (pid : string) (a1 a2 : Z) :
  taken (rs ++ [row]) pid a1 a2 <->
  taken rs pid a1 a2
  \/ (Reservation.property_id row = pid
      /\ (Reservation.status row = "pending"
          \/ Reservation.status row = "paid")
      /\ ranges_overlap a1 a2 (Reservation.checkin row)
           (Reservation.checkout row)).
Proof.
  unfold taken. split.
  - intros (r & Hin & H). apply in_app_or in Hin.
    destruct Hin as [Hin | [<- | []]]; [left; now exists r | now right].
  - intros [(r & Hin & H) | H].
    + exists r. split; [apply in_or_app; now left | exact H].
    + exists row. split; [apply in_or_app; right; now left | exact H].
Qed.

Section Bookings.

Variable stripe : SessionParams -> string + string.
Variable FRONTEND_URL : jsval.

(** A checkout that passes the checks, for a free range and with the
    gateway up. *)
Lemma checkout_booked (b : CheckoutReq.t) (w : World) (prop : Property.t)
    (em ci co : string) (a1 a2 : Z) :
  (forall p, exists url, stripe p = inr url) ->
  CheckoutReq.email b = Some em -> em <> "" ->
  CheckoutReq.checkin b = Some ci -> CheckoutReq.checkout b = Some co ->
  pg_date ci = Some a1 -> pg_date co = Some a2 -> a1 < a2 ->
  lookup (db w) (CheckoutReq.property_id b) (CheckoutReq.property_slug b)
    = Some prop ->
  ~ taken (reservations (db w)) (Property.id prop) a1 a2 ->
  exists url amount currency tr,
    run stripe (checkout FRONTEND_URL b) w =
    (inr (respond 201 (CheckoutBody (next_id (db w)) url amount currency)),
     with_client
       (set_reservations (bump (db w))
          (reservations (db w)
           ++ [pending_row (next_id (db w)) (Property.id prop) a1 a2
                 (match CheckoutReq.guests b with
                  | Some g => g
                  | None => 1
                  end) em]))
       (clients w) closed_client, tr).
Proof.
  intros Hup Hem Hne Hci Hco H1 H2 Hlt Hl Hfree.
  rewrite checkout_run. unfold checkout_alone.
  rewrite (checkout_accepts _ _ _ _ _ _ Hem Hne Hci Hco H1 H2 Hlt), Hl.
  rewrite Hci, Hco, Hem, (select_where_dates _ _ _ _ _ _ H1 H2).
  rewrite (free_filter _ _ _ _ Hfree).
  cbn [js_string].
    rewrite (pg_date_date_in _ _ H1), (pg_date_date_in _ _ H2).
  match goal with
  | |- context [stripe ?p] => destruct (Hup p) as [url ->]
  end.
  do 4 eexists. reflexivity.
Qed.

(** X10.  Two checkouts of one property run one after the other, both
    passing the field checks, with the gateway up, for ranges that
    overlap, the first range free: the first is answered 201, the second
    409, and the table has gained the first reservation only. *)
Theorem second_overlapping_booking_conflicts (b1 b2 : CheckoutReq.t)
    (w : World) (prop : Property.t) (em1 ci1 co1 em2 ci2 co2 : string)
    (a1 a2 c1 c2 : Z) :
  (forall p, exists url, stripe p = inr url) ->
  CheckoutReq.email b1 = Some em1 -> em1 <> "" ->
  CheckoutReq.checkin b1 = Some ci1 -> CheckoutReq.checkout b1 = Some co1 ->
  pg_date ci1 = Some a1 -> pg_date co1 = Some a2 -> a1 < a2 ->
  CheckoutReq.email b2 = Some em2 -> em2 <> "" ->
  CheckoutReq.checkin b2 = Some ci2 -> CheckoutReq.checkout b2 = Some co2 ->
  pg_date ci2 = Some c1 -> pg_date co2 = Some c2 -> c1 < c2 ->
  lookup (db w) (CheckoutReq.property_id b1) (CheckoutReq.property_slug b1)
    = Some prop ->
  lookup (db w) (CheckoutReq.property_id b2) (CheckoutReq.property_slug b2)
    = Some prop ->
  ~ taken (reservations (db w)) (Property.id prop) a1 a2 ->
  ranges_overlap a1 a2 c1 c2 ->
  exists url amount currency w',
    run_all stripe [checkout FRONTEND_URL b1; checkout FRONTEND_URL b2] w =
    ([inr (respond 201
             (CheckoutBody (next_id (db w)) url amount currency));
      inr (respond 409 (bad "date non disponibili"))], w')
    /\ reservations (db w') =
       reservations (db w)
       ++ [pending_row (next_id (db w)) (Property.id prop) a1 a2
             (match CheckoutReq.guests b1 with
              | Some g => g
              | None => 1
              end) em1].
Proof.
  intros Hup Hem1 Hne1 Hci1 Hco1 H11 H12 Hlt1 Hem2 Hne2 Hci2 Hco2 H21 H22
    Hlt2 Hl1 Hl2 Hfree Hov.
  destruct (checkout_booked b1 w prop em1 ci1 co1 a1 a2 Hup Hem1 Hne1 Hci1
              Hco1 H11 H12 Hlt1 Hl1 Hfree) as (url & amount & cur & tr & E1).
  cbn [run_all]. rewrite E1.
  match goal with
  | |- context [run stripe (checkout FRONTEND_URL b2) ?w1] =>
      rewrite (checkout_taken stripe FRONTEND_URL b2 w1 prop em2 ci2 co2 c1 c2
                 Hem2 Hne2 Hci2 Hco2 H21 H22 Hlt2 Hl2)
  end.
  - do 4 eexists. split; reflexivity.
  - cbn [db with_client reservations set_reservations].
    apply taken_snoc. right. cbn. repeat split; auto.
    now apply ranges_overlap_sym.
Qed.

(** X11.  Two checkouts of one property run one after the other, both
    passing the field checks, with the gateway up, for ranges that do
    not overlap and are both free: both are answered 201, with
    consecutive identifiers, and the table has gained the two
    reservations in that order. *)
Theorem disjoint_bookings_both_succeed (b1 b2 : CheckoutReq.t)
    (w : World) (prop : Property.t) (em1 ci1 co1 em2 ci2 co2 : string)
    (a1 a2 c1 c2 : Z) :
  (forall p, exists url, stripe p = inr url) ->
  CheckoutReq.email b1 = Some em1 -> em1 <> "" ->
  CheckoutReq.checkin b1 = Some ci1 -> CheckoutReq.checkout b1 = Some co1 ->
  pg_date ci1 = Some a1 -> pg_date co1 = Some a2 -> a1 < a2 ->
  CheckoutReq.email b2 = Some em2 -> em2 <> "" ->
  CheckoutReq.checkin b2 = Some ci2 -> CheckoutReq.checkout b2 = Some co2 ->
  pg_date ci2 = Some c1 -> pg_date co2 = Some c2 -> c1 < c2 ->
  lookup (db w) (CheckoutReq.property_id b1) (CheckoutReq.property_slug b1)
    = Some prop ->
  lookup (db w) (CheckoutReq.property_id b2) (CheckoutReq.property_slug b2)
    = Some prop ->
  ~ taken (reservations (db w)) (Property.id prop) a1 a2 ->
  ~ taken (reservations (db w)) (Property.id prop) c1 c2 ->
  ~ ranges_overlap a1 a2 c1 c2 ->
  exists url1 amount1 currency1 url2 amount2 currency2 w',
    run_all stripe [checkout FRONTEND_URL b1; checkout FRONTEND_URL b2] w =
    ([inr (respond 201
             (CheckoutBody (next_id (db w)) url1 amount1 currency1));
      inr (respond 201
             (CheckoutBody (next_id (db w) + 1) url2 amount2 currency2))],
     w')
    /\ reservations (db w') =
       reservations (db w)
       ++ [pending_row (next_id (db w)) (Property.id prop) a1 a2
             (match CheckoutReq.guests b1 with
              | Some g => g
              | None => 1
              end) em1;
           pending_row (next_id (db w) + 1) (Property.id prop) c1 c2
             (match CheckoutReq.guests b2 with
              | Some g => g
              | None => 1
              end) em2].
Proof.
  intros Hup Hem1 Hne1 Hci1 Hco1 H11 H12 Hlt1 Hem2 Hne2 Hci2 Hco2 H21 H22
    Hlt2 Hl1 Hl2 Hfree1 Hfree2 Hdis.
  destruct (checkout_booked b1 w prop em1 ci1 co1 a1 a2 Hup Hem1 Hne1 Hci1
              Hco1 H11 H12 Hlt1 Hl1 Hfree1) as (url1 & am1 & cur1 & tr1 & E1).
  cbn [run_all]. rewrite E1.
  match goal with
  | |- context [run stripe (checkout FRONTEND_URL b2) ?w1] =>
      destruct (checkout_booked b2 w1 prop em2 ci2 co2 c1 c2 Hup Hem2 Hne2
                  Hci2 Hco2 H21 H22 Hlt2 Hl2)
        as (url2 & am2 & cur2 & tr2 & E2)
  end.
  { cbn [db with_client reservations set_reservations].
    rewrite taken_snoc. intros [H | (_ & _ & H)]; [now apply Hfree2 |].
    apply Hdis. now apply ranges_overlap_sym. }
  rewrite E2. cbn [db with_client reservations set_reservations bump next_id].
  do 7 eexists. split; [reflexivity |].
  cbn [db with_client reservations set_reservations].
  now rewrite <- app_assoc.
Qed.

(** X21.  A checkout whose dates the database reads but [new Date]
    does not (a month or a day of one digit, the year, month and day
    written together) is booked whatever the order of its two days: the
    dates compare as NaN and pass the check, and when the email is
    given, the property is found, no active reservation of it meets the
    range as the database reads it and the gateway opens the session,
    the answer is 201 with an amount of NaN and the table gains a
    pending reservation with the two days as given, be the checkout
    before the checkin. *)
Theorem unread_dates_booked (b : CheckoutReq.t) (w : World)
    (prop : Property.t) (em ci co : string) (d1 d2 : Z) :
  (forall p, exists url, stripe p = inr url) ->
  CheckoutReq.email b = Some em -> em <> "" ->
  CheckoutReq.checkin b = Some ci -> CheckoutReq.checkout b = Some co ->
  date_in ci = Some d1 -> date_in co = Some d2 ->
  toDate (Some ci) = None \/ toDate (Some co) = None ->
  lookup (db w) (CheckoutReq.property_id b) (CheckoutReq.property_slug b)
    = Some prop ->
  ~ taken (reservations (db w)) (Property.id prop) d1 d2 ->
  exists url w' tr,
    run stripe (checkout FRONTEND_URL b) w =
    (inr (respond 201
            (CheckoutBody (next_id (db w)) url NaN
               (toUpperCase (or_default (Property.currency prop) "EUR")))),
     w', tr)
    /\ In (ESelectConflicts (List.length (clients w)) false) tr
    /\ In (EInsert (List.length (clients w)) true) tr
    /\ reservations (db w') =
       reservations (db w)
       ++ [{| Reservation.id := next_id (db w);
              Reservation.property_id := Property.id prop;
              Reservation.checkin := d1;
              Reservation.checkout := d2;
              Reservation.guests :=
                match CheckoutReq.guests b with
                | Some g => g
                | None => 1
                end;
              Reservation.email := em;
              Reservation.status := "pending" |}].
Proof.
  intros Hup Hem Hne Hci Hco H1 H2 Hnan Hl Hfree.
  assert (Hna : not_after (Some co) (Some ci) = false).
  { unfold not_after. destruct Hnan as [E | E]; rewrite E;
      [destruct (toDate (Some co)) |]; reflexivity. }
  assert (Hn : nightsBetween (Some ci) (Some co) = NaN).
  { unfold nightsBetween. destruct Hnan as [E | E]; rewrite E;
      [destruct (toDate (Some co)) |]; reflexivity. }
  rewrite checkout_run. unfold checkout_alone, checkout_rejects.
  rewrite Hem, Hci, Hco, Hna, Hl, Hn.
  rewrite (date_in_truthy _ _ H1), (date_in_truthy _ _ H2).
  replace (truthy (Some em)) with true
    by (symmetry; apply negb_true_iff, String.eqb_neq, Hne).
  cbn [negb orb js_mul js_string].
  rewrite (select_where_read _ _ _ _ _ _ H1 H2), (free_filter _ _ _ _ Hfree).
  rewrite H1, H2.
  match goal with
  | |- context [stripe ?p] => destruct (Hup p) as [url ->]
  end.
  rewrite toUpperCase_toLowerCase.
  do 3 eexists. split; [reflexivity |].
  split; [apply in_or_app; left; right; apply in_or_app; right; simpl; tauto |].
  split; [apply in_or_app; right; simpl; tauto |].
  reflexivity.
Qed.

(** X12.  Requests in the documented spelling leave no empty or
    reversed range behind: if every row of the table has its checkin
    before its checkout, so has every row after any number of checkouts
    run one after another, whatever the gateway answers, as long as the
    dates the requests give are days of the calendar spelled
    [YYYY-MM-DD]. *)
Theorem checkouts_keep_ranges_nonempty (bs : list CheckoutReq.t) (w : World) :
  Forall (fun b =>
            forall s,
              CheckoutReq.checkin b = Some s
              \/ CheckoutReq.checkout b = Some s ->
              s = "" \/ exists d, pg_date s = Some d) bs ->
  Forall (fun r => Reservation.checkin r < Reservation.checkout r)
    (reservations (db w)) ->
  Forall (fun r => Reservation.checkin r < Reservation.checkout r)
    (reservations
       (db (snd (run_all stripe (map (checkout FRONTEND_URL) bs) w)))).
Proof.
  intros Hdoc. revert w.
  induction Hdoc as [| b bs Hb Hbs IH]; intros w Hinv; [exact Hinv |].
  cbn [map run_all]. rewrite checkout_run.
  destruct (checkout_alone stripe FRONTEND_URL b (db w)
              (List.length (clients w))) as [[resp d] tr] eqn:H.
  destruct (run_all stripe (map (checkout FRONTEND_URL) bs)
              (with_client d (clients w) closed_client)) as [rs w2] eqn:E.
  cbn [snd]. replace w2 with (snd (rs, w2)) by reflexivity. rewrite <- E.
  apply IH. cbn [db with_client].
  destruct (checkout_outcome _ _ _ _ _ _ _ _ H)
    as [_ [[_ ->] | (prop & em & ci & co & d1 & d2 & url & _ & _ & _ & Hci
                     & Hco & Hna & H1 & H2 & _ & _ & _ & -> & _)]];
    [exact Hinv |].
  cbn [reservations set_reservations]. apply Forall_app. split; [exact Hinv |].
  constructor; [| constructor].
  cbn [pending_row Reservation.checkin Reservation.checkout].
  destruct (Hb ci (or_introl Hci)) as [-> | [a1 P1]]; [discriminate H1 |].
  destruct (Hb co (or_intror Hco)) as [-> | [a2 P2]]; [discriminate H2 |].
  rewrite (pg_date_date_in _ _ P1) in H1.
  rewrite (pg_date_date_in _ _ P2) in H2.
  injection H1 as <-. injection H2 as <-.
  unfold not_after in Hna.
  rewrite (pg_date_toDate _ _ P1), (pg_date_toDate _ _ P2) in Hna.
  apply Z.leb_gt in Hna. unfold msPerDay in Hna. lia.
Qed.

End Bookings.

(** ** Amounts, nights and keys *)

Lemma rne_error (n d : Z) : 0 < d -> 2 * Z.abs (rne n d * d - n) <= d.
Proof.
  intros Hd. unfold rne.
  pose proof (Z.div_mod n d ltac:(lia)) as E.
  pose proof (Z.mod_pos_bound n d Hd) as B.
  set (q := n / d) in *. set (r := n mod d) in *.
  destruct (2 * r <? d) eqn:E1; [apply Z.ltb_lt in E1; nia |].
  apply Z.ltb_ge in E1.
  destruct (d <? 2 * r) eqn:E2; [apply Z.ltb_lt in E2; nia |].
  apply Z.ltb_ge in E2.
  destruct (Z.even q); nia.
Qed.

Lemma rne_nonneg (n d : Z) : 0 <= n -> 0 < d -> 0 <= rne n d.
Proof.
  intros Hn Hd. unfold rne.
  pose proof (Z.div_pos n d Hn Hd).
  repeat match goal with
         | |- context [if ?c then _ else _] => destruct c
         end; lia.
Qed.

(** The double nearest to [n / 100], for a positive amount below
    [100 * 2^46]: its exponent is at most -7. *)
Lemma fl_cents (n : Z) :
  0 < n < 100 * 2 ^ 46 ->
  exists e, e <= -7
            /\ fl n 100 = {| mant := rne (n * 2 ^ (- e)) 100; expo := e |}.
Proof.
  intros [Hpos Hlt]. unfold fl.
  replace (n <? 0) with false by (symmetry; apply Z.ltb_ge; lia).
  unfold fl_pos.
  replace (n =? 0) with false by (symmetry; apply Z.eqb_neq; lia).
  change (Z.log2 100) with 6.
  assert (Ha : Z.log2 n < 53).
  { apply Z.log2_lt_pow2; [lia |]. change (2 ^ 53) with 9007199254740992.
    change (2 ^ 46) with 70368744177664 in Hlt. lia. }
  set (e0 := Z.log2 n - 6 - 53).
  assert (He0 : e0 <= -7) by (subst e0; lia).
  rewrite (Z.max_l 0 e0), (Z.max_r 0 (- e0)) by lia.
  destruct (2 ^ 53 * (100 * 2 ^ 0) <=? n * 2 ^ (- e0)) eqn:T.
  - (* the mantissa would have 54 bits: the exponent goes up by one *)
    assert (e0 <= -8).
    { destruct (Z.eq_dec e0 (-7)) as [E | E]; [| lia].
      exfalso. rewrite E in T. apply Z.leb_le in T.
      change (2 ^ 53 * (100 * 2 ^ 0)) with 900719925474099200 in T.
      change (2 ^ (- -7)) with 128 in T.
      change (2 ^ 46) with 70368744177664 in Hlt. lia. }
    exists (e0 + 1). split; [lia |].
    rewrite (Z.max_l 0 (e0 + 1)), (Z.max_r 0 (- (e0 + 1))) by lia.
    reflexivity.
  - exists e0. split; [lia |].
    rewrite (Z.max_l 0 e0), (Z.max_r 0 (- e0)) by lia.
    reflexivity.
Qed.

Lemma toFixed2_cents (n : Z) :
  0 <= n < 100 * 2 ^ 46 ->
  toFixed2 (fl n 100)
  = Some (decimal (n / 100) ++ "." ++ two_digits (n mod 100))%string.
Proof.
  intros [Hn Hlt].
  destruct (Z.eq_dec n 0) as [-> | Hne]; [reflexivity |].
  destruct (fl_cents n ltac:(lia)) as (e & He & ->).
  unfold toFixed2. cbn [mant expo].
  set (P := 2 ^ (- e)).
  assert (HP : 128 <= P).
  { subst P. change 128 with (2 ^ 7). apply Z.pow_le_mono_r; lia. }
  set (m := rne (n * P) 100).
  pose proof (rne_error (n * P) 100 ltac:(lia)) as Herr. fold m in Herr.
  pose proof (rne_nonneg (n * P) 100 ltac:(nia) ltac:(lia)) as Hm. fold m in Hm.
  replace (m <? 0) with false by (symmetry; apply Z.ltb_ge; lia).
  rewrite (Z.abs_eq m) by lia.
  replace (0 <=? e) with false by (symmetry; apply Z.leb_gt; lia).
  replace (2 ^ (1 - e)) with (2 * P)
    by (subst P; replace (1 - e) with (1 + - e) by lia;
        rewrite Z.pow_add_r by lia; reflexivity).
  assert (Hq : (200 * m + P) / (2 * P) = n).
  { symmetry. apply (Z.div_unique _ _ _ (200 * m + P - 2 * P * n)); lia. }
  rewrite Hq.
  replace (10 ^ 21 * P <=? m) with false; [reflexivity |].
  symmetry. apply Z.leb_gt.
  change (2 ^ 46) with 70368744177664 in Hlt.
  change (10 ^ 21) with 1000000000000000000000.
  assert (n * P <= 7036874417766400 * P) by nia. lia.
Qed.

Lemma hd_filter_unique {A} (f : A -> bool) (l : list A) (x : A) :
  In x l -> f x = true ->
  (forall y, In y l -> f y = true -> y = x) ->
  hd_error (filter f l) = Some x.
Proof.
  induction l as [| a l IH]; simpl; [intros [] |].
  intros Hin Hx Hu. destruct (f a) eqn:Ha.
  - simpl. f_equal. apply Hu; auto.
  - destruct Hin as [-> | Hin]; [congruence |].
    apply IH; auto.
Qed.

Lemma string_append_assoc (s t u : string) :
  ((s ++ t) ++ u = s ++ (t ++ u))%string.
Proof.
  induction s as [| c s IH]; [reflexivity |].
  cbn [String.append]. now rewrite IH.
Qed.

(** X13.  The formatted total is exact on ordinary amounts: for a total
    of [n] cents with [0 <= n < 100 * 2^46] (some seventy million
    million in the major unit) the division by 100 in double arithmetic
    followed by [toFixed(2)] prints the whole units of [n], a point and
    the two digits of [n mod 100], then the currency.  Just past
    that range it is no longer so: [100 * 2^46 + 1] cents print as
    ".02". *)
Theorem format_total_exact :
  (forall (n : Z) (currency : string),
      0 <= n < 100 * 2 ^ 46 ->
      format_total (Num n) currency
      = Some (decimal (n / 100) ++ "." ++ two_digits (n mod 100)
              ++ " " ++ currency)%string)
  /\ format_total (Num (100 * 2 ^ 46 + 1)) "EUR"
     = Some "70368744177664.02 EUR".
Proof.
  split; [| vm_compute; reflexivity].
  intros n currency Hn. unfold format_total.
  rewrite (toFixed2_cents n Hn).
  f_equal. rewrite string_append_assoc. reflexivity.
Qed.

(** X14.  Between two strings that [new Date] reads the nights are the
    whole days from the first to the second, negative when the second is
    the earlier, so the nights from a to b and from b to c add up to
    those from a to c; and where the database reads the two strings as
    well, the nights are the difference of the day numbers it stores. *)
Theorem nights_are_whole_days :
  (forall (a b : jsval) (ta tb : Z),
      toDate a = Some ta -> toDate b = Some tb ->
      exists n,
        nightsBetween a b = Num n /\ nightsBetween b a = Num (- n)
        /\ tb - ta = n * msPerDay)
  /\ (forall (a b c : jsval) (ta tb tc : Z),
         toDate a = Some ta -> toDate b = Some tb -> toDate c = Some tc ->
         exists n1 n2,
           nightsBetween a b = Num n1 /\ nightsBetween b c = Num n2
           /\ nightsBetween a c = Num (n1 + n2))
  /\ (forall (ci co : string) (ta tb d1 d2 : Z),
         toDate (Some ci) = Some ta -> toDate (Some co) = Some tb ->
         date_in ci = Some d1 -> date_in co = Some d2 ->
         nightsBetween (Some ci) (Some co) = Num (d2 - d1)).
Proof.
  split; [| split].
  - intros a b ta tb Ha Hb.
    destruct (nightsBetween_days _ _ _ _ Ha Hb) as (n & Hn & En).
    destruct (nightsBetween_days _ _ _ _ Hb Ha) as (n' & Hn' & En').
    exists n. repeat split; [assumption | | assumption].
    rewrite Hn'. f_equal. unfold msPerDay in *. lia.
  - intros a b c ta tb tc Ha Hb Hc.
    destruct (nightsBetween_days _ _ _ _ Ha Hb) as (n1 & Hn1 & E1).
    destruct (nightsBetween_days _ _ _ _ Hb Hc) as (n2 & Hn2 & E2).
    destruct (nightsBetween_days _ _ _ _ Ha Hc) as (n3 & Hn3 & E3).
    exists n1, n2. repeat split; [assumption | assumption |].
    rewrite Hn3. f_equal. unfold msPerDay in *. lia.
  - intros ci co ta tb d1 d2 Ta Tb H1 H2.
    destruct (nightsBetween_days _ _ _ _ Ta Tb) as (n & Hn & En).
    rewrite (date_in_toDate _ _ _ H1 Ta), (date_in_toDate _ _ _ H2 Tb) in En.
    rewrite Hn. f_equal. unfold msPerDay in *. lia.
Qed.

(** X15.  Looking up what the table holds: a property whose identifier
    is not empty and is borne by no other row is found by that
    identifier, whatever slug comes with it; without an identifier, a
    property whose slug is not empty and is borne by no other row is
    found by its slug.  An empty identifier counts as none: the lookup
    falls back on the slug. *)
Theorem lookup_finds_property (d : Db) (p : Property.t) :
  In p (properties d) ->
  (Property.id p <> "" ->
   (forall q, In q (properties d) -> Property.id q = Property.id p -> q = p) ->
   forall slug, lookup d (Some (Property.id p)) slug = Some p)
  /\ (Property.slug p <> "" ->
      (forall q, In q (properties d) ->
                 Property.slug q = Property.slug p -> q = p) ->
      forall id, truthy id = false ->
                 lookup d id (Some (Property.slug p)) = Some p)
  /\ (forall slug, lookup d (Some "") slug = lookup d None slug).
Proof.
  intros Hin. split; [| split].
  - intros Hne Hu slug. unfold lookup, select_property.
    replace (truthy (Some (Property.id p))) with true
      by (symmetry; apply negb_true_iff, String.eqb_neq, Hne).
    cbn [negb andb].
    apply hd_filter_unique; [assumption | apply String.eqb_refl |].
    intros q Hq E. apply String.eqb_eq in E. now apply Hu.
  - intros Hne Hu id Hid. unfold lookup, select_property. rewrite Hid.
    replace (truthy (Some (Property.slug p))) with true
      by (symmetry; apply negb_true_iff, String.eqb_neq, Hne).
    cbn [negb andb].
    apply hd_filter_unique; [assumption | apply String.eqb_refl |].
    intros q Hq E. apply String.eqb_eq in E. now apply Hu.
  - reflexivity.
Qed.

(** ** Sessions and comparisons *)

Section Sessions.

Variable stripe : SessionParams -> string + string.
Variable FRONTEND_URL : jsval.

(** X17.  The payment session goes with the booking: in a checkout the
    gateway is asked at most once, and only inside the transaction,
    right after the reservation was inserted; an answer of 201 means
    that the gateway opened the session and that the transaction was
    committed after it; and no session is requested for a request
    answered 400, 404 or 409. *)
Theorem session_only_with_booking (b : CheckoutReq.t) (w w' : World)
    (resp : Response) (tr : list Event) :
  run stripe (checkout FRONTEND_URL b) w = (inr resp, w', tr) ->
  (status resp = 201 ->
   exists pre post,
     tr = pre ++ ECreateSession true
              :: ECommit (List.length (clients w)) :: post)
  /\ (forall ok,
         In (ECreateSession ok) tr ->
         exists pre post,
           tr = pre ++ EBegin (List.length (clients w))
                    :: EInsert (List.length (clients w)) true
                    :: ECreateSession ok :: post
           /\ (forall ok', ~ In (ECreateSession ok') pre)
           /\ (forall ok', ~ In (ECreateSession ok') post))
  /\ (In (status resp) [400; 404; 409] ->
      forall ok, ~ In (ECreateSession ok) tr).
Proof.
  rewrite checkout_run.
  destruct (checkout_alone stripe FRONTEND_URL b (db w)
              (List.length (clients w))) as [[resp0 d] tr0] eqn:H.
  intros E. injection E as <- <- <-.
  unfold checkout_alone, lookup_events in H.
  destruct (negb (truthy (CheckoutReq.property_id b))
            && negb (truthy (CheckoutReq.property_slug b)));
    checkout_cases H; injection H as <- <- <-;
    (split;
     [cbn; intros Hx;
      first
        [ discriminate Hx
        | match goal with
          | |- exists pre post,
                 ?a :: ?b :: ?c :: ?d :: ?e :: ECreateSession true :: _ = _ =>
              exists [a; b; c; d; e]; eexists; reflexivity
          | |- exists pre post,
                 ?a :: ?b :: ?c :: ?d :: ECreateSession true :: _ = _ =>
              exists [a; b; c; d]; eexists; reflexivity
          end ] |]);
    (split;
     [| cbn; intros Hs ok Hx; intuition (try discriminate)]);
    cbn; intros ok Hx; intuition (try discriminate);
    match goal with
    | E : ECreateSession _ = ECreateSession _ |- _ => injection E as <-
    end;
    match goal with
    | |- exists pre post, ?x :: ?y :: ?z :: EBegin _ :: _ = _ /\ _ =>
        exists [x; y; z]
    | |- exists pre post, ?x :: ?y :: EBegin _ :: _ = _ /\ _ =>
        exists [x; y]
    end;
    eexists; (split; [reflexivity |]);
    split; cbn; intros ok' Hy; intuition discriminate.
Qed.

End Sessions.

(** X18.  The handler and the database read dates alike where both
    read them: a string that [new Date] reads and the database accepts
    is the same day for both, at midnight UTC, so for two such strings
    the handler's comparison holds exactly when the day stored for the
    checkout is at most the one stored for the checkin.  Where the
    database reads both strings and [new Date] does not read one of
    them, the comparison is false whatever the days are. *)
Theorem date_check_agrees_with_database (ci co : string) (d1 d2 : Z) :
  date_in ci = Some d1 -> date_in co = Some d2 ->
  (forall ta tb,
      toDate (Some ci) = Some ta -> toDate (Some co) = Some tb ->
      ta = d1 * 86400000 /\ tb = d2 * 86400000
      /\ not_after (Some co) (Some ci) = (d2 <=? d1))
  /\ (toDate (Some ci) = None \/ toDate (Some co) = None ->
      not_after (Some co) (Some ci) = false).
Proof.
  intros H1 H2. split.
  - intros ta tb Ta Tb.
    pose proof (date_in_toDate _ _ _ H1 Ta) as E1.
    pose proof (date_in_toDate _ _ _ H2 Tb) as E2.
    unfold msPerDay in *. repeat split; try assumption.
    unfold not_after. rewrite Ta, Tb. subst ta tb.
    destruct (d2 <=? d1) eqn:E.
    + apply Z.leb_le in E. apply Z.leb_le. lia.
    + apply Z.leb_gt in E. apply Z.leb_gt. lia.
  - intros H. unfold not_after.
    destruct H as [E | E]; rewrite E;
      [destruct (toDate (Some co)) |]; reflexivity.
Qed.

(** ** The calendar *)

Lemma month_cases (m : Z) :
  1 <= m <= 12 ->
  m = 1 \/ m = 2 \/ m = 3 \/ m = 4 \/ m = 5 \/ m = 6 \/ m = 7 \/ m = 8
  \/ m = 9 \/ m = 10 \/ m = 11 \/ m = 12.
Proof. lia. Qed.

Lemma leap_year_spec (y : Z) :
  leap_year y = true <->
  (y mod 4 = 0 /\ y mod 100 <> 0) \/ y mod 400 = 0.
Proof.
  unfold leap_year.
  rewrite orb_true_iff, andb_true_iff, negb_true_iff, !Z.eqb_eq, Z.eqb_neq.
  reflexivity.
Qed.

Lemma days_from_civil_flat (y m d : Z) :
  days_from_civil y m d =
  365 * (if m <=? 2 then y - 1 else y)
  + (if m <=? 2 then y - 1 else y) / 4
  - (if m <=? 2 then y - 1 else y) / 100
  + (if m <=? 2 then y - 1 else y) / 400
  + (153 * ((m + 9) mod 12) + 2) / 5 + d - 1 - 719468.
Proof.
  unfold days_from_civil. destruct (m <=? 2); cbv zeta;
    Z.div_mod_to_equations; lia.
Qed.

Lemma days_from_civil_day (y m d : Z) :
  days_from_civil y m d = days_from_civil y m 1 + (d - 1).
Proof. unfold days_from_civil. destruct (m <=? 2); lia. Qed.

Ltac add_constants :=
  repeat match goal with
         | |- context [Z.pos ?a + Z.pos ?b] =>
             let v := eval compute in (Z.pos a + Z.pos b) in
             change (Z.pos a + Z.pos b) with v
         end.

Ltac each_month m :=
  let Hm := fresh "Hm" in
  assert (Hm : 1 <= m <= 12) by lia;
  destruct (month_cases m Hm)
    as [-> | [-> | [-> | [-> | [-> | [-> | [-> | [-> | [-> | [-> | [-> | ->
       ]]]]]]]]]]].

(** The first of the next month comes right after the last day of the
    month. *)
Lemma next_month (y m : Z) :
  1 <= m <= 11 ->
  days_from_civil y (m + 1) 1 = days_from_civil y m 1 + days_in_month y m.
Proof.
  intros Hm. unfold days_in_month. rewrite !days_from_civil_flat.
  destruct (leap_year y) eqn:L.
  - apply leap_year_spec in L.
    each_month m; try lia; add_constants;
      cbn -[Z.div Z.modulo Z.mul Z.add Z.sub];
      Z.div_mod_to_equations; lia.
  - assert (L' : ~ ((y mod 4 = 0 /\ y mod 100 <> 0) \/ y mod 400 = 0))
      by (rewrite <- leap_year_spec, L; discriminate).
    each_month m; try lia; add_constants;
      cbn -[Z.div Z.modulo Z.mul Z.add Z.sub];
      Z.div_mod_to_equations; lia.
Qed.

(** 1 January comes right after 31 December. *)
Lemma next_year (y : Z) :
  days_from_civil (y + 1) 1 1 = days_from_civil y 12 1 + 31.
Proof.
  rewrite !days_from_civil_flat. cbn -[Z.div Z.modulo Z.mul Z.add Z.sub].
  replace (y + 1 - 1) with y by lia.
  Z.div_mod_to_equations. lia.
Qed.

(** X19.  Day numbers count calendar days: the day after a date of the
    calendar, the first of the next month after the last day of a month
    and 1 January after 31 December, leap years included, has the next
    day number; so from a date to the next date of the calendar
    [nightsBetween] counts one night. *)
Theorem next_calendar_day_is_one_night (s s' : string) (y m d : Z) :
  parse_ymd s = Some (y, m, d) ->
  1 <= m <= 12 -> 1 <= d <= days_in_month y m ->
  parse_ymd s' = Some (next_day y m d) ->
  (let '(y', m', d') := next_day y m d in
   days_from_civil y' m' d' = days_from_civil y m d + 1)
  /\ nightsBetween (Some s) (Some s') = Num 1.
Proof.
  intros Hs Hm Hd Hs'.
  assert (Hdim : 28 <= days_in_month y m <= 31).
  { unfold days_in_month.
    destruct (m =? 2); [destruct (leap_year y); lia |].
    destruct ((m =? 4) || (m =? 6) || (m =? 9) || (m =? 11)); lia. }
  assert (Hnext : let '(y', m', d') := next_day y m d in
                  days_from_civil y' m' d' = days_from_civil y m d + 1
                  /\ 1 <= m' <= 12 /\ 1 <= d' <= 31).
  { unfold next_day.
    destruct (d <? days_in_month y m) eqn:E1.
    - apply Z.ltb_lt in E1. split; [| lia].
      rewrite (days_from_civil_day y m (d + 1)), (days_from_civil_day y m d).
      lia.
    - apply Z.ltb_ge in E1. assert (d = days_in_month y m) by lia.
      destruct (m <? 12) eqn:E2.
      + apply Z.ltb_lt in E2. split; [| lia].
        rewrite next_month, (days_from_civil_day y m d) by lia. lia.
      + apply Z.ltb_ge in E2. assert (m = 12) by lia. subst m.
        split; [| lia].
        rewrite next_year, (days_from_civil_day y 12 d).
        unfold days_in_month in *. cbn in *. lia. }
  destruct (next_day y m d) as [[y' m'] d'].
  destruct Hnext as (Hn & Hm' & Hd').
  split; [exact Hn |].
  assert (Ta : toDate (Some s) = Some (days_from_civil y m d * msPerDay))
    by (apply toDate_ymd; [exact Hs | lia | lia]).
  assert (Tb : toDate (Some s')
               = Some (days_from_civil y' m' d' * msPerDay))
    by (apply toDate_ymd; [exact Hs' | lia | lia]).
  destruct (nightsBetween_days _ _ _ _ Ta Tb) as (n & -> & En).
  f_equal. unfold msPerDay in *. lia.
Qed.

(** ** The further properties on the catalogue *)

Lemma stripe_up_opens (p : SessionParams) : exists url, stripe_up p = inr url.
Proof. eexists. reflexivity. Qed.

Lemma first_booking_run :
  run stripe_up
    (checkout frontend
       (booking_for "villa-x" "2024-06-01" "2024-06-04" "a@x.test"))
    empty_world =
  (inr (respond 201
          (CheckoutBody 1 "https://checkout.stripe.test/1" (Num 30000) "EUR")),
   booked_world,
   [EConnect 0; ESelectProperty; ESelectConflicts 0 false; EBegin 0;
    EInsert 0 true; ECreateSession true; ECommit 0; ERelease 0]).
Proof. vm_compute. reflexivity. Qed.

Lemma empty_table_free (pid : string) (a1 a2 : Z) :
  ~ taken (reservations (db empty_world)) pid a1 a2.
Proof. intros (r & [] & _). Qed.

(** X2, witness: the first booking of villa-x adds one pending row. *)
Lemma checkout_all_or_nothing_witness :
  exists prop em ci co d1 d2 url amount currency,
    lookup (db empty_world) None (Some "villa-x") = Some prop
    /\ Some "a@x.test" = Some em
    /\ Some "2024-06-01" = Some ci
    /\ Some "2024-06-04" = Some co
    /\ date_in ci = Some d1 /\ date_in co = Some d2
    /\ CheckoutBody 1 "https://checkout.stripe.test/1" (Num 30000) "EUR"
       = CheckoutBody (next_id (db empty_world)) url amount currency
    /\ reservations (db booked_world) =
       reservations (db empty_world)
       ++ [{| Reservation.id := next_id (db empty_world);
              Reservation.property_id := Property.id prop;
              Reservation.checkin := d1;
              Reservation.checkout := d2;
              Reservation.guests := 1;
              Reservation.email := em;
              Reservation.status := "pending" |}].
Proof.
  exact (proj2 (checkout_all_or_nothing stripe_up frontend _ _ _ _ _
                  first_booking_run) eq_refl).
Defined.

(** X3, witness: the session of the first booking of villa-x. *)
Lemma checkout_session_matches_booking_witness :
  exists p,
    stripe_up p = inr "https://checkout.stripe.test/1"
    /\ meta_reservation_id p = 1
    /\ unit_amount p = Num 30000
    /\ line_currency p = "eur".
Proof.
  destruct (checkout_session_matches_booking stripe_up frontend _ _ _ _ _ _ _
              _ first_booking_run)
    as (p & prop & Hs & Hl & _ & Hid & _ & _ & _ & _ & _ & _ & _ & _ & _
        & Ham & _ & Hcur & _ & _).
  exists p. repeat split; try assumption.
  rewrite Hcur. vm_compute in Hl. injection Hl as <-. reflexivity.
Defined.

(** X4, witness: from 30 February, which is 1 March for [new Date]
    and no date for the database. *)
Lemma checkout_refused_dates_witness :
  run stripe_up
    (checkout frontend
       (booking_for "villa-x" "2024-02-30" "2024-03-05" "a@x.test"))
    empty_world =
  (inr (respond 500
          (bad ("date/time field value out of range: "
                ++ String (ascii_of_nat 34)
                     ("2024-02-30" ++ String (ascii_of_nat 34) ""))%string)),
   with_client (db empty_world) (clients empty_world) closed_client,
   [EConnect 0; ESelectProperty; ESelectConflicts 0 false; ERollback 0;
    ERelease 0]).
Proof.
  apply (checkout_refused_dates stripe_up frontend
           (booking_for "villa-x" "2024-02-30" "2024-03-05" "a@x.test")
           empty_world villa_x "2024-02-30" "2024-03-05"
           (2024, 2, 30) (2024, 3, 5)); try reflexivity.
  left. reflexivity.
Defined.

(** X5, witness: a quote from 5 June to 5 June, the days written with
    one digit. *)
Lemma quote_unread_dates_witness :
  run stripe_up (quote (quote_for "villa-x" "2024-6-5" "2024-6-5"))
    empty_world =
  (inr (respond 200
          (QuoteBody (property_ref villa_x) (Some "2024-6-5")
             (Some "2024-6-5") NaN "EUR" (Num 10000) NaN (Some "NaN EUR"))),
   empty_world, [ESelectProperty]).
Proof.
  apply (quote_unread_dates stripe_up
           (quote_for "villa-x" "2024-6-5" "2024-6-5") empty_world villa_x
           "2024-6-5" "2024-6-5" 19879 19879);
    try reflexivity.
  left. reflexivity.
Defined.

(** X7, witness: no [from], and a [from] on 30 February. *)
Lemma availability_errors_witness :
  run stripe_up
    (availability {| Query.property_slug := Some "villa-x";
                     Query.property_id := None;
                     Query.from := None;
                     Query.to := Some "2024-06-04" |}) empty_world =
  (inr (respond 400 (bad "from/to mancanti")), empty_world, [])
  /\ run stripe_up
       (availability (query_for "villa-x" "2024-02-30" "2024-03-05"))
       empty_world =
     (inr (respond 500
             (bad ("date/time field value out of range: "
                   ++ String (ascii_of_nat 34)
                        ("2024-02-30" ++ String (ascii_of_nat 34) ""))
                  %string)), empty_world,
      [ESelectProperty; ESelectOccupied]).
Proof.
  split.
  - apply (proj1 (availability_errors stripe_up _ empty_world)).
    left. reflexivity.
  - apply (proj2 (availability_errors stripe_up
                    (query_for "villa-x" "2024-02-30" "2024-03-05")
                    empty_world)
             villa_x "2024-02-30" "2024-03-05" (2024, 2, 30) (2024, 3, 5));
      try reflexivity.
    left. reflexivity.
Defined.

(** X8, witness: 3 to 5 June on villa-x, booked from 1 to 4 June. *)
Lemma conflict_iff_occupied_witness :
  exists occ tr,
    run stripe_up
      (availability
         {| Query.property_slug := Some "villa-x";
            Query.property_id := None;
            Query.from := Some "2024-06-03";
            Query.to := Some "2024-06-05" |}) booked_world =
    (inr (respond 200
            (AvailabilityBody (property_ref villa_x) (Some "2024-06-03")
               (Some "2024-06-05") occ)), booked_world, tr)
    /\ (occ <> [] <->
        fst (fst (run stripe_up
                    (checkout frontend
                       (booking_for "villa-x" "2024-06-03" "2024-06-05"
                          "b@x.test")) booked_world))
        = inr (respond 409 (bad "date non disponibili"))).
Proof.
  apply (conflict_iff_occupied stripe_up frontend
           (booking_for "villa-x" "2024-06-03" "2024-06-05" "b@x.test")
           booked_world villa_x "b@x.test" "2024-06-03" "2024-06-05"
           19877 19879); try reflexivity.
  discriminate.
Defined.

(** X9, witness: the first booking of villa-x, seen from 2 to 3 June. *)
Lemma booking_shows_in_availability_witness :
  exists prop occ tr',
    run stripe_up
      (availability
         {| Query.property_slug := Some "villa-x";
            Query.property_id := None;
            Query.from := Some "2024-06-02";
            Query.to := Some "2024-06-03" |}) booked_world =
    (inr (respond 200
            (AvailabilityBody (property_ref prop) (Some "2024-06-02")
               (Some "2024-06-03") occ)), booked_world, tr')
    /\ In {| Occupied.id := 1;
             Occupied.checkin := 19875;
             Occupied.checkout := 19878;
             Occupied.status := "pending" |} occ.
Proof.
  apply (booking_shows_in_availability stripe_up frontend _ _ _ _ _ _ _ _
           "2024-06-01" "2024-06-04" "2024-06-02" "2024-06-03"
           19875 19878 19876 19877 first_booking_run);
    try reflexivity.
  intros [H | H]; vm_compute in H; apply H; reflexivity.
Defined.

(** X10, witness: 1 to 4 June, then 3 to 5 June. *)
Lemma second_overlapping_booking_conflicts_witness :
  exists url amount currency w',
    run_all stripe_up
      [checkout frontend
         (booking_for "villa-x" "2024-06-01" "2024-06-04" "a@x.test");
       checkout frontend
         (booking_for "villa-x" "2024-06-03" "2024-06-05" "b@x.test")]
      empty_world =
    ([inr (respond 201
             (CheckoutBody (next_id (db empty_world)) url amount currency));
      inr (respond 409 (bad "date non disponibili"))], w')
    /\ reservations (db w') =
       reservations (db empty_world)
       ++ [pending_row (next_id (db empty_world)) (Property.id villa_x)
             19875 19878 1 "a@x.test"].
Proof.
  apply (second_overlapping_booking_conflicts stripe_up frontend
           (booking_for "villa-x" "2024-06-01" "2024-06-04" "a@x.test")
           (booking_for "villa-x" "2024-06-03" "2024-06-05" "b@x.test")
           empty_world villa_x "a@x.test" "2024-06-01" "2024-06-04"
           "b@x.test" "2024-06-03" "2024-06-05" 19875 19878 19877 19879);
    try reflexivity; try discriminate.
  - exact stripe_up_opens.
  - apply empty_table_free.
  - intros [H | H]; vm_compute in H; apply H; reflexivity.
Defined.

(** X11, witness: 1 to 4 June, then 4 to 6 June. *)
Lemma disjoint_bookings_both_succeed_witness :
  exists url1 amount1 currency1 url2 amount2 currency2 w',
    run_all stripe_up
      [checkout frontend
         (booking_for "villa-x" "2024-06-01" "2024-06-04" "a@x.test");
       checkout frontend
         (booking_for "villa-x" "2024-06-04" "2024-06-06" "b@x.test")]
      empty_world =
    ([inr (respond 201
             (CheckoutBody (next_id (db empty_world)) url1 amount1
                currency1));
      inr (respond 201
             (CheckoutBody (next_id (db empty_world) + 1) url2 amount2
                currency2))], w')
    /\ reservations (db w') =
       reservations (db empty_world)
       ++ [pending_row (next_id (db empty_world)) (Property.id villa_x)
             19875 19878 1 "a@x.test";
           pending_row (next_id (db empty_world) + 1) (Property.id villa_x)
             19878 19880 1 "b@x.test"].
Proof.
  apply (disjoint_bookings_both_succeed stripe_up frontend
           (booking_for "villa-x" "2024-06-01" "2024-06-04" "a@x.test")
           (booking_for "villa-x" "2024-06-04" "2024-06-06" "b@x.test")
           empty_world villa_x "a@x.test" "2024-06-01" "2024-06-04"
           "b@x.test" "2024-06-04" "2024-06-06" 19875 19878 19878 19880);
    try reflexivity; try discriminate.
  - exact stripe_up_opens.
  - apply empty_table_free.
  - apply empty_table_free.
  - intros H. apply H. left. vm_compute. discriminate.
Defined.

(** X12, witness: two checkouts on the empty table. *)
Lemma checkouts_keep_ranges_nonempty_witness :
  Forall (fun r => Reservation.checkin r < Reservation.checkout r)
    (reservations
       (db (snd (run_all stripe_up
                   (map (checkout frontend)
                      [booking_for "villa-x" "2024-06-01" "2024-06-04"
                         "a@x.test";
                       booking_for "villa-x" "2024-06-04" "2024-06-06"
                         "b@x.test"]) empty_world)))).
Proof.
  apply (checkouts_keep_ranges_nonempty stripe_up frontend);
    [| constructor].
  apply Forall_cons; [| apply Forall_cons; [| apply Forall_nil]];
    intros s [E | E]; injection E as <-; right; eexists; reflexivity.
Defined.

(** X13, witness: 30000 cents. *)
Lemma format_total_exact_witness :
  format_total (Num 30000) "EUR"
  = Some (decimal (30000 / 100) ++ "." ++ two_digits (30000 mod 100)
          ++ " " ++ "EUR")%string.
Proof.
  apply (proj1 format_total_exact). vm_compute.
  split; [discriminate | reflexivity].
Defined.

(** X14, witness: 1 to 4 June. *)
Lemma nights_are_whole_days_witness :
  exists n,
    nightsBetween (Some "2024-06-01") (Some "2024-06-04") = Num n
    /\ nightsBetween (Some "2024-06-04") (Some "2024-06-01") = Num (- n)
    /\ 1717459200000 - 1717200000000 = n * msPerDay.
Proof.
  apply (proj1 nights_are_whole_days (Some "2024-06-01") (Some "2024-06-04"));
    reflexivity.
Defined.

(** X15, witness: villa-x by its identifier, under another slug. *)
Lemma lookup_finds_property_witness :
  lookup (db empty_world) (Some "7") (Some "hut") = Some villa_x.
Proof.
  apply (proj1 (lookup_finds_property (db empty_world) villa_x
                  (or_introl eq_refl))).
  - discriminate.
  - intros q [<- | [<- | [<- | []]]] E; first [reflexivity | discriminate E].
Defined.

(** X16, witness: two overlapping checkouts on the empty table, one
    after the other. *)
Lemma run_all_keeps_no_double_booking_witness :
  no_double_booking
    (reservations
       (db (snd (run_all stripe_up
                   (map (checkout frontend)
                      [booking_for "villa-x" "2024-06-01" "2024-06-04"
                         "a@x.test";
                       booking_for "villa-x" "2024-06-03" "2024-06-05"
                         "b@x.test"]) empty_world)))).
Proof.
  apply (run_all_keeps_no_double_booking stripe_up frontend).
  intros i j r s Hi. destruct i; discriminate Hi.
Defined.

(** X17, witness: the first booking of villa-x. *)
Lemma session_only_with_booking_witness :
  exists pre post,
    [EConnect 0; ESelectProperty; ESelectConflicts 0 false; EBegin 0;
     EInsert 0 true; ECreateSession true; ECommit 0; ERelease 0]
    = pre ++ ECreateSession true
          :: ECommit (List.length (clients empty_world)) :: post.
Proof.
  exact (proj1 (session_only_with_booking stripe_up frontend _ _ _ _ _
                  first_booking_run) eq_refl).
Defined.

(** X18, witness: 1 and 4 June. *)
Lemma date_check_agrees_with_database_witness :
  1717200000000 = 19875 * 86400000
  /\ 1717459200000 = 19878 * 86400000
  /\ not_after (Some "2024-06-04") (Some "2024-06-01") = (19878 <=? 19875).
Proof.
  apply (proj1 (date_check_agrees_with_database "2024-06-01" "2024-06-04"
                  19875 19878 eq_refl eq_refl));
    reflexivity.
Defined.

(** X19, witness: the night from 29 February to 1 March 2024. *)
Lemma next_calendar_day_is_one_night_witness :
  nightsBetween (Some "2024-02-29") (Some "2024-03-01") = Num 1.
Proof.
  apply (next_calendar_day_is_one_night "2024-02-29" "2024-03-01" 2024 2 29);
    try reflexivity; vm_compute; split; discriminate.
Defined.

(** X21, witness: from 4 June back to 1 June, the days written with one
    digit. *)
Lemma unread_dates_booked_witness :
  exists url w' tr,
    run stripe_up
      (checkout frontend
         (booking_for "villa-x" "2024-6-4" "2024-6-1" "a@x.test"))
      empty_world =
    (inr (respond 201 (CheckoutBody 1 url NaN "EUR")), w', tr)
    /\ In (ESelectConflicts 0 false) tr
    /\ In (EInsert 0 true) tr
    /\ reservations (db w') =
       [{| Reservation.id := 1;
           Reservation.property_id := "7";
           Reservation.checkin := 19878;
           Reservation.checkout := 19875;
           Reservation.guests := 1;
           Reservation.email := "a@x.test";
           Reservation.status := "pending" |}].
Proof.
  apply (unread_dates_booked stripe_up frontend
           (booking_for "villa-x" "2024-6-4" "2024-6-1" "a@x.test")
           empty_world villa_x "a@x.test" "2024-6-4" "2024-6-1" 19878 19875);
    try reflexivity.
  - exact stripe_up_opens.
  - discriminate.
  - left. reflexivity.
  - apply empty_table_free.
Defined.
